(** * Dell EMC storage drivers: XtremIO REST client and Unity client

    A shallow embedding of [cinder/volume/drivers/dell_emc/xtremio.py] and
    [cinder/volume/drivers/dell_emc/unity/client.py], and theorems about
    their error translation, retry and recovery idioms.

    Python values are modelled as they occur in the drivers: JSON documents
    as a tree type, dicts as insertion-ordered association lists, integers
    as [Z], exceptions as an inductive type, and every method that talks to
    an array or writes to the log as a function in a state-and-exception
    monad whose state holds the backend and the trace of what was done. *)

From Stdlib Require Import ZArith String Ascii List Bool Lia.
From stdpp Require Import base list strings gmap pretty.
Import ListNotations.

Local Open Scope string_scope.
Local Open Scope Z_scope.

(** ** Python values *)

Set Warnings "-register-all".

(** What [json.loads] produces: [None], booleans, integers, text, lists
    and dicts with text keys (in document order). *)
Inductive json : Type :=
| JNull
| JBool (b : bool)
| JNum (z : Z)
| JStr (s : string)
| JArr (l : list json)
| JObj (kv : list (string * json)).

(** Truth of a value: [None], [False], [0] and the empty text, list and
    dict are false. *)
Definition truthy (j : json) : bool :=
  match j with
  | JNull => false
  | JBool b => b
  | JNum z => negb (z =? 0)
  | JStr s => negb (String.eqb s "")
  | JArr l => match l with [] => false | _ => true end
  | JObj kv => match kv with [] => false | _ => true end
  end.

(** A dict with text keys, as an association list in insertion order. *)
Definition dict := list (string * json).

Fixpoint dict_get (k : string) (d : dict) : option json :=
  match d with
  | [] => None
  | (k', v) :: d' => if String.eqb k' k then Some v else dict_get k d'
  end.

(** [d[k] = v]: an existing key keeps its place, a new one goes last. *)
Fixpoint dict_set (k : string) (v : json) (d : dict) : dict :=
  match d with
  | [] => [(k, v)]
  | (k', v') :: d' =>
      if String.eqb k' k then (k', v) :: d' else (k', v') :: dict_set k v d'
  end.

(** [d.update(other)]. *)
Definition dict_update (d other : dict) : dict :=
  fold_left (fun acc kv => dict_set (fst kv) (snd kv) acc) other d.

(** ** Text operations *)

(** [s.endswith(suffix)]. *)
Definition endswith (s suffix : string) : bool :=
  let n := String.length s in
  let m := String.length suffix in
  if (m <=? n)%nat then String.eqb (substring (n - m) m s) suffix else false.

(** [needle in hay] on text. *)
Fixpoint contains (needle hay : string) : bool :=
  String.prefix needle hay ||
  match hay with
  | EmptyString => false
  | String _ hay' => contains needle hay'
  end.

(** [s.split(sep)] for a one-character separator: never an empty list. *)
Fixpoint split (sep : ascii) (s : string) : list string :=
  match s with
  | EmptyString => [EmptyString]
  | String c s' =>
      if Ascii.eqb c sep then EmptyString :: split sep s'
      else match split sep s' with
           | x :: xs => String c x :: xs
           | [] => [String c EmptyString]
           end
  end.

(** [l[-2:]]: the last two elements, or all of them when there are fewer. *)
Definition last_two {A : Type} (l : list A) : list A :=
  skipn (length l - 2) l.

(** [l[-1]]. *)
Definition last_item {A : Type} (l : list A) : option A :=
  List.last (map Some l) None.

Definition is_digit (c : ascii) : bool :=
  let n := nat_of_ascii c in ((48 <=? n) && (n <=? 57))%nat.

Definition is_space (c : ascii) : bool :=
  let n := nat_of_ascii c in
  ((n =? 32) || ((9 <=? n) && (n <=? 13)))%nat.

Fixpoint lstrip (s : string) : string :=
  match s with
  | String c s' => if is_space c then lstrip s' else s
  | EmptyString => EmptyString
  end.

Fixpoint string_rev_onto (s acc : string) : string :=
  match s with
  | EmptyString => acc
  | String c s' => string_rev_onto s' (String c acc)
  end.

Definition strip (s : string) : string :=
  string_rev_onto (lstrip (string_rev_onto (lstrip s) "")) "".

Fixpoint digits_value (s : string) (acc : Z) : option Z :=
  match s with
  | EmptyString => Some acc
  | String c s' =>
      if is_digit c
      then digits_value s' (10 * acc + (Z.of_nat (nat_of_ascii c) - 48))
      else None
  end.

(** [int(s)] on text: surrounding whitespace, an optional sign, then one or
    more decimal digits; [None] stands for the [ValueError] on anything
    else. *)
Definition py_int (s : string) : option Z :=
  match strip s with
  | EmptyString => None
  | String "-" EmptyString => None
  | String "+" EmptyString => None
  | String "-" ds => Z.opp <$> digits_value ds 0
  | String "+" ds => digits_value ds 0
  | ds => digits_value ds 0
  end.

(** [str(z)] and ['%d' % z]. *)
Definition py_str (z : Z) : string := pretty z.

(** ** Exceptions *)

(** The keyword an exception was built with: [data=] or [message=]. *)
Inductive kwarg : Type :=
| kw_data (s : string)
| kw_message (s : string).

(** Modelled from the spec: the classes of [cinder.exception] and of
    [storops.exception] are declared outside the two driver files. Their
    names are the drivers'; each error kind is a class of its own, and the
    only subclass relation the drivers rely on is [VolumeNotFound] under
    [NotFound]. The built-in exceptions are the ones subscripting, [int]
    and attribute access raise. *)
Inductive exn : Type :=
| VolumeDriverException (message : string)
| VolumeBackendAPIException (arg : kwarg)
| NotFound
| VolumeNotFound (volume_id : json)
| XtremIOAlreadyMappedError
| XtremIOArrayBusy
| XtremIOSnapshotsLimitExceeded
| UnityLunNameInUseError
| UnitySnapNameInUseError
| UnityResourceNotFoundError
| UnityDeleteAttachedSnapError
| UnityException (code : Z)
| ValueError
| AttributeError
| KeyError
| IndexError
| TypeError.

(** [except exception.NotFound]. *)
Definition is_NotFound (e : exn) : bool :=
  match e with
  | NotFound | VolumeNotFound _ => true
  | _ => false
  end.

(** [except exception.VolumeBackendAPIException]. *)
Definition is_VolumeBackendAPIException (e : exn) : bool :=
  match e with
  | VolumeBackendAPIException _ => true
  | _ => false
  end.

(** [except exception.XtremIOArrayBusy]. *)
Definition is_XtremIOArrayBusy (e : exn) : bool :=
  match e with
  | XtremIOArrayBusy => true
  | _ => false
  end.

(** ** The state-and-exception monad *)

Inductive result (A : Type) : Type :=
| Ok (a : A)
| Raise (e : exn).
Arguments Ok {A} a.
Arguments Raise {A} e.

Definition is_Ok {A : Type} (r : result A) : bool :=
  match r with Ok _ => true | Raise _ => false end.

Section Monad.
Context {S : Type}.

Definition M (A : Type) : Type := S -> result A * S.

Definition ret {A : Type} (a : A) : M A := fun s => (Ok a, s).

Definition raise {A : Type} (e : exn) : M A := fun s => (Raise e, s).

Definition bind {A B : Type} (m : M A) (k : A -> M B) : M B :=
  fun s =>
    match m s with
    | (Ok a, s') => k a s'
    | (Raise e, s') => (Raise e, s')
    end.

(** [try: m  except <classes>: h]: the handler runs when [catches e]. *)
Definition try_except {A : Type} (m : M A) (catches : exn -> bool)
    (h : exn -> M A) : M A :=
  fun s =>
    match m s with
    | (Ok a, s') => (Ok a, s')
    | (Raise e, s') => if catches e then h e s' else (Raise e, s')
    end.

(** A pure step that may raise: [None] raises [e]. *)
Definition lift_option {A : Type} (e : exn) (o : option A) : M A :=
  match o with
  | Some a => ret a
  | None => raise e
  end.
End Monad.

Declare Scope monad_scope.
Delimit Scope monad_scope with monad.
Notation "x <- m ;; k" := (bind m (fun x => k))
  (at level 100, m at next level, right associativity) : monad_scope.
Notation "m ;;; k" := (bind m (fun _ => k))
  (at level 100, right associativity) : monad_scope.
Local Open Scope monad_scope.

(** ** Subscripting *)

(** [j[k]] for a text key. *)
Definition getitem (j : json) (k : string) : result json :=
  match j with
  | JObj kv =>
      match dict_get k kv with
      | Some v => Ok v
      | None => Raise KeyError
      end
  | _ => Raise TypeError
  end.

(** [j[0]]. *)
Definition getitem0 (j : json) : result json :=
  match j with
  | JArr (x :: _) => Ok x
  | JArr [] => Raise IndexError
  | JStr (String c _) => Ok (JStr (String c EmptyString))
  | JStr EmptyString => Raise IndexError
  | JObj _ => Raise KeyError
  | _ => Raise TypeError
  end.

Definition lift_result {S A : Type} (r : result A) : M (S:=S) A :=
  fun s => (r, s).

(** ** The trace

    Everything a driver does to the outside is recorded in order: HTTP
    requests and SDK calls, sleeps between retries, and log records. *)

Inductive level : Type := DEBUG | INFO | WARNING | ERROR.

(** [verify=] of [requests.request]: [False], [True] or a CA bundle path. *)
Inductive Verify : Type :=
| VerifyOff
| VerifyOn
| VerifyPath (path : string).

Record Request : Type := mkRequest {
  rq_method : string;
  rq_url : string;
  rq_params : dict;
  rq_data : dict;                (* the body, before [json.dumps] *)
  rq_verify : Verify;
  rq_auth : string * string
}.

(** A [requests] response: [json_body] is what [response.json()] returns,
    [None] when the body is not a JSON document. *)
Record Response : Type := mkResponse {
  status_code : Z;
  text : string;
  json_body : option json
}.

(** [requests.request] returns a response or raises a
    [requests.exceptions.RequestException] with some text. *)
Inductive TransportResult : Type :=
| Received (r : Response)
| RequestException (exc : string).

Inductive event (Call : Type) : Type :=
| EvCall (c : Call)
| EvSleep (seconds : Z)
| EvLog (l : level) (msg : string).
Arguments EvCall {Call} c.
Arguments EvSleep {Call} seconds.
Arguments EvLog {Call} l msg.

Record St (World Call : Type) : Type := mkSt {
  world : World;
  trace : list (event Call)
}.
Arguments mkSt {World Call} world trace.
Arguments world {World Call} s.
Arguments trace {World Call} s.

Section Effects.
Context {World Call : Type}.
Local Abbreviation State := (St World Call).

Definition emit (e : event Call) : M (S:=State) unit :=
  fun s => (Ok tt, mkSt (world s) (trace s ++ [e])).

(** [LOG.<level>(msg, ...)]: the record keeps the message template. *)
Definition LOG (l : level) (msg : string) : M (S:=State) unit :=
  emit (EvLog l msg).

(** The pause between two attempts of a retried call. *)
Definition sleep (seconds : Z) : M (S:=State) unit :=
  emit (EvSleep seconds).

(** One call to the outside: it is recorded, then answered by the
    backend, which may change. *)
Definition external {A : Type} (c : Call)
    (answer : World -> A * World) : M (S:=State) A :=
  fun s =>
    let '(a, w') := answer (world s) in
    (Ok a, mkSt w' (trace s ++ [EvCall c])).

(** The calls recorded in a trace, in order. *)
Fixpoint calls_of (t : list (event Call)) : list Call :=
  match t with
  | [] => []
  | EvCall c :: t' => c :: calls_of t'
  | _ :: t' => calls_of t'
  end.

(** The sleeps recorded in a trace, in order. *)
Fixpoint sleeps_of (t : list (event Call)) : list Z :=
  match t with
  | [] => []
  | EvSleep n :: t' => n :: sleeps_of t'
  | _ :: t' => sleeps_of t'
  end.

(** The log records of a trace, in order. *)
Fixpoint logs_of (t : list (event Call)) : list (level * string) :=
  match t with
  | [] => []
  | EvLog l m :: t' => (l, m) :: logs_of t'
  | _ :: t' => logs_of t'
  end.

(** ** Retrying *)

(** Modelled from the spec: [cinder.utils.retry] is not among the driver
    files. The spec's executor makes up to a maximum number of attempts;
    after an attempt that fails with a retryable error it sleeps for the
    fixed interval and attempts again, and when the attempts are used up
    the last error surfaces. Any other outcome of an attempt is final.

    Python passes the same argument objects to every attempt, so what an
    attempt wrote into a mutable argument is seen by the next: [after]
    gives the argument as an attempt leaves it. *)
Fixpoint retry_loop {X A : Type} (exceptions : exn -> bool) (interval : Z)
    (more : nat) (f : X -> M (S:=State) A) (after : X -> X) (x : X)
    : M (S:=State) A :=
  fun s =>
    match f x s with
    | (Ok a, s') => (Ok a, s')
    | (Raise e, s') =>
        if exceptions e then
          match more with
          | O => (Raise e, s')
          | Datatypes.S k =>
              (sleep interval ;;;
               retry_loop exceptions interval k f after (after x)) s'
          end
        else (Raise e, s')
    end.

(** [@utils.retry(exceptions, retries, interval, 1)]: [retries] attempts
    in all (at least one), the trailing [1] being the multiplier that
    keeps the interval fixed. *)
Definition retry {X A : Type} (exceptions : exn -> bool) (retries : Z)
    (interval : Z) (f : X -> M (S:=State) A) (after : X -> X)
    : X -> M (S:=State) A :=
  retry_loop exceptions interval (Z.to_nat retries - 1) f after.
End Effects.

(** * The XtremIO driver *)

Module XtremIO.

(** ** Module-level constants and options *)

Definition OBJ_NOT_FOUND_ERR := "obj_not_found".
Definition VOL_NOT_UNIQUE_ERR := "vol_obj_name_not_unique".
Definition VOL_OBJ_NOT_FOUND_ERR := "vol_obj_not_found".
Definition ALREADY_MAPPED_ERR := "already_mapped".
Definition SYSTEM_BUSY := "system_is_busy".
Definition TOO_MANY_OBJECTS := "too_many_objs".
Definition TOO_MANY_SNAPSHOTS_PER_VOL := "too_many_snapshots_per_vol".

(** The two retry options of [XTREMIO_OPTS], read from the global [CONF]. *)
Record Conf : Type := mkConf {
  xtremio_array_busy_retry_count : Z;
  xtremio_array_busy_retry_interval : Z
}.

(** The defaults [XTREMIO_OPTS] declares. *)
Definition XTREMIO_OPTS : Conf :=
  {| xtremio_array_busy_retry_count := 5;
     xtremio_array_busy_retry_interval := 5 |}.

(** The backend options a client reads from [self.configuration]. *)
Record Configuration : Type := mkConfiguration {
  san_ip : string;
  san_login : string;
  san_password : string;
  driver_ssl_cert_verify : bool;
  driver_ssl_cert_path : option string
}.

(** ** The clients *)

Inductive client_class : Type := XtremIOClient3 | XtremIOClient4.

Record Client : Type := mkClient {
  class_of : client_class;
  configuration : Configuration;
  cluster_id : string;
  verify : Verify
}.

(** [XtremIOClient.__init__]. *)
Definition new_client (cls : client_class) (configuration : Configuration)
    (cluster_id : string) : Client :=
  let verify :=
    if driver_ssl_cert_verify configuration then
      match driver_ssl_cert_path configuration with
      | Some (String c p) => VerifyPath (String c p)
      | _ => VerifyOn
      end
    else VerifyOff in
  mkClient cls configuration cluster_id verify.

(** [XtremIOClient.get_base_url]: [None] for any other [ver]. *)
Definition get_base_url (self : Client) (ver : string) : option string :=
  if String.eqb ver "v1" then
    Some ("https://" ++ san_ip (configuration self) ++ "/api/json/types")
  else if String.eqb ver "v2" then
    Some ("https://" ++ san_ip (configuration self) ++ "/api/json/v2/types")
  else None.

(** ['%s' % x] where [x] may be [None]. *)
Definition fmt_s (x : option string) : string :=
  match x with
  | Some s => s
  | None => "None"
  end.

(** [update_url]: the base class does nothing, [XtremIOClient4] adds the
    cluster name when a cluster id is configured. *)
Definition update_url (self : Client) (data : dict) : dict :=
  match class_of self, cluster_id self with
  | XtremIOClient4, String c s => dict_set "cluster-name" (JStr (String c s)) data
  | _, _ => data
  end.

(** [update_data]: likewise, for the body. *)
Definition update_data (self : Client) (data : dict) : dict :=
  match class_of self, cluster_id self with
  | XtremIOClient4, String c s => dict_set "cluster-id" (JStr (String c s)) data
  | _, _ => data
  end.

(** Truth of [idx]: [None] and [0] are false. *)
Definition idx_set (idx : option Z) : bool :=
  match idx with
  | Some z => negb (z =? 0)
  | None => false
  end.

(** [method in ('GET', 'DELETE')], [method != 'GET'],
    [method in ('GET', 'POST')]. *)
Definition in_GET_DELETE (method : string) : bool :=
  String.eqb method "GET" || String.eqb method "DELETE".
Definition not_GET (method : string) : bool := negb (String.eqb method "GET").
Definition in_GET_POST (method : string) : bool :=
  String.eqb method "GET" || String.eqb method "POST".

(** The [ver] a call without [ver=] gets: ['v1'] in [XtremIOClient.req],
    ['v2'] in the override of [XtremIOClient4]. *)
Definition default_ver (self : Client) : string :=
  match class_of self with
  | XtremIOClient3 => "v1"
  | XtremIOClient4 => "v2"
  end.

Section Backend.
Context {World : Type}.

(** The array behind [requests.request]. *)
Variable send : Request -> World -> TransportResult * World.

(** The global [CONF] at the time [req] was decorated. *)
Variable CONF : Conf.

Local Abbreviation State := (St World Request).

(** [response.json()]. *)
Definition response_json (response : Response) : M (S:=State) json :=
  lift_option ValueError (json_body response).

(** [XtremIOClient.handle_errors]. *)
Definition handle_errors (response : Response) (key : json)
    (object_type : string) : M (S:=State) unit :=
  (if status_code response =? 400 then
     error <- response_json response ;;
     err_msg <- match error with
                | JObj kv => ret (default JNull (dict_get "message" kv))
                | _ => raise AttributeError
                end ;;
     match err_msg with
     | JStr err_msg =>
         if endswith err_msg OBJ_NOT_FOUND_ERR then
           LOG WARNING "object %(key)s of type %(typ)s not found, %(err_msg)s" ;;;
           raise NotFound
         else if String.eqb err_msg VOL_NOT_UNIQUE_ERR then
           LOG ERROR "can't create 2 volumes with the same name, %s" ;;;
           raise (VolumeBackendAPIException
                    (kw_data "Volume by this name already exists"))
         else if String.eqb err_msg VOL_OBJ_NOT_FOUND_ERR then
           LOG ERROR "Can't find volume to map %(key)s, %(msg)s" ;;;
           raise (VolumeNotFound key)
         else if contains ALREADY_MAPPED_ERR err_msg then
           raise XtremIOAlreadyMappedError
         else if String.eqb err_msg SYSTEM_BUSY then
           raise XtremIOArrayBusy
         else if String.eqb err_msg TOO_MANY_OBJECTS
                 || String.eqb err_msg TOO_MANY_SNAPSHOTS_PER_VOL then
           raise XtremIOSnapshotsLimitExceeded
         else ret tt
     | _ => raise AttributeError      (* no [endswith] on a value that is not text *)
     end
   else ret tt) ;;;
  let msg := "Bad response from XMS, " ++ text response in
  LOG ERROR msg ;;;
  raise (VolumeBackendAPIException (kw_message msg)).

(** [requests.request(...)] inside its [try]: a [RequestException] becomes
    a [VolumeDriverException]. *)
Definition requests_request (r : Request) : M (S:=State) Response :=
  t <- external r (send r) ;;
  match t with
  | Received response => ret response
  | RequestException exc =>
      raise (VolumeDriverException ("Exception: " ++ exc))
  end.

(** The part of [XtremIOClient.req] between the check of [name] and [idx]
    and the debug records: the URL, the query parameters and the body of
    the request, and the [key] the classifier is given. It only computes. *)
Definition build_request (self : Client) (object_type method : string)
    (name : json) (idx : option Z) (ver : string) (data : dict)
    : Request * json :=
  let url := fmt_s (get_base_url self ver) ++ "/" ++ object_type in
  let params : dict := [] in
  let '(url, params, key) :=
    if truthy name then
      (url, dict_set "name" name params, name)
    else if idx_set idx then
      (url ++ "/" ++ py_str (default 0 idx), params,
       JStr (py_str (default 0 idx)))
    else (url, params, JNull) in
  let params :=
    if in_GET_DELETE method
    then update_url self (dict_update params data)
    else params in
  let data := if not_GET method then update_data self data else data in
  (mkRequest method url params data (verify self)
     (san_login (configuration self), san_password (configuration self)),
   key).

(** [if not data: data = {}]. *)
Definition data_or_empty (data : option dict) : dict :=
  match data with
  | Some (kv :: d) => kv :: d
  | _ => []
  end.

(** The body of [XtremIOClient.req], one attempt. The classifier is the
    method [self.handle_errors]; it is a parameter here so that what an
    attempt owes to it can be stated. *)
Definition req_body
    (classify : Response -> json -> string -> M (S:=State) unit)
    (self : Client) (object_type method : string) (name : json)
    (idx : option Z) (ver : string) (data : option dict)
    : M (S:=State) json :=
  let data := data_or_empty data in
  if truthy name && idx_set idx then
    let msg := "can't handle both name and index in req" in
    LOG ERROR msg ;;;
    raise (VolumeDriverException msg)
  else
    let request := fst (build_request self object_type method name idx ver data) in
    let key := snd (build_request self object_type method name idx ver data) in
    (if not_GET method then LOG DEBUG "data: %s" else ret tt) ;;;
    LOG DEBUG "%(type)s %(url)s" ;;;
    response <- requests_request request ;;
    if (200 <=? status_code response) && (status_code response <? 300) then
      if in_GET_POST method then response_json response
      else ret (JStr "")
    else
      classify response key object_type ;;;
      ret JNull.

(** The caller's [data] dict as an attempt leaves it: a non-empty dict is
    written to in place by [update_data]; [None] and the empty dict are
    replaced by a dict of the attempt's own. *)
Definition data_after_req (self : Client) (method : string)
    (data : option dict) : option dict :=
  match data with
  | Some (kv :: d) =>
      if not_GET method then Some (update_data self (kv :: d)) else data
  | _ => data
  end.

(** [XtremIOClient.req] as decorated, with [ver] given. *)
Definition req_ver (self : Client) (object_type method : string)
    (data : option dict) (name : json) (idx : option Z)
    (ver : string) : M (S:=State) json :=
  retry is_XtremIOArrayBusy
    (xtremio_array_busy_retry_count CONF)
    (xtremio_array_busy_retry_interval CONF)
    (req_body handle_errors self object_type method name idx ver)
    (data_after_req self method)
    data.

(** [self.req(object_type, method, data, name, idx, ver)]; a [name] of
    [JNull] is [None], and [ver = None] is a call that leaves [ver] out. *)
Definition req (self : Client) (object_type method : string)
    (data : option dict) (name : json) (idx : option Z)
    (ver : option string) : M (S:=State) json :=
  req_ver self object_type method data name idx
    (default (default_ver self) ver).

(** [typ, idx = res['links'][0]['href'].split('/')[-2:]] together with the
    [int(idx)] of the call that follows: nothing happens between the two. *)
Definition href_type_index (res : json) : result (string * Z) :=
  match getitem res "links" with
  | Raise e => Raise e
  | Ok links =>
      match getitem0 links with
      | Raise e => Raise e
      | Ok link =>
          match getitem link "href" with
          | Raise e => Raise e
          | Ok (JStr href) =>
              match last_two (split "/" href) with
              | [typ; idx] =>
                  match py_int idx with
                  | Some idx => Ok (typ, idx)
                  | None => Raise ValueError
                  end
              | _ => Raise ValueError     (* not two values to unpack *)
              end
          | Ok _ => Raise AttributeError  (* no [split] on a value that is not text *)
          end
      end
  end.

(** [XtremIOClient3.create_snapshot]. *)
Definition XtremIOClient3_create_snapshot (self : Client) (src dest : string)
    (ro : bool) : M (S:=State) unit :=
  let data := [("snap-vol-name", JStr dest); ("ancestor-vol-id", JStr src)] in
  req self "snapshots" "POST" (Some data) JNull None None ;;;
  ret tt.

(** [XtremIOClient4.create_snapshot]. *)
Definition XtremIOClient4_create_snapshot (self : Client) (src dest : string)
    (ro : bool) : M (S:=State) unit :=
  let data := [("snapshot-set-name", JStr dest); ("snap-suffix", JStr dest);
               ("volume-list", JArr [JStr src]);
               ("snapshot-type", JStr (if ro then "readonly" else "regular"))] in
  res <- req self "snapshots" "POST" (Some data) JNull None (Some "v2") ;;
  ti <- lift_result (href_type_index res) ;;
  let typ := fst ti in
  let idx := snd ti in
  (* rename the snapshot *)
  let data := [("name", JStr dest)] in
  try_except
    (req self typ "PUT" (Some data) JNull (Some idx) None ;;; ret tt)
    is_VolumeBackendAPIException
    (fun e =>
       (* reverting *)
       LOG ERROR "Failed to rename the created snapshot, reverting." ;;;
       req self typ "DELETE" None JNull (Some idx) None ;;;
       raise e).

(** [self.client.create_snapshot(src, dest, ro)]. *)
Definition client_create_snapshot (self : Client) (src dest : string)
    (ro : bool) : M (S:=State) unit :=
  match class_of self with
  | XtremIOClient3 => XtremIOClient3_create_snapshot self src dest ro
  | XtremIOClient4 => XtremIOClient4_create_snapshot self src dest ro
  end.

(** [self.client.add_vol_to_cg(vol_id, cg_id)]: [pass] in the base class,
    a POST in [XtremIOClient4]. *)
Definition add_vol_to_cg (self : Client) (vol_id cg_id : string)
    : M (S:=State) unit :=
  match class_of self with
  | XtremIOClient3 => ret tt
  | XtremIOClient4 =>
      let add_data := [("vol-id", JStr vol_id); ("cg-id", JStr cg_id)] in
      req self "consistency-group-volumes" "POST" (Some add_data) JNull None
        (Some "v2") ;;;
      ret tt
  end.

(** ** The volume driver *)

Record Volume : Type := mkVolume {
  v_id : string;                              (* [volume['id']] *)
  v_size : Z;                                 (* [volume['size']] *)
  v_consistencygroup_id : option string;      (* [volume.get(...)] *)
  v_name_id : string                          (* [volume.name_id] *)
}.

Record Snapshot : Type := mkSnapshot {
  s_id : string;                              (* [snapshot.id] *)
  s_volume_id : string                        (* [snapshot.volume_id] *)
}.

(** The attributes of [XtremIOVolumeDriver] the operations below use. *)
Record Driver : Type := mkDriver {
  d_configuration : Configuration;
  d_cluster_id : string;
  client : Client
}.

(** [XtremIOVolumeDriver.__init__]: the session starts on the legacy
    client. *)
Definition new_driver (configuration : Configuration)
    (xtremio_cluster_name : option string) : Driver :=
  let cluster_id := default "" xtremio_cluster_name in
  mkDriver configuration cluster_id
    (new_client XtremIOClient3 configuration cluster_id).

Definition MIN_XMS_VERSION : list Z := [3; 0; 0].

(** [a < b] on lists of integers: lexicographic, a proper prefix being
    smaller. *)
Fixpoint list_lt (a b : list Z) : bool :=
  match a, b with
  | _, [] => false
  | [], _ :: _ => true
  | x :: a', y :: b' =>
      if x <? y then true else if y <? x then false else list_lt a' b'
  end.

(** [[int(n) for n in l]]. *)
Fixpoint ints_of (l : list string) : option (list Z) :=
  match l with
  | [] => Some []
  | n :: l' =>
      match py_int n with
      | Some z => cons z <$> ints_of l'
      | None => None
      end
  end.

(** [[int(n) for n in version_text.split('-')[0].split('.')]]. *)
Definition parse_version (version_text : string) : option (list Z) :=
  ints_of (split "." (hd "" (split "-" version_text))).

(** The [try] block of [check_for_setup_error]: the name of the first
    cluster listed, then the information on that cluster and its
    [sys-sw-version]. *)
Definition probe_version (self : Driver) : M (S:=State) json :=
  try_except
    (clusters <- req (client self) "clusters" "GET" None JNull None None ;;
     clusters <- lift_result (getitem clusters "clusters") ;;
     first <- lift_result (getitem0 clusters) ;;
     name <- lift_result (getitem first "name") ;;
     cluster <- req (client self) "clusters" "GET" None name None None ;;
     cluster <- lift_result (getitem cluster "content") ;;
     lift_result (getitem cluster "sys-sw-version"))
    is_NotFound
    (fun _ =>
       raise (VolumeBackendAPIException
                (kw_data "XtremIO not initialized correctly, no clusters found"))).

(** [XtremIOVolumeDriver.check_for_setup_error]; the result is [self] as
    the method leaves it. *)
Definition check_for_setup_error (self : Driver) : M (S:=State) Driver :=
  version_text <- probe_version self ;;
  ver <- match version_text with
         | JStr version_text =>
             lift_option ValueError (parse_version version_text)
         | _ => raise AttributeError
         end ;;
  (if list_lt ver MIN_XMS_VERSION then
     let msg := "Invalid XtremIO version %(cur)s, version %(min)s or up is required" in
     LOG ERROR msg ;;;
     raise (VolumeBackendAPIException (kw_data msg))
   else LOG INFO "XtremIO SW version %s") ;;;
  if 4 <=? hd 0 ver then
    ret (mkDriver (d_configuration self) (d_cluster_id self)
           (new_client XtremIOClient4 (d_configuration self)
              (d_cluster_id self)))
  else ret self.

(** [XtremIOVolumeDriver.create_volume]. *)
Definition create_volume (self : Driver) (volume : Volume)
    : M (S:=State) unit :=
  let data := [("vol-name", JStr (v_id volume));
               ("vol-size", JStr (py_str (v_size volume) ++ "g"))] in
  req (client self) "volumes" "POST" (Some data) JNull None None ;;;
  match v_consistencygroup_id volume with
  | Some (String c cg) =>
      add_vol_to_cg (client self) (v_id volume) (String c cg)
  | _ => ret tt
  end.

(** [XtremIOVolumeDriver.delete_volume]. *)
Definition delete_volume (self : Driver) (volume : Volume)
    : M (S:=State) unit :=
  try_except
    (req (client self) "volumes" "DELETE" None (JStr (v_name_id volume))
       None None ;;; ret tt)
    is_NotFound
    (fun _ => LOG INFO "volume %s doesn't exist").

(** [XtremIOVolumeDriver.create_snapshot]. *)
Definition create_snapshot (self : Driver) (snapshot : Snapshot)
    : M (S:=State) unit :=
  client_create_snapshot (client self) (s_volume_id snapshot)
    (s_id snapshot) true.

(** [XtremIOVolumeDriver.delete_snapshot]. *)
Definition delete_snapshot (self : Driver) (snapshot : Snapshot)
    : M (S:=State) unit :=
  try_except
    (req (client self) "volumes" "DELETE" None (JStr (s_id snapshot))
       None None ;;; ret tt)
    is_NotFound
    (fun _ => LOG INFO "snapshot %s doesn't exist").

(** ** The Fibre Channel driver: LUN numbers *)

(** [for x in j]: a list gives its items, a dict its keys, text its
    characters; nothing else can be iterated. *)
Definition iter_json (j : json) : result (list json) :=
  match j with
  | JArr l => Ok l
  | JObj kv => Ok (map (fun p => JStr (fst p)) kv)
  | JStr s => Ok (map (fun c => JStr (String c EmptyString)) (list_ascii_of_string s))
  | _ => Raise TypeError
  end.

(** [[f(x) for x in l]], stopping at the first error. *)
Fixpoint result_map {A B : Type} (f : A -> result B) (l : list A)
    : result (list B) :=
  match l with
  | [] => Ok []
  | x :: l' =>
      match f x with
      | Ok y =>
          match result_map f l' with
          | Ok ys => Ok (y :: ys)
          | Raise e => Raise e
          end
      | Raise e => Raise e
      end
  end.

(** The loop of [_get_free_lun]: one filtered [lun-maps] query per
    initiator group, [luns] being extended by the [lun] of every map. *)
Fixpoint extend_luns (self : Driver) (igs : list string) (luns : list json)
    : M (S:=State) (list json) :=
  match igs with
  | [] => ret luns
  | ig :: igs' =>
      res <- req (client self) "lun-maps" "GET"
               (Some [("full", JNum 1); ("prop", JStr "lun");
                      ("filter", JStr ("ig-name:eq:" ++ ig))])
               JNull None None ;;
      lms <- lift_result (getitem res "lun-maps") ;;
      lms <- lift_result (iter_json lms) ;;
      more <- lift_result (result_map (fun lm => getitem lm "lun") lms) ;;
      extend_luns self igs' (luns ++ more)
  end.

(** A value as a member of a Python set: numbers (with [True] as [1] and
    [False] as [0]), [None] and text can be hashed, lists and dicts
    cannot. *)
Definition set_key : Type := Z + option string.

Definition hash_key (j : json) : option set_key :=
  match j with
  | JNull => Some (inr None)
  | JBool b => Some (inl (if b then 1 else 0))
  | JNum z => Some (inl z)
  | JStr s => Some (inr (Some s))
  | JArr _ | JObj _ => None
  end.

(** The integers among the members of a set. *)
Definition ints_in (l : list set_key) : list Z :=
  omap (fun k => match k with inl z => Some z | inr _ => None end) l.

(** [min(l)]: [None] for the [ValueError] on an empty argument. *)
Definition py_min (l : list Z) : option Z :=
  match l with
  | [] => None
  | x :: l' => Some (fold_left Z.min l' x)
  end.

(** The last three lines of [_get_free_lun]. *)
Definition free_lun (luns : list json) : result Z :=
  match mapM hash_key (luns ++ [JNum 0]) with
  | None => Raise TypeError               (* an unhashable LUN value *)
  | Some keys =>
      let uniq_luns : gset set_key := list_to_set keys in
      let seq := seqZ 0 (Z.of_nat (size uniq_luns) + 1) in
      let free : gset set_key := list_to_set (inl <$> seq) ∖ uniq_luns in
      match py_min (ints_in (elements free)) with
      | Some m => Ok m
      | None => Raise ValueError
      end
  end.

(** [XtremIOFCDriver._get_free_lun]. *)
Definition _get_free_lun (self : Driver) (igs : list string)
    : M (S:=State) Z :=
  luns <- extend_luns self igs [] ;;
  lift_result (free_lun luns).

(** ** A session

    The operations the host framework may call on a driver, and a session
    as a sequence of them: each runs on the driver as the previous one left
    it, and an error ends the operation, not the session. *)
Inductive operation : Type :=
| CheckForSetupError
| CreateVolume (volume : Volume)
| DeleteVolume (volume : Volume)
| CreateSnapshot (snapshot : Snapshot)
| DeleteSnapshot (snapshot : Snapshot)
| GetFreeLun (igs : list string).

Definition run_operation (op : operation) (self : Driver) (s : State)
    : Driver * State :=
  match op with
  | CheckForSetupError =>
      match check_for_setup_error self s with
      | (Ok self', s') => (self', s')
      | (Raise _, s') => (self, s')
      end
  | CreateVolume volume => (self, snd (create_volume self volume s))
  | DeleteVolume volume => (self, snd (delete_volume self volume s))
  | CreateSnapshot snapshot => (self, snd (create_snapshot self snapshot s))
  | DeleteSnapshot snapshot => (self, snd (delete_snapshot self snapshot s))
  | GetFreeLun igs => (self, snd (_get_free_lun self igs s))
  end.

Fixpoint run_session (ops : list operation) (self : Driver) (s : State)
    : Driver * State :=
  match ops with
  | [] => (self, s)
  | op :: ops' =>
      let '(self', s') := run_operation op self s in
      run_session ops' self' s'
  end.

(** ** Names *)

(** [s.replace(c, '')] for a one-character [c]. *)
Fixpoint remove_char (c : ascii) (s : string) : string :=
  match s with
  | EmptyString => EmptyString
  | String a s' =>
      if Ascii.eqb a c then remove_char c s' else String a (remove_char c s')
  end.

(** [[s[i:i + 2] for i in range(0, len(s), 2)]]: the text cut in pieces
    of two characters, the last one shorter when the length is odd. *)
Fixpoint pairs (s : string) : list string :=
  match s with
  | EmptyString => []
  | String a s1 =>
      match s1 with
      | EmptyString => [String a EmptyString]
      | String b s2 => String a (String b EmptyString) :: pairs s2
      end
  end.

(** One name of [XtremIOFCDriver._get_initiator_names]: a WWPN that has a
    colon is taken as it is, any other gets a colon after every two
    characters. *)
Definition wwpn_name (wwpn : string) : string :=
  if contains ":" wwpn then wwpn else String.concat ":" (pairs wwpn).

(** [XtremIOFCDriver._get_initiator_names], on [connector['wwpns']]. *)
Definition FC_get_initiator_names (wwpns : list string) : list string :=
  map wwpn_name wwpns.

(** [XtremIOVolumeDriver._get_cgsnap_name], on the two ids of the
    cgsnapshot. *)
Definition _get_cgsnap_name (consistencygroup_id id : string) : string :=
  remove_char "-" consistencygroup_id ++ remove_char "-" id.

(** [XtremIOVolumeDriver.create_cgsnapshot]; the result is the pair
    [(None, None)]. *)
Definition create_cgsnapshot (self : Driver) (consistencygroup_id id : string)
    : M (S:=State) unit :=
  let data := [("consistency-group-id", JStr consistencygroup_id);
               ("snapshot-set-name",
                JStr (_get_cgsnap_name consistencygroup_id id))] in
  req (client self) "snapshots" "POST" (Some data) JNull None (Some "v2") ;;;
  ret tt.

(** [XtremIOVolumeDriver.delete_cgsnapshot]; the result is the pair
    [(None, None)]. *)
Definition delete_cgsnapshot (self : Driver) (consistencygroup_id id : string)
    : M (S:=State) unit :=
  req (client self) "snapshot-sets" "DELETE" None
    (JStr (_get_cgsnap_name consistencygroup_id id)) None (Some "v2") ;;;
  ret tt.


(** ** Lun-maps and initiators *)

(** [j == s] for a text [s]. *)
Definition py_eq_str (j : json) (s : string) : bool :=
  match j with
  | JStr t => String.eqb t s
  | _ => false
  end.

(** [len(j)]. *)
Definition py_len (j : json) : result Z :=
  match j with
  | JArr l => Ok (Z.of_nat (length l))
  | JObj kv => Ok (Z.of_nat (length kv))
  | JStr s => Ok (Z.of_nat (String.length s))
  | _ => Raise TypeError
  end.

(** [lm_link['href'].split('/')[-1]]. *)
Definition href_last (lm_link : json) : result string :=
  match getitem lm_link "href" with
  | Raise e => Raise e
  | Ok (JStr href) => Ok (List.last (split "/" href) "")
  | Ok _ => Raise AttributeError
  end.

(** The [try] inside the loops over the lun-maps: the map of index
    [int(idx)], or [None] when it is no longer there ([continue]). *)
Definition lunmap_by_index (self : Client) (idx : string)
    : M (S:=State) (option json) :=
  try_except
    (i <- lift_option ValueError (py_int idx) ;;
     r <- req self "lun-maps" "GET" None JNull (Some i) None ;;
     lm <- lift_result (getitem r "content") ;;
     ret (Some lm))
    is_NotFound
    (fun _ => ret None).

(** The loop of [XtremIOClient3.find_lunmap]; [JNull] is [None]. *)
Fixpoint find_lunmap_loop (self : Client) (ig_name vol_name : string)
    (lun_mappings : list json) : M (S:=State) json :=
  match lun_mappings with
  | [] => ret JNull
  | lm_link :: rest =>
      idx <- lift_result (href_last lm_link) ;;
      lm <- lunmap_by_index self idx ;;
      match lm with
      | None => find_lunmap_loop self ig_name vol_name rest
      | Some lm =>
          ig <- lift_result (getitem lm "ig-name") ;;
          if py_eq_str ig ig_name then
            vol <- lift_result (getitem lm "vol-name") ;;
            if py_eq_str vol vol_name then ret lm
            else find_lunmap_loop self ig_name vol_name rest
          else find_lunmap_loop self ig_name vol_name rest
      end
  end.

(** [XtremIOClient3.find_lunmap]. *)
Definition XtremIOClient3_find_lunmap (self : Client)
    (ig_name vol_name : string) : M (S:=State) json :=
  lun_mappings <-
    try_except
      (r <- req self "lun-maps" "GET" None JNull None None ;;
       lift_result (getitem r "lun-maps"))
      is_NotFound
      (fun _ =>
         raise (VolumeDriverException
                  ("can't find lun-map, ig:" ++ ig_name ++ " vol:" ++ vol_name))) ;;
  lun_mappings <- lift_result (iter_json lun_mappings) ;;
  find_lunmap_loop self ig_name vol_name lun_mappings.

(** [except (KeyError, IndexError)]. *)
Definition is_KeyError_or_IndexError (e : exn) : bool :=
  match e with
  | KeyError | IndexError => true
  | _ => false
  end.

(** [XtremIOClient4.find_lunmap]. *)
Definition XtremIOClient4_find_lunmap (self : Client)
    (ig_name vol_name : string) : M (S:=State) json :=
  try_except
    (r <- req self "lun-maps" "GET"
            (Some [("full", JNum 1);
                   ("filter", JArr [JStr ("vol-name:eq:" ++ vol_name);
                                    JStr ("ig-name:eq:" ++ ig_name)])])
            JNull None None ;;
     l <- lift_result (getitem r "lun-maps") ;;
     lift_result (getitem0 l))
    is_KeyError_or_IndexError
    (fun _ => raise (VolumeNotFound (JStr vol_name))).

(** [self.client.find_lunmap(ig_name, vol_name)]. *)
Definition client_find_lunmap (self : Client) (ig_name vol_name : string)
    : M (S:=State) json :=
  match class_of self with
  | XtremIOClient3 => XtremIOClient3_find_lunmap self ig_name vol_name
  | XtremIOClient4 => XtremIOClient4_find_lunmap self ig_name vol_name
  end.

(** The loop of [XtremIOClient3.num_of_mapped_volumes]. *)
Fixpoint count_mapped_loop (self : Client) (initiator : string)
    (lun_mappings : list json) (cnt : Z) : M (S:=State) Z :=
  match lun_mappings with
  | [] => ret cnt
  | lm_link :: rest =>
      idx <- lift_result (href_last lm_link) ;;
      lm <- lunmap_by_index self idx ;;
      match lm with
      | None => count_mapped_loop self initiator rest cnt
      | Some lm =>
          ig <- lift_result (getitem lm "ig-name") ;;
          if py_eq_str ig initiator
          then count_mapped_loop self initiator rest (cnt + 1)
          else count_mapped_loop self initiator rest cnt
      end
  end.

(** [XtremIOClient3.num_of_mapped_volumes]. *)
Definition XtremIOClient3_num_of_mapped_volumes (self : Client)
    (initiator : string) : M (S:=State) Z :=
  r <- req self "lun-maps" "GET" None JNull None None ;;
  lun_mappings <- lift_result (getitem r "lun-maps") ;;
  lun_mappings <- lift_result (iter_json lun_mappings) ;;
  count_mapped_loop self initiator lun_mappings 0.

(** [XtremIOClient4.num_of_mapped_volumes]. *)
Definition XtremIOClient4_num_of_mapped_volumes (self : Client)
    (initiator : string) : M (S:=State) Z :=
  r <- req self "lun-maps" "GET"
         (Some [("filter", JStr ("ig-name:eq:" ++ initiator))])
         JNull None None ;;
  l <- lift_result (getitem r "lun-maps") ;;
  lift_result (py_len l).

(** [XtremIOClient3.get_initiator]; [JNull] is [None]. *)
Definition XtremIOClient3_get_initiator (self : Client)
    (port_address : string) : M (S:=State) json :=
  try_except
    (r <- req self "initiators" "GET" None (JStr port_address) None None ;;
     lift_result (getitem r "content"))
    is_NotFound
    (fun _ => ret JNull).

(** [XtremIOClient4.get_initiator]. *)
Definition XtremIOClient4_get_initiator (self : Client)
    (port_address : string) : M (S:=State) json :=
  r <- req self "initiators" "GET"
         (Some [("filter", JStr ("port-address:eq:" ++ port_address));
                ("full", JNum 1)])
         JNull None None ;;
  inits <- lift_result (getitem r "initiators") ;;
  n <- lift_result (py_len inits) ;;
  if n =? 1 then lift_result (getitem0 inits) else ret JNull.

(** [XtremIOVolumeDriver._obj_from_result]. *)
Definition _obj_from_result (self : Driver) (res : json)
    : M (S:=State) json :=
  ti <- lift_result (href_type_index res) ;;
  r <- req (client self) (fst ti) "GET" None JNull (Some (snd ti)) None ;;
  lift_result (getitem r "content").

(** [except exception.XtremIOAlreadyMappedError]. *)
Definition is_XtremIOAlreadyMappedError (e : exn) : bool :=
  match e with
  | XtremIOAlreadyMappedError => true
  | _ => false
  end.

(** [XtremIOVolumeDriver.create_lun_map], on [volume['id']]; a [lun_num]
    of [JNull] is [None]. *)
Definition create_lun_map (self : Driver) (volume_id ig : string)
    (lun_num : json) : M (S:=State) json :=
  try_except
    (let data := [("ig-id", JStr ig); ("vol-id", JStr volume_id)] in
     let data := if truthy lun_num then dict_set "lun" lun_num data
                 else data in
     res <- req (client self) "lun-maps" "POST" (Some data) JNull None None ;;
     lunmap <- _obj_from_result self res ;;
     LOG INFO ("Created lun-map:" ++ String "010" "%s") ;;;
     ret lunmap)
    is_XtremIOAlreadyMappedError
    (fun _ =>
       LOG INFO "Volume already mapped, retrieving %(ig)s, %(vol)s" ;;;
       client_find_lunmap (client self) ig volume_id).


(** ** Volumes under management *)

(** [XtremIOVolumeDriver.extend_volume]. *)
Definition extend_volume (self : Driver) (volume : Volume) (new_size : Z)
    : M (S:=State) unit :=
  let data := [("vol-size", JStr (py_str new_size ++ "g"))] in
  try_except
    (req (client self) "volumes" "PUT" (Some data) (JStr (v_id volume))
       None None ;;; ret tt)
    is_NotFound
    (fun _ => raise (VolumeDriverException "can't find the volume to extend")).

(** [XtremIOVolumeDriver.unmanage]; [name] is [volume['name']]. The record
    is written from the message already filled in. *)
Definition unmanage (self : Driver) (volume : Volume) (name : string)
    (is_snapshot : bool) : M (S:=State) unit :=
  try_except
    (req (client self) "volumes" "PUT"
       (Some [("vol-name", JStr (name ++ "-unmanged"))])
       (JStr (v_id volume)) None None ;;; ret tt)
    is_NotFound
    (fun _ =>
       LOG INFO ((if is_snapshot then "Snapshot" else "Volume")
                 ++ " with the name " ++ v_id volume
                 ++ " wasn't found, can't unmanage") ;;;
       raise (VolumeNotFound (JStr (v_id volume)))).

(** What [update_migrated_volume] reads of [new_volume]. *)
Record NewVolume : Type := mkNewVolume {
  nv_id : string;                       (* [new_volume['id']] *)
  nv__name_id : option string;          (* [new_volume['_name_id']] *)
  nv_provider_location : json           (* [new_volume['provider_location']] *)
}.

(** [x or y] on an optional text. *)
Definition or_else (x : option string) (y : string) : string :=
  match x with
  | Some (String c s) => String c s
  | _ => y
  end.

(** [XtremIOVolumeDriver.update_migrated_volume]; the result is the dict
    it returns. *)
Definition update_migrated_volume (self : Driver) (volume : Volume)
    (new_volume : NewVolume) : M (S:=State) dict :=
  let current_name := nv_id new_volume in
  let original_name := v_id volume in
  ids <-
    try_except
      (let data := [("name", JStr original_name)] in
       req (client self) "volumes" "PUT" (Some data) (JStr current_name)
         None None ;;;
       ret (JNull, JNull))
      is_VolumeBackendAPIException
      (fun _ =>
         LOG ERROR "Unable to rename the logical volume for volume: %s" ;;;
         ret (JStr (or_else (nv__name_id new_volume) (nv_id new_volume)),
              nv_provider_location new_volume)) ;;
  ret [("_name_id", fst ids); ("provider_location", snd ids)].

(** ** Consistency groups *)

(** [x if x else []]. *)
Definition or_empty {A : Type} (x : option (list A)) : list A :=
  match x with
  | Some l => l
  | None => []
  end.

(** The two loops of [update_consistencygroup]. *)
Fixpoint add_volumes_loop (self : Driver) (group_id : string)
    (add_volumes : list Volume) : M (S:=State) unit :=
  match add_volumes with
  | [] => ret tt
  | vol :: rest =>
      let add_data := [("vol-id", JStr (v_id vol));
                       ("cg-id", JStr group_id)] in
      req (client self) "consistency-group-volumes" "POST" (Some add_data)
        JNull None (Some "v2") ;;;
      add_volumes_loop self group_id rest
  end.

Fixpoint remove_volumes_loop (self : Driver) (group_id : string)
    (remove_volumes : list Volume) : M (S:=State) unit :=
  match remove_volumes with
  | [] => ret tt
  | vol :: rest =>
      let remove_data := [("vol-id", JStr (v_id vol));
                          ("cg-id", JStr group_id)] in
      req (client self) "consistency-group-volumes" "DELETE"
        (Some remove_data) (JStr group_id) None (Some "v2") ;;;
      remove_volumes_loop self group_id rest
  end.

(** [XtremIOVolumeDriver.update_consistencygroup], on [group['id']]; the
    result is the triple [(None, None, None)]. *)
Definition update_consistencygroup (self : Driver) (group_id : string)
    (add_volumes remove_volumes : option (list Volume))
    : M (S:=State) unit :=
  let add_volumes := or_empty add_volumes in
  let remove_volumes := or_empty remove_volumes in
  add_volumes_loop self group_id add_volumes ;;;
  remove_volumes_loop self group_id remove_volumes.

(** ** Initiator groups *)

(** [XtremIOVolumeDriver._get_ig]; [JNull] is [None]. *)
Definition _get_ig (self : Driver) (name : string) : M (S:=State) json :=
  try_except
    (r <- req (client self) "initiator-groups" "GET" None (JStr name)
            None None ;;
     lift_result (getitem r "content"))
    is_NotFound
    (fun _ => ret JNull).

(** [XtremIOVolumeDriver._create_ig]. *)
Definition _create_ig (self : Driver) (name : string) : M (S:=State) json :=
  let data := [("ig-name", JStr name)] in
  req (client self) "initiator-groups" "POST" (Some data) JNull None None ;;;
  try_except
    (r <- req (client self) "initiator-groups" "GET" None (JStr name)
            None None ;;
     lift_result (getitem r "content"))
    is_NotFound
    (fun _ =>
       raise (VolumeBackendAPIException
                (kw_data ("Failed to create IG, " ++ name)))).


(** ** Cached answers

    [XtremIOClient3._portals] and [XtremIOFCDriver._targets] are attributes
    that the calls of one object share. A method that reads or writes such
    an attribute runs on a state made of the attribute and of the state of
    the array; what it did to the attribute stays when it raises. *)

Definition on_array {F A : Type} (m : M (S:=State) A)
    : M (S:=F * State) A :=
  fun fs => let '(r, s') := m (snd fs) in (r, (fst fs, s')).

Definition attribute {F : Type} : M (S:=F * State) F :=
  fun fs => (Ok (fst fs), fs).

Definition set_attribute {F : Type} (f : F) : M (S:=F * State) unit :=
  fun fs => (Ok tt, (f, snd fs)).

(** [str(x)] of a value of the array's JSON that is not text. *)
Variable py_text : json -> string.

(** ['...%s...' % x]. *)
Definition percent_s (x : json) : string :=
  match x with
  | JStr s => s
  | _ => py_text x
  end.

(** The loop of [XtremIOClient3.get_iscsi_portals]: one portal is appended
    to [self._portals] per name. *)
Fixpoint portals_loop (self : Client) (iscsi_portals : list json)
    : M (S:=list json * State) unit :=
  match iscsi_portals with
  | [] => ret tt
  | portal_name :: rest =>
      try_except
        (r <- on_array (req self "iscsi-portals" "GET" None portal_name
                          None None) ;;
         portal <- lift_result (getitem r "content") ;;
         _portals <- attribute ;;
         set_attribute (_portals ++ [portal])%list)
        is_NotFound
        (fun _ =>
           raise (VolumeBackendAPIException
                    (kw_data ("iscsi portal, " ++ percent_s portal_name
                              ++ ", not found")))) ;;;
      portals_loop self rest
  end.

(** [XtremIOClient3.get_iscsi_portals]; [self._portals] starts empty. *)
Definition XtremIOClient3_get_iscsi_portals (self : Client)
    : M (S:=list json * State) (list json) :=
  _portals <- attribute ;;
  match _portals with
  | _ :: _ => ret _portals
  | [] =>
      r <- on_array (req self "iscsi-portals" "GET" None JNull None None) ;;
      l <- lift_result (getitem r "iscsi-portals") ;;
      l <- lift_result (iter_json l) ;;
      iscsi_portals <- lift_result (result_map (fun t => getitem t "name") l) ;;
      portals_loop self iscsi_portals ;;;
      attribute
  end.

(** [needle in j] for a text [needle]: a part of a text, an item of a list,
    a key of a dict. *)
Definition py_in (needle : string) (j : json) : result bool :=
  match j with
  | JStr s => Ok (contains needle s)
  | JArr l => Ok (existsb (fun x => py_eq_str x needle) l)
  | JObj kv => Ok (match dict_get needle kv with
                   | Some _ => true
                   | None => false
                   end)
  | _ => Raise TypeError
  end.

(** The first comprehension of [XtremIOFCDriver.get_targets]: the targets
    whose name has [-fc] in it, each fetched by name. *)
Fixpoint fc_targets (self : Driver) (target_list : list json)
    : M (S:=State) (list json) :=
  match target_list with
  | [] => ret []
  | target :: rest =>
      name <- lift_result (getitem target "name") ;;
      is_fc <- lift_result (py_in "-fc" name) ;;
      if is_fc then
        r <- req (client self) "targets" "GET" None name None None ;;
        content <- lift_result (getitem r "content") ;;
        targets <- fc_targets self rest ;;
        ret (content :: targets)
      else fc_targets self rest
  end.

(** The second: the port addresses, without colons, of the targets that are
    up. *)
Fixpoint up_ports (targets : list json) : result (list string) :=
  match targets with
  | [] => Ok []
  | target :: rest =>
      match getitem target "port-state" with
      | Raise e => Raise e
      | Ok state =>
          if py_eq_str state "up" then
            match getitem target "port-address" with
            | Raise e => Raise e
            | Ok (JStr address) =>
                match up_ports rest with
                | Raise e => Raise e
                | Ok ports => Ok (remove_char ":" address :: ports)
                end
            | Ok _ => Raise AttributeError
            end
          else up_ports rest
      end
  end.

(** [XtremIOFCDriver.get_targets]; [self._targets] starts as [None]. *)
Definition get_targets (self : Driver)
    : M (S:=option (list string) * State) (list string) :=
  _targets <- attribute ;;
  match _targets with
  | Some (t :: l) => ret (t :: l)
  | _ =>
      try_except
        (r <- on_array (req (client self) "targets" "GET" None JNull
                          None None) ;;
         target_list <- lift_result (getitem r "targets") ;;
         target_list <- lift_result (iter_json target_list) ;;
         targets <- on_array (fc_targets self target_list) ;;
         ports <- lift_result (up_ports targets) ;;
         set_attribute (Some ports) ;;;
         ret ports)
        is_NotFound
        (fun _ =>
           raise (VolumeBackendAPIException
                    (kw_data "Failed to get targets")))
  end.


End Backend.

(** ** A scripted array

    A backend that answers the requests it receives with a prepared list
    of answers, in order, and refuses the connection once the list is
    used up. *)
Definition scripted (r : Request) (script : list TransportResult)
    : TransportResult * list TransportResult :=
  match script with
  | [] => (RequestException "connection refused", [])
  | t :: script' => (t, script')
  end.

(** An answer with a JSON body; [text] is left empty. *)
Definition answer (status : Z) (body : json) : TransportResult :=
  Received (mkResponse status "" (Some body)).

(** The answer of a busy array, and of an array that does not know the
    object or already has the name. *)
Definition error_answer (token : string) : TransportResult :=
  answer 400 (JObj [("message", JStr token)]).

Definition start {World : Type} (w : World) : St World Request := mkSt w [].

End XtremIO.

(** * The Unity client *)

Module Unity.

(** The objects [storops] hands out, known to the client by identity. *)
Record UnityPool : Type := mkPool { pool_id : string }.
Record UnityLun : Type := mkLun { lun_id : string }.
Record UnitySnap : Type := mkSnap { snap_id : string; snap_name : string }.

(** The SDK calls of the methods below. *)
Inductive storops_call : Type :=
| pool_create_lun (pool : UnityPool) (lun_name : string) (size_gb : Z)
    (description : option string) (io_limit_policy : option string)
| system_get_lun (_id : option string) (name : option string)
| lun_delete (lun : UnityLun)
| lun_create_snap (lun : UnityLun) (name : option string)
    (is_auto_delete : bool)
| system_get_snap (name : option string)
| snap_delete (snap : UnitySnap).

(** What each call returns when it does not raise. *)
Definition answer_type (c : storops_call) : Type :=
  match c with
  | pool_create_lun _ _ _ _ _ => UnityLun
  | system_get_lun _ _ => UnityLun
  | lun_delete _ => unit
  | lun_create_snap _ _ _ => UnitySnap
  | system_get_snap _ => UnitySnap
  | snap_delete _ => unit
  end.

(** [except storops_ex.<class>]. *)
Definition is_UnityLunNameInUseError (e : exn) : bool :=
  match e with UnityLunNameInUseError => true | _ => false end.
Definition is_UnitySnapNameInUseError (e : exn) : bool :=
  match e with UnitySnapNameInUseError => true | _ => false end.
Definition is_UnityResourceNotFoundError (e : exn) : bool :=
  match e with UnityResourceNotFoundError => true | _ => false end.
Definition is_UnityDeleteAttachedSnapError (e : exn) : bool :=
  match e with UnityDeleteAttachedSnapError => true | _ => false end.

Section Backend.
Context {World : Type}.

(** The Unity system behind [storops]. *)
Variable storops : forall c : storops_call,
  World -> result (answer_type c) * World.

Local Abbreviation State := (St World storops_call).

(** One SDK call. *)
Definition call (c : storops_call) : M (S:=State) (answer_type c) :=
  r <- external c (storops c) ;;
  lift_result r.

(** [UnityClient.create_lun]. *)
Definition create_lun (name : string) (size : Z) (pool : UnityPool)
    (description io_limit_policy : option string) : M (S:=State) UnityLun :=
  try_except
    (call (pool_create_lun pool name size description io_limit_policy))
    is_UnityLunNameInUseError
    (fun _ =>
       LOG DEBUG "LUN %s already exists. Return the existing one." ;;;
       call (system_get_lun None (Some name))).

(** [UnityClient.delete_lun]. *)
Definition delete_lun (lun_id : string) : M (S:=State) unit :=
  try_except
    (lun <- call (system_get_lun (Some lun_id) None) ;;
     call (lun_delete lun))
    is_UnityResourceNotFoundError
    (fun _ => LOG DEBUG "LUN %s doesn't exist. Deletion is not needed.").

(** [UnityClient.get_lun]. *)
Definition get_lun (lun_id name : option string)
    : M (S:=State) (option UnityLun) :=
  match lun_id, name with
  | None, None =>
      LOG WARNING "Both lun_id and name are None to get LUN. Return None." ;;;
      ret None
  | _, _ =>
      try_except
        (lun <- call (system_get_lun lun_id name) ;; ret (Some lun))
        is_UnityResourceNotFoundError
        (fun _ =>
           LOG WARNING "LUN id=%(id)s, name=%(name)s doesn't exist." ;;;
           ret None)
  end.

(** [UnityClient.get_snap]. *)
Definition get_snap (name : option string)
    : M (S:=State) (option UnitySnap) :=
  try_except
    (snap <- call (system_get_snap name) ;; ret (Some snap))
    is_UnityResourceNotFoundError
    (fun _ =>
       LOG WARNING "Snapshot %(name)s doesn't exist. Message: %(err)s" ;;;
       ret None).

(** [UnityClient.create_snap]. *)
Definition create_snap (src_lun_id : string) (name : option string)
    : M (S:=State) (option UnitySnap) :=
  try_except
    (lun <- get_lun (Some src_lun_id) None ;;
     match lun return M (S:=State) (option UnitySnap) with
     | Some lun =>
         snap <- call (lun_create_snap lun name false) ;;
         ret (Some snap)
     | None => raise AttributeError      (* [None] has no [create_snap] *)
     end)
    is_UnitySnapNameInUseError
    (fun _ =>
       LOG DEBUG "Snap %(snap_name)s already exists on LUN %(lun_id)s. Return the existing one. Message: %(err)s" ;;;
       get_snap name).

(** [UnityClient.delete_snap]. *)
Definition delete_snap (snap : option UnitySnap) : M (S:=State) unit :=
  match snap with
  | None => LOG DEBUG "Snap to delete is None, skipping deletion."
  | Some snap =>
      try_except
        (call (snap_delete snap))
        (fun e => is_UnityResourceNotFoundError e
                  || is_UnityDeleteAttachedSnapError e)
        (fun e =>
           if is_UnityResourceNotFoundError e then
             LOG DEBUG "Snap %(snap_name)s may be deleted already. Message: %(err)s"
           else
             (* [with excutils.save_and_reraise_exception():] *)
             LOG WARNING "Failed to delete snapshot %(snap_name)s which is in use. Message: %(err)s" ;;;
             raise e)
  end.

End Backend.

(** ** A small Unity system

    LUNs and snapshots by name; a snapshot may be attached to a host. It
    refuses a name that is in use, does not find what is not there, and
    does not delete an attached snapshot. *)
Record Array : Type := mkArray {
  luns : list string;
  snaps : list string;
  attached : list string
}.

Definition has (name : string) (l : list string) : bool :=
  existsb (String.eqb name) l.

Definition without (name : string) (l : list string) : list string :=
  List.filter (fun n => negb (String.eqb name n)) l.

Definition small_unity (c : storops_call) (a : Array)
    : result (answer_type c) * Array :=
  match c with
  | pool_create_lun _ lun_name _ _ _ =>
      if has lun_name (luns a) then (Raise UnityLunNameInUseError, a)
      else (Ok (mkLun lun_name),
            mkArray (luns a ++ [lun_name]) (snaps a) (attached a))
  | system_get_lun _id name =>
      let key := match _id with Some i => i | None => default "" name end in
      if has key (luns a) then (Ok (mkLun key), a)
      else (Raise UnityResourceNotFoundError, a)
  | lun_delete lun =>
      if has (lun_id lun) (luns a)
      then (Ok tt, mkArray (without (lun_id lun) (luns a)) (snaps a) (attached a))
      else (Raise UnityResourceNotFoundError, a)
  | lun_create_snap lun name _ =>
      let n := default ("snap-of-" ++ lun_id lun) name in
      if has n (snaps a) then (Raise UnitySnapNameInUseError, a)
      else (Ok (mkSnap n n), mkArray (luns a) (snaps a ++ [n]) (attached a))
  | system_get_snap name =>
      let n := default "" name in
      if has n (snaps a) then (Ok (mkSnap n n), a)
      else (Raise UnityResourceNotFoundError, a)
  | snap_delete snap =>
      if negb (has (snap_name snap) (snaps a))
      then (Raise UnityResourceNotFoundError, a)
      else if has (snap_name snap) (attached a)
      then (Raise UnityDeleteAttachedSnapError, a)
      else (Ok tt, mkArray (luns a) (without (snap_name snap) (snaps a)) (attached a))
  end.

Definition start (a : Array) : St Array storops_call := mkSt a [].

End Unity.

(** * The Unity client: hosts and ports *)

Module UnityHosts.

(** A host is known to the client by identity; what it reads of a host it
    asks of [storops]. The initiators, their paths and the ports are read
    as they were handed out. *)
Record UnityHost : Type := mkHost { host_name : string }.
Record UnityFcPort : Type := mkFcPort { wwn : string }.
Record UnityHostInitiatorPath : Type := mkPath {
  is_logged_in : bool;
  fc_port : UnityFcPort
}.
Record UnityHostInitiator : Type := mkInitiator {
  initiator_id : string;
  paths : option (list UnityHostInitiatorPath)
}.

(** The SDK calls of the methods below. *)
Inductive storops_call : Type :=
| system_get_host (name : string)
| system_create_host (name : string)
| host_fc_host_initiators (host : UnityHost)
| host_iscsi_host_initiators (host : UnityHost)
| host_add_initiator (host : UnityHost) (uid : string) (force_create : bool)
| host_update (host : UnityHost)
| system_get_fc_port.

(** What each call returns when it does not raise. *)
Definition answer_type (c : storops_call) : Type :=
  match c with
  | system_get_host _ => UnityHost
  | system_create_host _ => UnityHost
  | host_fc_host_initiators _ => option (list UnityHostInitiator)
  | host_iscsi_host_initiators _ => option (list UnityHostInitiator)
  | host_add_initiator _ _ _ => unit
  | host_update _ => unit
  | system_get_fc_port => list UnityFcPort
  end.

Section Backend.
Context {World : Type}.

(** The Unity system behind [storops]. *)
Variable storops : forall c : storops_call,
  World -> result (answer_type c) * World.

Local Abbreviation State := (St World storops_call).

(** One SDK call. *)
Definition call (c : storops_call) : M (S:=State) (answer_type c) :=
  r <- external c (storops c) ;;
  lift_result r.

(** [l.initiator_id] of a list of initiators, [[]] for [None]. *)
Definition initiator_ids (l : option (list UnityHostInitiator))
    : list string :=
  match l with
  | None => []
  | Some l => map initiator_id l
  end.

(** [UnityClient.get_host_initiator_ids]. *)
Definition get_host_initiator_ids (host : UnityHost)
    : M (S:=State) (list string) :=
  fc <- call (host_fc_host_initiators host) ;;
  let fc_ids := initiator_ids fc in
  iscsi <- call (host_iscsi_host_initiators host) ;;
  let iscsi_ids := initiator_ids iscsi in
  ret (fc_ids ++ iscsi_ids)%list.

(** [h in l]. *)
Definition py_in_list (h : string) (l : list string) : bool :=
  existsb (String.eqb h) l.

(** [[h for h in uids if h not in host_initiators_ids]]. *)
Definition un_registered (uids host_initiators_ids : list string)
    : list string :=
  List.filter (fun h => negb (py_in_list h host_initiators_ids)) uids.

(** The loop of [create_host]. *)
Fixpoint add_initiators (host : UnityHost) (uids : list string)
    : M (S:=State) unit :=
  match uids with
  | [] => ret tt
  | uid :: rest =>
      call (host_add_initiator host uid true) ;;;
      add_initiators host rest
  end.

(** The [try] of [create_host]: the host of that name, created when there
    is none. *)
Definition get_or_create_host (name : string) : M (S:=State) UnityHost :=
  try_except
    (call (system_get_host name))
    Unity.is_UnityResourceNotFoundError
    (fun _ =>
       LOG DEBUG "Existing host %s not found.  Create a new one." ;;;
       call (system_create_host name)).

(** [UnityClient.create_host]. *)
Definition create_host (name : string) (uids : list string)
    : M (S:=State) UnityHost :=
  host <- get_or_create_host name ;;
  host_initiators_ids <- get_host_initiator_ids host ;;
  add_initiators host (un_registered uids host_initiators_ids) ;;;
  call (host_update host) ;;;
  ret host.

(** [s[n:]]. *)
Fixpoint string_drop (n : nat) (s : string) : string :=
  match n, s with
  | O, _ => s
  | S n', String _ s' => string_drop n' s'
  | S _, EmptyString => EmptyString
  end.

(** The ports the logged-in paths of the initiators lead to. *)
Definition logged_in_ports (initiators : list UnityHostInitiator)
    : list UnityFcPort :=
  flat_map
    (fun host_initiator =>
       map fc_port
         (List.filter is_logged_in (default [] (paths host_initiator))))
    initiators.

(** [po.wwn.replace(':', '')[16:]]. *)
Definition port_wwn (po : UnityFcPort) : string :=
  string_drop 16 (XtremIO.remove_char ":" (wwn po)).

(** [UnityClient.get_fc_target_info]. *)
Definition get_fc_target_info (host : option UnityHost)
    (logged_in_only : bool) : M (S:=State) (list string) :=
  ports <-
    (if logged_in_only then
       match host with
       | None => raise AttributeError     (* [None] has no [fc_host_initiators] *)
       | Some host =>
           initiators <- call (host_fc_host_initiators host) ;;
           match initiators with
           | None => raise TypeError      (* [None] cannot be iterated *)
           | Some initiators => ret (logged_in_ports initiators)
           end
       end
     else call system_get_fc_port) ;;
  ret (map port_wwn ports).

End Backend.

(** ** A small Unity system

    Hosts by name, each with the ids of its initiators, and the ports of
    the array. It does not find a host that is not there. *)
Record Array : Type := mkArray {
  hosts : list (string * list string);
  fc_ports : list UnityFcPort
}.

Definition initiators_of (name : string) (a : Array)
    : option (list string) :=
  snd <$> List.find (fun h => String.eqb name (fst h)) (hosts a).

Definition with_initiator (name uid : string) (a : Array) : Array :=
  mkArray
    (map (fun h => if String.eqb name (fst h)
                   then (fst h, (snd h ++ [uid])%list) else h) (hosts a))
    (fc_ports a).

Definition small_unity (c : storops_call) (a : Array)
    : result (answer_type c) * Array :=
  match c with
  | system_get_host name =>
      match initiators_of name a with
      | Some _ => (Ok (mkHost name), a)
      | None => (Raise UnityResourceNotFoundError, a)
      end
  | system_create_host name =>
      (Ok (mkHost name),
       mkArray (hosts a ++ [(name, [])])%list (fc_ports a))
  | host_fc_host_initiators host =>
      match initiators_of (host_name host) a with
      | Some (uid :: l) =>
          (Ok (Some (map (fun i => mkInitiator i None) (uid :: l))), a)
      | Some [] => (Ok None, a)
      | None => (Raise UnityResourceNotFoundError, a)
      end
  | host_iscsi_host_initiators host =>
      match initiators_of (host_name host) a with
      | Some _ => (Ok None, a)
      | None => (Raise UnityResourceNotFoundError, a)
      end
  | host_add_initiator host uid _ =>
      (Ok tt, with_initiator (host_name host) uid a)
  | host_update host => (Ok tt, a)
  | system_get_fc_port => (Ok (fc_ports a), a)
  end.

Definition start (a : Array) : St Array storops_call := mkSt a [].

End UnityHosts.


(** * The vocabulary of the statements *)

(** ** Answers and requests of the XtremIO array *)

Section Vocabulary.
Import XtremIO.

(** The record [handle_errors] writes before the generic error. *)
Definition bad_response (response : Response) : string :=
  "Bad response from XMS, " ++ text response.

(** The generic error of [handle_errors]: it carries the raw text. *)
Definition unknown_error (response : Response) : exn :=
  VolumeBackendAPIException (kw_message (bad_response response)).

(** The error kinds [handle_errors] is written to raise. *)
Definition in_taxonomy (e : exn) : bool :=
  match e with
  | NotFound | VolumeNotFound _ | VolumeBackendAPIException _
  | XtremIOAlreadyMappedError | XtremIOArrayBusy
  | XtremIOSnapshotsLimitExceeded => true
  | _ => false
  end.

(** The message of a 400 answer, when the body is a JSON object whose
    [message] is text. *)
Definition message_of (response : Response) : option string :=
  match json_body response with
  | Some (JObj kv) =>
      match dict_get "message" kv with
      | Some (JStr m) => Some m
      | _ => None
      end
  | _ => None
  end.

(** The error for a message, by the chain of tests in [handle_errors]. *)
Definition error_of_message (response : Response) (key : json)
    (m : string) : exn :=
  if endswith m OBJ_NOT_FOUND_ERR then NotFound
  else if String.eqb m VOL_NOT_UNIQUE_ERR
  then VolumeBackendAPIException (kw_data "Volume by this name already exists")
  else if String.eqb m VOL_OBJ_NOT_FOUND_ERR then VolumeNotFound key
  else if contains ALREADY_MAPPED_ERR m then XtremIOAlreadyMappedError
  else if String.eqb m SYSTEM_BUSY then XtremIOArrayBusy
  else if String.eqb m TOO_MANY_OBJECTS
          || String.eqb m TOO_MANY_SNAPSHOTS_PER_VOL
  then XtremIOSnapshotsLimitExceeded
  else unknown_error response.

(** The answer of a busy array: status 400 with the message
    [system_is_busy]. *)
Definition busy_response (response : Response) : Prop :=
  status_code response = 400 /\ message_of response = Some SYSTEM_BUSY.

(** The answer of an array that does not have the object. *)
Definition not_found_response (response : Response) : Prop :=
  status_code response = 400
  /\ exists m, message_of response = Some m
               /\ endswith m OBJ_NOT_FOUND_ERR = true.

(** The debug records an attempt writes before it sends. *)
Definition debug_records (method : string) : list (event Request) :=
  ((if not_GET method then [EvLog DEBUG "data: %s"] else [])
   ++ [EvLog DEBUG "%(type)s %(url)s"])%list.

(** What [req] returns for an answer in the 200s. *)
Definition success_value (method : string) (response : Response)
    : result json :=
  if in_GET_POST method then
    match json_body response with
    | Some body => Ok body
    | None => Raise ValueError
    end
  else Ok (JStr "").

(** A status in the 200s. *)
Definition is_2xx (response : Response) : bool :=
  (200 <=? status_code response) && (status_code response <? 300).

(** The URL of a collection of objects. *)
Definition collection_url (self : Client) (object_type ver : string)
    : string :=
  fmt_s (get_base_url self ver) ++ "/" ++ object_type.

(** A request names its object in the query when it has a [name]
    parameter. *)
Definition by_name (r : Request) : bool :=
  match dict_get "name" (rq_params r) with
  | Some _ => true
  | None => false
  end.

(** A request names its object by index when its URL goes below the
    collection. *)
Definition by_index (self : Client) (object_type ver : string)
    (r : Request) : bool :=
  negb (String.eqb (rq_url r) (collection_url self object_type ver)).

(** [k in d]. *)
Definition has_key (k : string) (d : dict) : bool :=
  match dict_get k d with
  | Some _ => true
  | None => false
  end.

(** The caller's [data] has a [name] key of its own, and the verb is one
    whose data goes into the query. *)
Definition name_in_data (method : string) (data : option dict) : bool :=
  in_GET_DELETE method && has_key "name" (data_or_empty data).

(** The body of the first phase of [XtremIOClient4.create_snapshot]. *)
Definition snapshot_set_data (src dest : string) (ro : bool) : dict :=
  [("snapshot-set-name", JStr dest); ("snap-suffix", JStr dest);
   ("volume-list", JArr [JStr src]);
   ("snapshot-type", JStr (if ro then "readonly" else "regular"))].

(** The body of the POST of [create_volume]. *)
Definition volume_data (volume : Volume) : dict :=
  [("vol-name", JStr (v_id volume));
   ("vol-size", JStr (py_str (v_size volume) ++ "g"))].

(** The DELETE request for a volume or snapshot name. *)
Definition delete_request (self : Driver) (name : string) : Request :=
  fst (build_request (client self) "volumes" "DELETE" (JStr name) None
         (default_ver (client self)) []).

(** [n] is the LUN number of one of the maps ([True] and [False] count as
    [1] and [0], as they do in a Python set). *)
Definition mapped (luns : list json) (n : Z) : Prop :=
  exists j, j ∈ luns /\ hash_key j = Some (inl n).

(** The first request of the version probe: the listing of the clusters. *)
Definition cluster_list_request (self : Driver) : Request :=
  fst (build_request (client self) "clusters" "GET" JNull None
         (default_ver (client self)) []).

(** The second request of the probe: the information on one cluster. *)
Definition cluster_info_request (self : Driver) (name : json) : Request :=
  fst (build_request (client self) "clusters" "GET" name None
         (default_ver (client self)) []).

(** The driver with an [XtremIOClient4] in place of its client. *)
Definition on_client4 (self : Driver) : Driver :=
  mkDriver (d_configuration self) (d_cluster_id self)
    (new_client XtremIOClient4 (d_configuration self) (d_cluster_id self)).

(** Operations other than the probe. *)
Definition not_probe (op : operation) : Prop := op <> CheckForSetupError.

End Vocabulary.

(** ** States *)

Section StateVocabulary.
Context {World Call : Type}.
Local Abbreviation State := (St World Call).

(** The state after a note in the log. *)
Definition noted (s : State) (l : level) (msg : string) : State :=
  mkSt (world s) (trace s ++ [EvLog l msg]).

(** The state after the record that announces the revert of a snapshot. *)
Definition reverting (s : State) : State :=
  noted s ERROR "Failed to rename the created snapshot, reverting.".

(** The state after the pause that follows a busy attempt. *)
Definition slept (interval : Z) (s : State) : State :=
  mkSt (world s) (trace s ++ [EvSleep interval]).

(** [busy_attempts f after interval k x s x' s']: from argument [x] and
    state [s], [k] attempts of [f] in a row end in [XtremIOArrayBusy], each
    followed by a pause of [interval]; they leave argument [x'] and state
    [s']. *)
Inductive busy_attempts {X A : Type} (f : X -> M (S:=State) A)
    (after : X -> X) (interval : Z)
    : nat -> X -> State -> X -> State -> Prop :=
| busy_none x s : busy_attempts f after interval 0 x s x s
| busy_again k x s s1 x' s' :
    f x s = (Raise XtremIOArrayBusy, s1) ->
    busy_attempts f after interval k (after x) (slept interval s1) x' s' ->
    busy_attempts f after interval (Datatypes.S k) x s x' s'.

(** An outcome the retry loop does not retry. *)
Definition final {A : Type} (r : result A) : Prop :=
  r <> Raise XtremIOArrayBusy.

End StateVocabulary.

(** ** Steps of a call *)

Section StepVocabulary.
Import XtremIO.
Context {World : Type}.
Variable send : Request -> World -> TransportResult * World.
Variable CONF : Conf.
Local Abbreviation State := (St World Request).

(** The state when the request of an attempt has been sent and answered. *)
Definition sent (s : State) (method : string) (request : Request) : State :=
  mkSt (snd (send request (world s)))
    (trace s ++ debug_records method ++ [EvCall request]).

(** The three calls of [XtremIOClient4.create_snapshot]: the creation of
    the snapshot set, *)
Definition create_step (self : Client) (src dest : string) (ro : bool)
    : M (S:=State) json :=
  req send CONF self "snapshots" "POST" (Some (snapshot_set_data src dest ro))
    JNull None (Some "v2").

(** the rename of the created object, *)
Definition rename_step (self : Client) (typ : string) (idx : Z)
    (dest : string) : M (S:=State) json :=
  req send CONF self typ "PUT" (Some [("name", JStr dest)]) JNull (Some idx)
    None.

(** and the deletion that reverts the creation. *)
Definition revert_step (self : Client) (typ : string) (idx : Z)
    : M (S:=State) json :=
  req send CONF self typ "DELETE" None JNull (Some idx) None.

End StepVocabulary.

(** ** Example backends and inputs *)

(** An array at [xms.example], without certificate checks. *)
Definition example_configuration : XtremIO.Configuration :=
  XtremIO.mkConfiguration "xms.example" "admin" "secret" false None.

(** A legacy client, and a current client scoped to [cluster1]. *)
Definition example_client3 : XtremIO.Client :=
  XtremIO.new_client XtremIO.XtremIOClient3 example_configuration "".

Definition example_client4 : XtremIO.Client :=
  XtremIO.new_client XtremIO.XtremIOClient4 example_configuration "cluster1".

(** A new driver, and a volume of 10 GiB outside any consistency group. *)
Definition example_driver : XtremIO.Driver :=
  XtremIO.new_driver example_configuration None.

Definition example_volume : XtremIO.Volume :=
  XtremIO.mkVolume "v1" 10 None "v1".

(** The answer of a busy array. *)
Definition busy : TransportResult := XtremIO.error_answer "system_is_busy".

(** The answer to a creation: a link to the new object. *)
Definition created_answer : TransportResult :=
  XtremIO.answer 200
    (JObj [("links",
            JArr [JObj [("href",
                         JStr "https://xms.example/api/json/v2/types/volumes/12")]])]).

(** The answer to a [lun-maps] query: one map per LUN number. *)
Definition lun_maps_answer (luns : list Z) : TransportResult :=
  XtremIO.answer 200
    (JObj [("lun-maps", JArr (map (fun n => JObj [("lun", JNum n)]) luns))]).

(** The answers to the two requests of the version probe: one cluster,
    [c1], *)
Definition clusters_answer : TransportResult :=
  XtremIO.answer 200 (JObj [("clusters", JArr [JObj [("name", JStr "c1")]])]).

(** and its software version. *)
Definition cluster_answer (version : string) : TransportResult :=
  XtremIO.answer 200
    (JObj [("content", JObj [("sys-sw-version", JStr version)])]).

(** A 400 answer whose body is an error page, not JSON. *)
Definition error_page : Response :=
  mkResponse 400 "<html><body>400 Bad Request</body></html>" None.

(** A 400 answer whose JSON body has no [message]. *)
Definition bare_error : Response :=
  mkResponse 400 "{}" (Some (JObj [])).

(** ** The vocabulary of the further properties *)

Section MoreVocabulary.
Import XtremIO.

(** The data of an attempt is the caller's, before or after
    [update_data] wrote the cluster into it. *)
Definition data_of_attempt (self : Client) (data : option dict) (d : dict)
    : Prop :=
  d = data_or_empty data \/ d = update_data self (data_or_empty data).

(** What is sent. [sends P m]: from any state, the requests [m] adds to
    the trace all satisfy [P]. *)
Definition sends {World A : Type} (P : Request -> Prop)
    (m : M (S:=St World Request) A) : Prop :=
  forall s, exists new,
    calls_of (trace (snd (m s))) = (calls_of (trace s) ++ new)%list
    /\ Forall P new.

(** A request built by a call of [req] with these arguments. *)
Definition built_by (self : Client) (object_type method : string)
    (data : option dict) (name : json) (idx : option Z) (ver : option string)
    (r : Request) : Prop :=
  exists d,
    r = fst (build_request self object_type method name idx
               (default (default_ver self) ver) d)
    /\ data_of_attempt self data d.


(** What is raised. [raises_only Q m]: from any state, an error that [m]
    raises satisfies [Q]. *)
Definition raises_only {S A : Type} (Q : exn -> Prop) (m : M (S:=S) A)
    : Prop :=
  forall s e s', m s = (Raise e, s') -> Q e.

(** An error that is not a [NotFound]. *)
Definition not_NotFound (e : exn) : Prop := is_NotFound e = false.

(** A lun-map of the initiator group [ig_name] and the volume
    [vol_name]. *)
Definition lunmap_of (ig_name vol_name : string) (lm : json) : Prop :=
  getitem lm "ig-name" = Ok (JStr ig_name)
  /\ getitem lm "vol-name" = Ok (JStr vol_name).

(** The listing of the lun-maps as [XtremIOClient3] asks for it, and the
    filtered query of [XtremIOClient4]. *)
Definition lunmaps_request (self : Client) : Request :=
  fst (build_request self "lun-maps" "GET" JNull None (default_ver self) []).

Definition lunmap_query (self : Client) (ig_name vol_name : string)
    : Request :=
  fst (build_request self "lun-maps" "GET" JNull None (default_ver self)
         [("full", JNum 1);
          ("filter", JArr [JStr ("vol-name:eq:" ++ vol_name);
                           JStr ("ig-name:eq:" ++ ig_name)])]).

(** The body of the POST of [create_lun_map]. *)
Definition lun_map_data (volume_id ig : string) (lun_num : json) : dict :=
  let data := [("ig-id", JStr ig); ("vol-id", JStr volume_id)] in
  if truthy lun_num then dict_set "lun" lun_num data else data.


(** The request by which [find_lunmap] looks for the lun-map of a group and
    a volume: the whole listing, or the filtered query. *)
Definition lookup_request (self : Client) (ig_name vol_name : string)
    : Request :=
  match class_of self with
  | XtremIOClient3 => lunmaps_request self
  | XtremIOClient4 => lunmap_query self ig_name vol_name
  end.

(** What [find_lunmap] makes of a lookup that finds no lun-map. *)
Definition no_lunmap (self : Client) (vol_name : string) : result json :=
  match class_of self with
  | XtremIOClient3 => Ok JNull
  | XtremIOClient4 => Raise (VolumeNotFound (JStr vol_name))
  end.

(** A request that reads. *)
Definition reads (r : Request) : Prop := rq_method r = "GET".

(** The creation of a lun-map for [volume_id] and [ig], which names the LUN
    number only when that is truthy. *)
Definition lun_map_creation (self : Client) (volume_id ig : string)
    (lun_num : json) (r : Request) : Prop :=
  rq_method r = "POST"
  /\ rq_url r = collection_url self "lun-maps" (default_ver self)
  /\ dict_get "ig-id" (rq_data r) = Some (JStr ig)
  /\ dict_get "vol-id" (rq_data r) = Some (JStr volume_id)
  /\ dict_get "lun" (rq_data r)
     = if truthy lun_num then Some lun_num else None.

(** The answer to the listing of the lun-maps: one link per index. *)
Definition links_answer (indices : list string) : TransportResult :=
  answer 200
    (JObj [("lun-maps",
            JArr (map (fun i =>
                         JObj [("href",
                                JStr ("https://xms.example/api/json/types/lun-maps/"
                                      ++ i))])
                    indices))]).

(** A lun-map, and the answer that carries it. *)
Definition lun_map (ig_name vol_name : string) (lun : Z) : json :=
  JObj [("ig-name", JStr ig_name); ("vol-name", JStr vol_name);
        ("lun", JNum lun)].

Definition lun_map_answer (ig_name vol_name : string) (lun : Z)
    : TransportResult :=
  answer 200 (JObj [("content", lun_map ig_name vol_name lun)]).


(** The request a call of [req] sends first, built from the caller's
    data. *)
Definition first_request (self : Client) (object_type method : string)
    (data : option dict) (name : json) (idx : option Z) (ver : option string)
    : Request :=
  fst (build_request self object_type method name idx
         (default (default_ver self) ver) (data_or_empty data)).

(** A request of verb [method] to the collection [object_type] of the API
    [ver] that names its object in the query; an empty [name] names
    nothing. *)
Definition to_named (self : Client) (method object_type ver name : string)
    (r : Request) : Prop :=
  rq_method r = method
  /\ rq_url r = collection_url self object_type ver
  /\ dict_get "name" (rq_params r)
     = if String.eqb name "" then None else Some (JStr name).

(** An answer outside the 200s that is not a 400. *)
Definition failure_response (response : Response) : Prop :=
  is_2xx response = false /\ status_code response <> 400.

(** An error that is not a [VolumeBackendAPIException]. *)
Definition not_VolumeBackendAPIException (e : exn) : Prop :=
  is_VolumeBackendAPIException e = false.

(** The body of the PUT of [extend_volume] and of [unmanage]. *)
Definition extend_data (new_size : Z) : dict :=
  [("vol-size", JStr (py_str new_size ++ "g"))].

Definition unmanage_data (name : string) : dict :=
  [("vol-name", JStr (name ++ "-unmanged"))].

(** The two results of [update_migrated_volume]: the rename was done, or
    the volume keeps the name of the new one. *)
Definition renamed : dict :=
  [("_name_id", JNull); ("provider_location", JNull)].

Definition not_renamed (new_volume : NewVolume) : dict :=
  [("_name_id", JStr (or_else (nv__name_id new_volume) (nv_id new_volume)));
   ("provider_location", nv_provider_location new_volume)].

(** A request of [update_consistencygroup] for one of [volumes]: its body
    names the group and the volume. *)
Definition group_request (self : Client) (method group_id : string)
    (volumes : list Volume) (r : Request) : Prop :=
  rq_method r = method
  /\ rq_url r = collection_url self "consistency-group-volumes" "v2"
  /\ dict_get "cg-id" (rq_data r) = Some (JStr group_id)
  /\ exists vol, In vol volumes
                 /\ dict_get "vol-id" (rq_data r) = Some (JStr (v_id vol)).

(** The creation of the initiator group [name]. *)
Definition group_creation (self : Client) (name : string) (r : Request)
    : Prop :=
  rq_method r = "POST"
  /\ rq_url r = collection_url self "initiator-groups" (default_ver self)
  /\ dict_get "ig-name" (rq_data r) = Some (JStr name).

(** The lookup of the initiator group [name]. *)
Definition group_lookup (self : Client) (name : string) (r : Request)
    : Prop :=
  to_named self "GET" "initiator-groups" (default_ver self) name r.


(** The answer that lists the objects of a collection by name, and the
    answer that carries one object. *)
Definition names_answer (object_type : string) (names : list string)
    : TransportResult :=
  answer 200
    (JObj [(object_type, JArr (map (fun n => JObj [("name", JStr n)]) names))]).

Definition content_answer (content : json) : TransportResult :=
  answer 200 (JObj [("content", content)]).

(** An iSCSI portal, and a Fibre Channel target that is up. *)
Definition portal (name : string) : json :=
  JObj [("name", JStr name); ("ip-addr", JStr "10.0.0.1/24");
        ("ip-port", JNum 3260)].

Definition fc_target (name address : string) : json :=
  JObj [("name", JStr name); ("port-address", JStr address);
        ("port-state", JStr "up")].


End MoreVocabulary.

(** * Theorems *)

(** ** The monad *)

Section MonadFacts.
Context {S : Type}.

Lemma bind_Ok {A B : Type} (m : M (S:=S) A) (k : A -> M B) s a s' :
  m s = (Ok a, s') -> bind m k s = k a s'.
Proof. intros H. unfold bind. now rewrite H. Qed.

Lemma bind_Raise {A B : Type} (m : M (S:=S) A) (k : A -> M B) s e s' :
  m s = (Raise e, s') -> bind m k s = (Raise e, s').
Proof. intros H. unfold bind. now rewrite H. Qed.

Lemma try_except_Ok {A : Type} (m : M (S:=S) A) catches h s a s' :
  m s = (Ok a, s') -> try_except m catches h s = (Ok a, s').
Proof. intros H. unfold try_except. now rewrite H. Qed.

Lemma try_except_caught {A : Type} (m : M (S:=S) A) catches h s e s' :
  m s = (Raise e, s') -> catches e = true ->
  try_except m catches h s = h e s'.
Proof. intros H Hc. unfold try_except. now rewrite H, Hc. Qed.

Lemma try_except_passed {A : Type} (m : M (S:=S) A) catches h s e s' :
  m s = (Raise e, s') -> catches e = false ->
  try_except m catches h s = (Raise e, s').
Proof. intros H Hc. unfold try_except. now rewrite H, Hc. Qed.

End MonadFacts.

(** ** The error classifier *)

Section ClassifierFacts.
Import XtremIO.
Context {World : Type}.
Local Abbreviation State := (St World Request).
Implicit Types (response : Response) (key : json) (s : State).

Ltac run_monad :=
  unfold bind, ret, raise, LOG, emit, response_json, lift_option,
    lift_result; simpl.

(** Any status but 400 gives the generic error with the raw text. *)
Lemma handle_errors_other_status response key object_type s :
  status_code response <> 400 ->
  fst (handle_errors response key object_type s) = Raise (unknown_error response).
Proof.
  intros H. unfold handle_errors.
  destruct (Z.eqb_spec (status_code response) 400) as [E|E]; [contradiction|].
  reflexivity.
Qed.

(** A 400 answer with a text message is classified by the message. *)
Lemma handle_errors_message response key object_type s m :
  status_code response = 400 ->
  message_of response = Some m ->
  fst (handle_errors response key object_type s)
  = Raise (error_of_message response key m).
Proof.
  intros Hs Hm. unfold message_of in Hm.
  destruct (json_body response) as [[| | | |l|kv]|] eqn:Hb; try discriminate.
  destruct (dict_get "message" kv) as [[| | |m'| |]|] eqn:Hk; try discriminate.
  injection Hm as ->.
  unfold handle_errors, error_of_message. rewrite Hs. simpl.
  run_monad. rewrite Hb. simpl. rewrite Hk. simpl.
  destruct (endswith m OBJ_NOT_FOUND_ERR); [reflexivity|].
  destruct (String.eqb m VOL_NOT_UNIQUE_ERR); [reflexivity|].
  destruct (String.eqb m VOL_OBJ_NOT_FOUND_ERR); [reflexivity|].
  destruct (contains ALREADY_MAPPED_ERR m); [reflexivity|].
  destruct (String.eqb m SYSTEM_BUSY); [reflexivity|].
  destruct (String.eqb m TOO_MANY_OBJECTS || String.eqb m TOO_MANY_SNAPSHOTS_PER_VOL);
    reflexivity.
Qed.

(** The table, token by token. *)
Lemma error_of_message_table response key :
  error_of_message response key "obj_not_found" = NotFound
  /\ error_of_message response key "vol_obj_name_not_unique"
     = VolumeBackendAPIException (kw_data "Volume by this name already exists")
  /\ error_of_message response key "already_mapped" = XtremIOAlreadyMappedError
  /\ error_of_message response key "system_is_busy" = XtremIOArrayBusy
  /\ error_of_message response key "too_many_objs" = XtremIOSnapshotsLimitExceeded
  /\ error_of_message response key "too_many_snapshots_per_vol"
     = XtremIOSnapshotsLimitExceeded.
Proof. repeat split; reflexivity. Qed.

(** The branch for [vol_obj_not_found] is never taken: that message ends
    in [obj_not_found] and is answered by the first test. *)
Lemma error_of_message_never_VolumeNotFound response key m :
  error_of_message response key m <> VolumeNotFound key.
Proof.
  unfold error_of_message.
  destruct (endswith m OBJ_NOT_FOUND_ERR) eqn:E1; [discriminate|].
  destruct (String.eqb m VOL_NOT_UNIQUE_ERR); [discriminate|].
  destruct (String.eqb_spec m VOL_OBJ_NOT_FOUND_ERR) as [->|_];
    [discriminate E1|].
  destruct (contains ALREADY_MAPPED_ERR m); [discriminate|].
  destruct (String.eqb m SYSTEM_BUSY); [discriminate|].
  destruct (String.eqb m TOO_MANY_OBJECTS || String.eqb m TOO_MANY_SNAPSHOTS_PER_VOL);
    discriminate.
Qed.

(** [handle_errors] never returns: every path ends in a [raise]. *)
Lemma handle_errors_raises response key object_type s :
  exists e, fst (handle_errors response key object_type s) = Raise e.
Proof.
  unfold handle_errors.
  destruct (status_code response =? 400); [|eexists; reflexivity].
  run_monad.
  destruct (json_body response) as [[| | | |l|kv]|]; simpl;
    try (eexists; reflexivity).
  destruct (default JNull (dict_get "message" kv)) as [| | |m| |]; simpl;
    try (eexists; reflexivity).
  destruct (endswith m OBJ_NOT_FOUND_ERR); [eexists; reflexivity|].
  destruct (String.eqb m VOL_NOT_UNIQUE_ERR); [eexists; reflexivity|].
  destruct (String.eqb m VOL_OBJ_NOT_FOUND_ERR); [eexists; reflexivity|].
  destruct (contains ALREADY_MAPPED_ERR m); [eexists; reflexivity|].
  destruct (String.eqb m SYSTEM_BUSY); [eexists; reflexivity|].
  destruct (String.eqb m TOO_MANY_OBJECTS || String.eqb m TOO_MANY_SNAPSHOTS_PER_VOL);
    eexists; reflexivity.
Qed.

(** With a text message, or any status but 400, the error raised is one
    of the kinds of the taxonomy. *)
Lemma handle_errors_in_taxonomy response key object_type s e :
  status_code response <> 400 \/ is_Some (message_of response) ->
  fst (handle_errors response key object_type s) = Raise e ->
  in_taxonomy e = true.
Proof.
  intros [H|[m Hm]] He.
  - rewrite handle_errors_other_status in He by assumption.
    injection He as <-. reflexivity.
  - destruct (Z.eq_dec (status_code response) 400) as [E|E].
    + rewrite (handle_errors_message _ _ _ _ m E Hm) in He.
      injection He as <-. unfold error_of_message.
      repeat match goal with |- context [if ?b then _ else _] => destruct b end;
        reflexivity.
    + rewrite handle_errors_other_status in He by assumption.
      injection He as <-. reflexivity.
Qed.

End ClassifierFacts.

(** ** Traces *)

Section TraceFacts.
Context {Call : Type}.
Implicit Types t u : list (event Call).

Lemma calls_of_app t u : calls_of (t ++ u) = (calls_of t ++ calls_of u)%list.
Proof.
  induction t as [|[c|n|l m] t IH]; simpl; [reflexivity| |assumption..].
  now rewrite IH.
Qed.

Lemma sleeps_of_app t u : sleeps_of (t ++ u) = (sleeps_of t ++ sleeps_of u)%list.
Proof.
  induction t as [|[c|n|l m] t IH]; simpl; [reflexivity|assumption| |assumption].
  now rewrite IH.
Qed.

Lemma logs_of_app t u : logs_of (t ++ u) = (logs_of t ++ logs_of u)%list.
Proof.
  induction t as [|[c|n|l m] t IH]; simpl; [reflexivity|assumption..|].
  now rewrite IH.
Qed.

End TraceFacts.

(** ** One attempt of [req] *)

Section AttemptFacts.
Import XtremIO.
Context {World : Type}.
Variable send : Request -> World -> TransportResult * World.
Local Abbreviation State := (St World Request).
Implicit Types (response : Response) (key name : json) (s : State).

(** One attempt, spelled out: refused before anything is sent when both
    [name] and [idx] are given; otherwise one request, and the answer
    decides. *)
Lemma req_body_refused classify self object_type method name idx ver data s :
  truthy name && idx_set idx = true ->
  req_body send classify self object_type method name idx ver data s
  = (Raise (VolumeDriverException "can't handle both name and index in req"),
     mkSt (world s)
       (trace s ++ [EvLog ERROR "can't handle both name and index in req"])).
Proof. intros H. unfold req_body. rewrite H. reflexivity. Qed.

Lemma req_body_sent classify self object_type method name idx ver data s :
  truthy name && idx_set idx = false ->
  let built := build_request self object_type method name idx ver
                 (data_or_empty data) in
  req_body send classify self object_type method name idx ver data s
  = match fst (send (fst built) (world s)) with
    | Received response =>
        if is_2xx response
        then (success_value method response, sent send s method (fst built))
        else (classify response (snd built) object_type ;;; ret JNull)
               (sent send s method (fst built))
    | RequestException exc =>
        (Raise (VolumeDriverException ("Exception: " ++ exc)),
         sent send s method (fst built))
    end.
Proof.
  intros H built. unfold req_body. rewrite H. fold built.
  unfold sent, debug_records, requests_request, external, bind, LOG, emit,
    ret, raise, is_2xx, success_value, response_json, lift_option.
  destruct (not_GET method); simpl;
    destruct (send (fst built) (world s)) as [[response|exc] w']; simpl;
    rewrite <- ?app_assoc; simpl; try reflexivity;
    destruct ((200 <=? status_code response) && (status_code response <? 300));
    try reflexivity;
    destruct (in_GET_POST method); try reflexivity;
    destruct (json_body response); reflexivity.
Qed.

(** The classifier only writes log records. *)
Lemma handle_errors_state response key object_type s :
  exists records,
    snd (handle_errors response key object_type s)
    = mkSt (world s) (trace s ++ records)
    /\ calls_of records = [] /\ sleeps_of records = [].
Proof.
  assert (Hnil : s = mkSt (world s) (trace s ++ [])).
  { destruct s; simpl. now rewrite app_nil_r. }
  unfold handle_errors, bind, ret, raise, LOG, emit, response_json,
    lift_option.
  destruct (status_code response =? 400); simpl;
    [|eexists; repeat split; reflexivity].
  destruct (json_body response) as [[| | | |l|kv]|]; simpl;
    try (exists []; repeat split; [exact Hnil]).
  destruct (default JNull (dict_get "message" kv)) as [| | |m| |]; simpl;
    try (exists []; repeat split; [exact Hnil]).
  repeat match goal with
         | |- context [if ?b then _ else _] => destruct b; simpl
         end;
    try (exists []; repeat split; [exact Hnil]);
    eexists; repeat split; reflexivity.
Qed.

Lemma handle_errors_world response key object_type s :
  world (snd (handle_errors response key object_type s)) = world s.
Proof.
  destruct (handle_errors_state response key object_type s) as (r & -> & _).
  reflexivity.
Qed.

Lemma handle_errors_calls response key object_type s :
  calls_of (trace (snd (handle_errors response key object_type s)))
  = calls_of (trace s)
  /\ sleeps_of (trace (snd (handle_errors response key object_type s)))
     = sleeps_of (trace s).
Proof.
  destruct (handle_errors_state response key object_type s)
    as (r & -> & Hc & Hs).
  simpl. rewrite calls_of_app, sleeps_of_app, Hc, Hs, !app_nil_r.
  split; reflexivity.
Qed.

End AttemptFacts.

(** ** Retrying *)

Section RetryFacts.
Context {World Call X A : Type}.
Local Abbreviation State := (St World Call).
Variable f : X -> M (S:=State) A.
Variable after : X -> X.
Variable interval : Z.

Lemma classic_final (r : result A) : final r \/ r = Raise XtremIOArrayBusy.
Proof.
  destruct r as [a|e]; [left; discriminate|].
  destruct e; try (left; discriminate). now right.
Qed.

Lemma retry_loop_final more x s r s' :
  f x s = (r, s') -> final r ->
  retry_loop is_XtremIOArrayBusy interval more f after x s = (r, s').
Proof.
  intros H Hr. destruct more; simpl; rewrite H;
    (destruct r as [a|e]; [reflexivity|]);
    (destruct e; try reflexivity; now destruct Hr).
Qed.

Lemma retry_loop_exhausted x s s' :
  f x s = (Raise XtremIOArrayBusy, s') ->
  retry_loop is_XtremIOArrayBusy interval 0 f after x s
  = (Raise XtremIOArrayBusy, s').
Proof. intros H. simpl. now rewrite H. Qed.

Lemma retry_loop_again more x s s' :
  f x s = (Raise XtremIOArrayBusy, s') ->
  retry_loop is_XtremIOArrayBusy interval (Datatypes.S more) f after x s
  = retry_loop is_XtremIOArrayBusy interval more f after (after x)
      (slept interval s').
Proof. intros H. simpl. rewrite H. reflexivity. Qed.

(** After [k] busy attempts, the outcome of the next attempt is the
    outcome of the loop when it is final or the attempts are used up. *)
Lemma retry_loop_after_busy k : forall more x s x' s' r s'',
  busy_attempts f after interval k x s x' s' ->
  f x' s' = (r, s'') ->
  (k <= more)%nat ->
  final r \/ k = more ->
  retry_loop is_XtremIOArrayBusy interval more f after x s = (r, s'').
Proof.
  induction k as [|k IH]; intros more x s x' s' r s'' Hb Hf Hle Hr;
    inversion Hb; subst.
  - destruct (classic_final r) as [Hfin|Hbusy].
    + now apply retry_loop_final.
    + subst r. destruct Hr as [Hr|<-]; [now destruct Hr|].
      now apply retry_loop_exhausted.
  - destruct more as [|more]; [lia|].
    rewrite (retry_loop_again _ _ _ _ H0).
    apply (IH more _ _ x' s'); [assumption..|lia|].
    destruct Hr as [Hr|Hr]; [now left|right; lia].
Qed.

End RetryFacts.

(** ** [req]: retries *)

Section ReqFacts.
Import XtremIO.
Context {World : Type}.
Variable send : Request -> World -> TransportResult * World.
Variable CONF : Conf.
Local Abbreviation State := (St World Request).
Implicit Types (response : Response) (key name : json) (s : State).

(** A 400 answer without a text message is not classified: the classifier
    fails with [ValueError] or [AttributeError]. *)
Lemma handle_errors_no_message response key object_type s :
  status_code response = 400 ->
  message_of response = None ->
  fst (handle_errors response key object_type s) = Raise ValueError
  \/ fst (handle_errors response key object_type s) = Raise AttributeError.
Proof.
  intros Hs Hm. unfold message_of in Hm.
  unfold handle_errors, bind, ret, raise, LOG, emit, response_json,
    lift_option.
  rewrite Hs. simpl.
  destruct (json_body response) as [[| | | |l|kv]|]; simpl; auto.
  destruct (dict_get "message" kv) as [[| | |m| |]|]; simpl; auto.
  discriminate.
Qed.

Lemma handle_errors_busy_iff response key object_type s :
  fst (handle_errors response key object_type s) = Raise XtremIOArrayBusy
  <-> busy_response response.
Proof.
  unfold busy_response. split.
  - intros H. destruct (Z.eq_dec (status_code response) 400) as [E|E].
    + split; [assumption|].
      destruct (message_of response) as [m|] eqn:Hm.
      * rewrite (handle_errors_message _ _ _ _ m E Hm) in H.
        injection H as H. unfold error_of_message, unknown_error in H.
        destruct (endswith m OBJ_NOT_FOUND_ERR); [discriminate|].
        destruct (String.eqb m VOL_NOT_UNIQUE_ERR); [discriminate|].
        destruct (String.eqb m VOL_OBJ_NOT_FOUND_ERR); [discriminate|].
        destruct (contains ALREADY_MAPPED_ERR m); [discriminate|].
        destruct (String.eqb_spec m SYSTEM_BUSY) as [Heq|_];
          [now rewrite Heq|].
        destruct (String.eqb m TOO_MANY_OBJECTS
                  || String.eqb m TOO_MANY_SNAPSHOTS_PER_VOL); discriminate.
      * destruct (handle_errors_no_message _ key object_type s E Hm) as [H'|H'];
          rewrite H' in H; discriminate.
    + rewrite handle_errors_other_status in H by assumption. discriminate.
  - intros [E Hm]. now rewrite (handle_errors_message _ _ _ _ _ E Hm).
Qed.

(** What follows the classifier in [req] is never reached. *)
Lemma classified response key object_type s :
  exists e,
    (handle_errors response key object_type ;;; ret JNull) s
    = (Raise e, snd (handle_errors response key object_type s))
    /\ fst (handle_errors response key object_type s) = Raise e.
Proof.
  destruct (handle_errors_raises response key object_type s) as [e He].
  exists e. split; [|assumption]. unfold bind.
  destruct (handle_errors response key object_type s) as [r s1].
  simpl in He. subst r. reflexivity.
Qed.

(** An attempt sends at most one request and never pauses. *)
Lemma attempt_trace self object_type method name idx ver data s :
  let s' := snd (req_body send handle_errors self object_type method name
                   idx ver data s) in
  calls_of (trace s')
  = (calls_of (trace s)
     ++ if truthy name && idx_set idx then []
        else [fst (build_request self object_type method name idx ver
                     (data_or_empty data))])%list
  /\ sleeps_of (trace s') = sleeps_of (trace s).
Proof.
  intros s'. subst s'.
  destruct (truthy name && idx_set idx) eqn:Hb.
  - rewrite req_body_refused by assumption. simpl.
    rewrite calls_of_app, sleeps_of_app. simpl. now rewrite !app_nil_r.
  - rewrite req_body_sent by assumption.
    set (rq := fst (build_request _ _ _ _ _ _ _)).
    assert (Hsent : calls_of (trace (sent send s method rq))
                    = (calls_of (trace s) ++ [rq])%list
                    /\ sleeps_of (trace (sent send s method rq))
                       = sleeps_of (trace s)).
    { unfold sent, debug_records. simpl.
      rewrite !calls_of_app, !sleeps_of_app.
      destruct (not_GET method); simpl; now rewrite !app_nil_r. }
    destruct (fst (send rq (world s))) as [response|exc]; [|exact Hsent].
    destruct (is_2xx response); [exact Hsent|].
    destruct (classified response
                (snd (build_request self object_type method name idx ver
                        (data_or_empty data)))
                object_type (sent send s method rq)) as (e & -> & _).
    simpl.
    destruct (handle_errors_calls response
                (snd (build_request self object_type method name idx ver
                        (data_or_empty data)))
                object_type (sent send s method rq)) as [-> ->].
    exact Hsent.
Qed.

(** A busy attempt did send its request, and the answer was the busy
    answer. *)
Lemma attempt_busy self object_type method name idx ver data s s' :
  req_body send handle_errors self object_type method name idx ver data s
  = (Raise XtremIOArrayBusy, s') ->
  truthy name && idx_set idx = false
  /\ exists response,
       fst (send (fst (build_request self object_type method name idx ver
                         (data_or_empty data))) (world s))
       = Received response
       /\ busy_response response.
Proof.
  intros H. destruct (truthy name && idx_set idx) eqn:Hb.
  - rewrite req_body_refused in H by assumption. discriminate.
  - split; [reflexivity|]. rewrite req_body_sent in H by assumption.
    destruct (fst (send _ (world s))) as [response|exc]; [|discriminate].
    exists response. split; [reflexivity|].
    destruct (is_2xx response).
    + unfold success_value in H.
      destruct (in_GET_POST method); [|discriminate].
      destruct (json_body response); discriminate.
    + match type of H with
      | (handle_errors ?r ?k ?o ;;; _) ?st = _ =>
          destruct (classified r k o st) as (e & He & Hfst);
          rewrite He in H; injection H as -> _;
          now apply (handle_errors_busy_iff r k o st)
      end.
Qed.

(** [k] busy attempts sent [k] requests and paused [k] times. *)
Lemma busy_attempts_trace self object_type method name idx ver interval k :
  forall data s data' s',
  busy_attempts
    (req_body send handle_errors self object_type method name idx ver)
    (data_after_req self method) interval k data s data' s' ->
  length (calls_of (trace s')) = (length (calls_of (trace s)) + k)%nat
  /\ sleeps_of (trace s') = (sleeps_of (trace s) ++ replicate k interval)%list.
Proof.
  induction k as [|k IH]; intros data s data' s' Hb; inversion Hb; subst.
  - simpl. now rewrite Nat.add_0_r, app_nil_r.
  - destruct (IH _ _ _ _ H1) as [Hc Hs]. rewrite Hc, Hs.
    pose proof (attempt_trace self object_type method name idx ver data s)
      as [Tc Ts].
    rewrite H0 in Tc, Ts. simpl in Tc, Ts.
    destruct (attempt_busy _ _ _ _ _ _ _ _ _ H0) as [Hnb _].
    rewrite Hnb in Tc.
    unfold slept. simpl. rewrite calls_of_app, sleeps_of_app. simpl.
    rewrite app_nil_r, Tc, Ts, length_app. simpl.
    split; [lia|]. now rewrite <- app_assoc.
Qed.

End ReqFacts.

Section RetryClaim.
Import XtremIO.
Context {World : Type}.
Variable send : Request -> World -> TransportResult * World.
Variable CONF : Conf.
Local Abbreviation State := (St World Request).

(** C1. A call of [req] that meets a busy array: after [k] attempts that
    were answered with the busy error (status 400, message
    [system_is_busy]), each followed by a pause of the configured interval,
    the outcome of attempt [k + 1] is the outcome of the call as soon as it
    is anything but the busy error, or when [k + 1] is the configured
    number of attempts (then the busy error surfaces). Nothing else is
    sent: the call made [k + 1] requests and paused [k] times for the
    interval. With [k = 0] this is every other outcome passing through on
    its first occurrence. The defaults are 5 attempts and an interval
    of 5. *)
Theorem C1_req_retries_only_array_busy
    (self : Client) (object_type method : string) (data : option dict)
    (name : json) (idx : option Z) (ver : option string)
    (k : nat) (data' : option dict) (s s' s'' : State) (r : result json) :
  let attempt := req_body send handle_errors self object_type method name
                   idx (default (default_ver self) ver) in
  let interval := xtremio_array_busy_retry_interval CONF in
  let attempts := Z.to_nat (xtremio_array_busy_retry_count CONF) in
  busy_attempts attempt (data_after_req self method) interval k
    data s data' s' ->
  (k < attempts)%nat ->
  attempt data' s' = (r, s'') ->
  final r \/ Datatypes.S k = attempts ->
  req send CONF self object_type method data name idx ver s = (r, s'')
  /\ length (calls_of (trace s''))
     = (length (calls_of (trace s))
        + if truthy name && idx_set idx then 0 else Datatypes.S k)%nat
  /\ sleeps_of (trace s'')
     = (sleeps_of (trace s) ++ replicate k interval)%list
  /\ (forall response key ot (st : State),
        fst (handle_errors response key ot st) = Raise XtremIOArrayBusy
        <-> busy_response response)
  /\ xtremio_array_busy_retry_count XTREMIO_OPTS = 5
  /\ xtremio_array_busy_retry_interval XTREMIO_OPTS = 5.
Proof.
  intros attempt interval attempts Hbusy Hlt Hlast Hfinal.
  split; [|split; [|split; [|split; [|split; reflexivity]]]].
  - unfold req, req_ver, retry. fold attempt interval attempts.
    apply (retry_loop_after_busy attempt _ interval k _ _ _ data' s');
      [assumption..|lia|].
    destruct Hfinal as [H|H]; [now left|right; lia].
  - destruct (busy_attempts_trace send _ _ _ _ _ _ _ _ _ _ _ _ Hbusy)
      as [Hc _].
    pose proof (attempt_trace send self object_type method name idx
                  (default (default_ver self) ver) data' s') as [Tc _].
    fold attempt in Tc. rewrite Hlast in Tc. simpl in Tc.
    rewrite Tc, length_app, Hc.
    destruct (truthy name && idx_set idx) eqn:Hb; simpl; [|lia].
    destruct k as [|k]; [lia|]. inversion Hbusy; subst.
    match goal with
    | H : attempt _ _ = (Raise XtremIOArrayBusy, _) |- _ =>
        apply attempt_busy in H; destruct H as [H _]; congruence
    end.
  - destruct (busy_attempts_trace send _ _ _ _ _ _ _ _ _ _ _ _ Hbusy)
      as [_ Hs].
    pose proof (attempt_trace send self object_type method name idx
                  (default (default_ver self) ver) data' s') as [_ Ts].
    fold attempt in Ts. rewrite Hlast in Ts. simpl in Ts.
    now rewrite Ts, Hs.
  - intros response key ot st. apply handle_errors_busy_iff.
Qed.

End RetryClaim.

(** Three busy answers, then success, with at most five attempts: the call
    succeeds after three pauses. *)
Lemma C1_req_retries_only_array_busy_witness :
  let s := XtremIO.start [busy; busy; busy;
                           XtremIO.answer 200 (JObj [("content", JNum 1)])] in
  let out := XtremIO.req XtremIO.scripted XtremIO.XTREMIO_OPTS example_client3
               "volumes" "GET" None (JStr "v1") None None s in
  fst out = Ok (JObj [("content", JNum 1)])
  /\ sleeps_of (trace (snd out)) = [5; 5; 5]
  /\ length (calls_of (trace (snd out))) = 4%nat.
Proof.
  intros s out.
  edestruct (C1_req_retries_only_array_busy XtremIO.scripted
               XtremIO.XTREMIO_OPTS example_client3 "volumes" "GET" None
               (JStr "v1") None None 3 None s)
    as (Hreq & Hcalls & Hsleeps & _).
  - eapply busy_again; [vm_compute; reflexivity|].
    eapply busy_again; [vm_compute; reflexivity|].
    eapply busy_again; [vm_compute; reflexivity|].
    apply busy_none.
  - vm_compute. lia.
  - vm_compute. reflexivity.
  - left. discriminate.
  - subst out. rewrite Hreq. simpl. split; [reflexivity|].
    split; [exact Hsleeps|exact Hcalls].
Defined.

(** ** Dicts *)

Lemma dict_get_set_eq k v d : dict_get k (dict_set k v d) = Some v.
Proof.
  induction d as [|[k' v'] d IH]; simpl.
  - now rewrite String.eqb_refl.
  - destruct (String.eqb k' k) eqn:E; simpl; now rewrite E.
Qed.

Lemma dict_get_set_ne k k' v d :
  k <> k' -> dict_get k (dict_set k' v d) = dict_get k d.
Proof.
  intros Hne. induction d as [|[k0 v0] d IH]; simpl.
  - destruct (String.eqb_spec k' k); [congruence|reflexivity].
  - destruct (String.eqb_spec k0 k') as [->|E]; simpl.
    + destruct (String.eqb_spec k' k); [congruence|reflexivity].
    + now rewrite IH.
Qed.

Lemma dict_get_update k other : forall d,
  dict_get k other = None -> dict_get k (dict_update d other) = dict_get k d.
Proof.
  unfold dict_update.
  induction other as [|[k' v'] other IH]; intros d H; simpl; [reflexivity|].
  simpl in H. destruct (String.eqb_spec k' k) as [->|E]; [discriminate|].
  rewrite IH by assumption. apply dict_get_set_ne. congruence.
Qed.

(** ** [req]: success, and the identifier of a request *)

Section RequestClaims.
Import XtremIO.
Context {World : Type}.
Variable send : Request -> World -> TransportResult * World.
Variable CONF : Conf.
Local Abbreviation State := (St World Request).

(** C9, amended. An answer with a status in the 200s ends the call at
    once: for [GET] and [POST] the parsed body is returned as it is (a body
    that is not JSON makes [response.json()] raise [ValueError]); for any
    other verb the empty text is returned and the body is not looked at.
    The classifier has no part in it: whatever classifier [req] is given,
    the outcome and the trace are the same, the trace growing by the debug
    records and the one request only. *)
Theorem C9_success_bypasses_classifier
    (self : Client) (object_type method : string) (data : option dict)
    (name : json) (idx : option Z) (ver : option string) (s : State)
    (response : Response) :
  let v := default (default_ver self) ver in
  let request := fst (build_request self object_type method name idx v
                        (data_or_empty data)) in
  truthy name && idx_set idx = false ->
  fst (send request (world s)) = Received response ->
  200 <= status_code response < 300 ->
  (forall classify,
     req_body send classify self object_type method name idx v data s
     = (success_value method response, sent send s method request))
  /\ req send CONF self object_type method data name idx ver s
     = (success_value method response, sent send s method request)
  /\ success_value method response
     = (if in_GET_POST method
        then match json_body response with
             | Some body => Ok body
             | None => Raise ValueError
             end
        else Ok (JStr "")).
Proof.
  intros v request Hid Hsend Hst.
  assert (H2 : is_2xx response = true).
  { unfold is_2xx. apply andb_true_intro. split; [apply Z.leb_le|apply Z.ltb_lt]; lia. }
  assert (Hbody : forall classify,
             req_body send classify self object_type method name idx v data s
             = (success_value method response, sent send s method request)).
  { intros classify. rewrite req_body_sent by assumption.
    fold request. now rewrite Hsend, H2. }
  split; [exact Hbody|]. split; [|reflexivity].
  unfold req, req_ver, retry. fold v.
  apply retry_loop_final; [apply Hbody|].
  unfold final, success_value.
  destruct (in_GET_POST method); [|discriminate].
  destruct (json_body response); discriminate.
Qed.

End RequestClaims.

Lemma C9_success_bypasses_classifier_witness :
  let body := JObj [("content", JObj [("name", JStr "v1")])] in
  XtremIO.req XtremIO.scripted XtremIO.XTREMIO_OPTS example_client3
    "volumes" "GET" None (JStr "v1") None None
    (XtremIO.start [XtremIO.answer 200 body])
  = (Ok body,
     sent XtremIO.scripted (XtremIO.start [XtremIO.answer 200 body]) "GET"
       (fst (XtremIO.build_request example_client3 "volumes" "GET"
               (JStr "v1") None "v1" []))).
Proof.
  intros body.
  refine (proj1 (proj2 (C9_success_bypasses_classifier XtremIO.scripted
            XtremIO.XTREMIO_OPTS example_client3 "volumes" "GET" None
            (JStr "v1") None None
            (XtremIO.start [XtremIO.answer 200 body])
            (mkResponse 200 "" (Some body)) _ _ _)));
    [reflexivity|reflexivity|simpl; lia].
Defined.

(** C9 as stated fails for [PUT] (and [DELETE]): the body of a 200 answer
    is dropped and the empty text returned. *)
Lemma C9_counterexample :
  ~ (forall (method : string) (body : json),
       fst (XtremIO.req XtremIO.scripted XtremIO.XTREMIO_OPTS example_client3
              "volumes" method None (JStr "v1") None None
              (XtremIO.start [XtremIO.answer 200 body]))
       = Ok body).
Proof.
  intros H. specialize (H "PUT" (JObj [("content", JNum 1)])).
  vm_compute in H. discriminate H.
Qed.

Section IdentifierClaim.
Import XtremIO.
Context {World : Type}.
Variable send : Request -> World -> TransportResult * World.
Variable CONF : Conf.
Local Abbreviation State := (St World Request).

Lemma data_or_empty_Some (d : dict) : data_or_empty (Some d) = d.
Proof. now destruct d. Qed.

Lemma dict_get_update_data self k d :
  k <> "cluster-id" -> dict_get k (update_data self d) = dict_get k d.
Proof.
  intros H. unfold update_data.
  destruct (class_of self); [reflexivity|].
  destruct (cluster_id self); [reflexivity|].
  now apply dict_get_set_ne.
Qed.

Lemma dict_get_update_url self k d :
  k <> "cluster-name" -> dict_get k (update_url self d) = dict_get k d.
Proof.
  intros H. unfold update_url.
  destruct (class_of self); [reflexivity|].
  destruct (cluster_id self); [reflexivity|].
  now apply dict_get_set_ne.
Qed.

(** What an attempt writes into [data] does not touch a [name] key. *)
Lemma name_after_req self method data :
  dict_get "name" (data_or_empty (data_after_req self method data))
  = dict_get "name" (data_or_empty data).
Proof.
  destruct data as [[|kv d]|]; try reflexivity.
  unfold data_after_req. destruct (not_GET method); [|reflexivity].
  rewrite data_or_empty_Some. now apply dict_get_update_data.
Qed.

Lemma append_same (a b : string) : a ++ b = a -> b = "".
Proof.
  induction a as [|c a IH]; simpl; [auto|].
  intros H. injection H as H. auto.
Qed.

(** The keys of a dict that was written to. *)
Lemma has_key_set k k' v d :
  has_key k (dict_set k' v d) = String.eqb k' k || has_key k d.
Proof.
  unfold has_key. destruct (String.eqb_spec k' k) as [->|E].
  - now rewrite dict_get_set_eq.
  - rewrite dict_get_set_ne by congruence. reflexivity.
Qed.

Lemma has_key_update k other : forall d,
  has_key k (dict_update d other) = has_key k d || has_key k other.
Proof.
  unfold dict_update.
  induction other as [|[k' v'] other IH]; intros d; simpl.
  - now rewrite orb_false_r.
  - rewrite IH, has_key_set. unfold has_key at 4. simpl.
    destruct (String.eqb k' k); simpl.
    + now rewrite orb_true_r.
    + reflexivity.
Qed.

Lemma has_key_update_url self k d :
  k <> "cluster-name" -> has_key k (update_url self d) = has_key k d.
Proof. intros H. unfold has_key. now rewrite dict_get_update_url. Qed.

(** The identifiers a built request carries: the index below the
    collection when [idx] is true and [name] is not; a [name] in the query
    when [name] is true, and also when the data of a GET or DELETE has a
    [name] key. *)
Lemma build_request_identifier self object_type method name idx ver d :
  truthy name && idx_set idx = false ->
  let r := fst (build_request self object_type method name idx ver d) in
  by_name r = truthy name || (in_GET_DELETE method && has_key "name" d)
  /\ by_index self object_type ver r = negb (truthy name) && idx_set idx.
Proof.
  intros Hboth r. subst r. unfold by_index, build_request.
  fold (collection_url self object_type ver).
  change by_name with (fun r => has_key "name" (rq_params r)).
  destruct (truthy name) eqn:Hn; simpl in *.
  - rewrite String.eqb_refl. split; [|reflexivity].
    destruct (in_GET_DELETE method); simpl; [|reflexivity].
    rewrite has_key_update_url by discriminate.
    now rewrite has_key_update.
  - assert (Hp : has_key "name"
                   (if in_GET_DELETE method
                    then update_url self (dict_update [] d) else [])
                 = in_GET_DELETE method && has_key "name" d).
    { destruct (in_GET_DELETE method); [|reflexivity].
      rewrite has_key_update_url by discriminate.
      now rewrite has_key_update. }
    destruct (idx_set idx); simpl; rewrite Hp; (split; [reflexivity|]).
    + destruct (String.eqb_spec
                  (collection_url self object_type ver ++ "/" ++ py_str (default 0 idx))
                  (collection_url self object_type ver)) as [E|E];
        [|reflexivity].
      apply append_same in E. discriminate.
    + now rewrite String.eqb_refl.
Qed.

(** Every request of a call is built from the same [name] and [idx]. *)
Lemma retry_loop_calls self object_type method name idx ver interval more :
  forall data s,
  truthy name && idx_set idx = false ->
  exists new,
    calls_of (trace (snd (retry_loop is_XtremIOArrayBusy interval more
                            (req_body send handle_errors self object_type
                               method name idx ver)
                            (data_after_req self method) data s)))
    = (calls_of (trace s) ++ new)%list
    /\ new <> []
    /\ Forall (fun r => exists d,
                 r = fst (build_request self object_type method name idx ver d)
                 /\ dict_get "name" d = dict_get "name" (data_or_empty data))
         new.
Proof.
  induction more as [|more IH]; intros data s Hboth;
    pose proof (attempt_trace send self object_type method name idx ver
                  data s) as [Tc _];
    rewrite Hboth in Tc; simpl in Tc |- *;
    destruct (req_body send handle_errors self object_type method name idx
                ver data s) as [[a|e] s1]; simpl in Tc |- *;
    try (eexists; split; [exact Tc|]; split; [discriminate|];
         constructor; [eexists; split; reflexivity|constructor]).
  - destruct (is_XtremIOArrayBusy e); simpl;
      eexists; (split; [exact Tc|]); (split; [discriminate|]);
      (constructor; [eexists; split; reflexivity|constructor]).
  - destruct (is_XtremIOArrayBusy e); simpl;
      [|eexists; (split; [exact Tc|]); (split; [discriminate|]);
        (constructor; [eexists; split; reflexivity|constructor])].
    unfold bind, sleep, emit. simpl.
    destruct (IH (data_after_req self method data)
                (mkSt (world s1) (trace s1 ++ [EvSleep interval])) Hboth)
      as (new & Hc & _ & Hall).
    exists (fst (build_request self object_type method name idx ver
                   (data_or_empty data)) :: new).
    split.
    + rewrite Hc. simpl. rewrite calls_of_app. simpl.
      rewrite app_nil_r, Tc, <- app_assoc. reflexivity.
    + split; [discriminate|]. constructor.
      * eexists; split; reflexivity.
      * eapply Forall_impl; [exact Hall|]. intros r (d & -> & Hd).
        exists d. split; [reflexivity|]. rewrite Hd. apply name_after_req.
Qed.


End IdentifierClaim.



(** ** Snapshots on [XtremIOClient4] *)

Section SnapshotClaim.
Import XtremIO.
Context {World : Type}.
Variable send : Request -> World -> TransportResult * World.
Variable CONF : Conf.
Local Abbreviation State := (St World Request).

Lemma build_request_method self object_type method name idx ver d :
  rq_method (fst (build_request self object_type method name idx ver d))
  = method.
Proof.
  unfold build_request.
  destruct (truthy name); [|destruct (idx_set idx)]; reflexivity.
Qed.

(** The requests a call of [req] sends all use the verb of the call. *)
Lemma req_calls_method self object_type method data name idx ver (s : State) :
  exists new,
    calls_of (trace (snd (req send CONF self object_type method data name
                            idx ver s)))
    = (calls_of (trace s) ++ new)%list
    /\ Forall (fun r => rq_method r = method) new.
Proof.
  unfold req, req_ver, retry.
  destruct (truthy name && idx_set idx) eqn:Hboth.
  - exists []. split; [|constructor].
    erewrite retry_loop_final;
      [|now apply req_body_refused|discriminate].
    simpl. rewrite calls_of_app. reflexivity.
  - destruct (retry_loop_calls send self object_type method name idx
                (default (default_ver self) ver)
                (xtremio_array_busy_retry_interval CONF)
                (Z.to_nat (xtremio_array_busy_retry_count CONF) - 1)
                data s Hboth) as (new & Hc & _ & Hall).
    exists new. split; [exact Hc|].
    eapply Forall_impl; [exact Hall|]. intros r (d & -> & _).
    apply build_request_method.
Qed.

(** C2, amended. [XtremIOClient4.create_snapshot] first creates the
    snapshot set (a POST on [snapshots]) and then renames the created
    object, found by the type and index of the link in the answer, to the
    requested name (a PUT). When the rename succeeds the call returns and
    the rename is the last thing done. When the rename fails with a
    [VolumeBackendAPIException], the revert is announced and a DELETE of the
    created object follows; if that deletion succeeds, the error of the
    rename is raised again. When the rename fails with any other error,
    that error propagates at once and no DELETE is sent. *)
Theorem C2_create_snapshot_compensates
    (self : Client) (src dest : string) (ro : bool)
    (s s1 s2 : State) (res : json) (typ : string) (idx : Z)
    (renamed : result json) :
  create_step send CONF self src dest ro s = (Ok res, s1) ->
  href_type_index res = Ok (typ, idx) ->
  rename_step send CONF self typ idx dest s1 = (renamed, s2) ->
  let out := XtremIOClient4_create_snapshot send CONF self src dest ro s in
  match renamed with
  | Ok _ => out = (Ok tt, s2)
  | Raise e =>
      if is_VolumeBackendAPIException e then
        out = (match fst (revert_step send CONF self typ idx (reverting s2)) with
               | Ok _ => Raise e
               | Raise e' => Raise e'
               end,
               snd (revert_step send CONF self typ idx (reverting s2)))
        /\ exists new,
             calls_of (trace (snd out))
             = (calls_of (trace s2) ++ new)%list
             /\ Forall (fun r => rq_method r = "DELETE") new
      else
        out = (Raise e, s2)
        /\ exists new,
             calls_of (trace (snd out)) = (calls_of (trace s) ++ new)%list
             /\ Forall (fun r => rq_method r <> "DELETE") new
  end.
Proof.
  intros Hcreate Hlink Hrename out.
  assert (Hout : out
    = try_except
        (req send CONF self typ "PUT" (Some [("name", JStr dest)]) JNull
           (Some idx) None ;;; ret tt)
        is_VolumeBackendAPIException
        (fun e =>
           LOG ERROR "Failed to rename the created snapshot, reverting." ;;;
           req send CONF self typ "DELETE" None JNull (Some idx) None ;;;
           raise e) s1).
  { subst out. unfold XtremIOClient4_create_snapshot.
    unfold create_step, snapshot_set_data in Hcreate.
    rewrite (bind_Ok _ _ _ _ _ Hcreate).
    unfold lift_result at 1. unfold bind at 1. rewrite Hlink. reflexivity. }
  unfold rename_step in Hrename.
  destruct renamed as [a|e].
  - rewrite Hout.
    apply try_except_Ok. now rewrite (bind_Ok _ _ _ _ _ Hrename).
  - destruct (is_VolumeBackendAPIException e) eqn:He.
    + assert (Hrev : out
        = (match fst (revert_step send CONF self typ idx (reverting s2)) with
           | Ok _ => Raise e
           | Raise e' => Raise e'
           end, snd (revert_step send CONF self typ idx (reverting s2)))).
      { rewrite Hout.
        rewrite (try_except_caught _ _ _ _ e s2);
          [|now rewrite (bind_Raise _ _ _ _ _ Hrename)|assumption].
        unfold bind, LOG, emit, raise. simpl.
        change (mkSt (world s2)
                  (trace s2 ++ [EvLog ERROR "Failed to rename the created snapshot, reverting."]))
          with (reverting s2).
        unfold revert_step.
        destruct (req send CONF self typ "DELETE" None JNull (Some idx) None
                    (reverting s2)) as [[a|e'] s3]; reflexivity. }
      split; [exact Hrev|]. rewrite Hrev. simpl.
      destruct (req_calls_method self typ "DELETE" None JNull (Some idx) None
                  (reverting s2)) as (new & Hc & Hall).
      exists new. split; [|exact Hall].
      unfold revert_step. rewrite Hc. unfold reverting, noted. simpl.
      rewrite calls_of_app. simpl. now rewrite app_nil_r.
    + assert (Hpass : out = (Raise e, s2)).
      { rewrite Hout. apply try_except_passed; [|assumption].
        now rewrite (bind_Raise _ _ _ _ _ Hrename). }
      split; [exact Hpass|]. rewrite Hpass. simpl.
      destruct (req_calls_method self "snapshots" "POST"
                  (Some (snapshot_set_data src dest ro)) JNull None
                  (Some "v2") s) as (new1 & Hc1 & Hall1).
      destruct (req_calls_method self typ "PUT" (Some [("name", JStr dest)])
                  JNull (Some idx) None s1) as (new2 & Hc2 & Hall2).
      unfold create_step in Hcreate. rewrite Hcreate in Hc1.
      rewrite Hrename in Hc2. simpl in Hc1, Hc2.
      exists (new1 ++ new2)%list. split.
      * rewrite Hc2, Hc1. now rewrite app_assoc.
      * apply Forall_app. split.
        -- eapply Forall_impl; [exact Hall1|]. intros r ->. discriminate.
        -- eapply Forall_impl; [exact Hall2|]. intros r ->. discriminate.
Qed.

End SnapshotClaim.

(** The rename is answered with a server error: the created volume is
    deleted and the error of the rename is raised. *)
Lemma C2_create_snapshot_compensates_witness :
  let out := XtremIO.XtremIOClient4_create_snapshot XtremIO.scripted
               XtremIO.XTREMIO_OPTS example_client4 "src" "dst" true
               (XtremIO.start [created_answer; XtremIO.answer 500 JNull;
                               XtremIO.answer 200 JNull]) in
  fst out
  = Raise (VolumeBackendAPIException (kw_message "Bad response from XMS, "))
  /\ map rq_method (calls_of (trace (snd out))) = ["POST"; "PUT"; "DELETE"].
Proof.
  intros out.
  pose proof
    (C2_create_snapshot_compensates XtremIO.scripted XtremIO.XTREMIO_OPTS
       example_client4 "src" "dst" true
       (XtremIO.start [created_answer; XtremIO.answer 500 JNull;
                       XtremIO.answer 200 JNull])
       _ _ _ "volumes" 12 _ eq_refl eq_refl eq_refl) as H.
  simpl in H. destruct H as [H _]. subst out. rewrite H.
  split; reflexivity.
Defined.

(** C2 as stated fails when the rename is refused with another error kind:
    the array no longer finds the object, the error propagates, and no
    DELETE is sent. *)
Lemma C2_counterexample :
  let out := XtremIO.XtremIOClient4_create_snapshot XtremIO.scripted
               XtremIO.XTREMIO_OPTS example_client4 "src" "dst" true
               (XtremIO.start [created_answer;
                               XtremIO.error_answer "obj_not_found";
                               XtremIO.answer 200 JNull]) in
  fst out = Raise NotFound
  /\ map rq_method (calls_of (trace (snd out))) = ["POST"; "PUT"].
Proof. split; vm_compute; reflexivity. Qed.

(** ** A classified failure ends the call *)

Section ClassifiedFailure.
Import XtremIO.
Context {World : Type}.
Variable send : Request -> World -> TransportResult * World.
Variable CONF : Conf.
Local Abbreviation State := (St World Request).

(** When the first answer is an error that is not the busy error, [req]
    raises what the classifier raises for it, after one request. *)
Lemma req_classified self object_type method data name idx ver (s : State)
    response e :
  let v := default (default_ver self) ver in
  let built := build_request self object_type method name idx v
                 (data_or_empty data) in
  truthy name && idx_set idx = false ->
  fst (send (fst built) (world s)) = Received response ->
  is_2xx response = false ->
  fst (handle_errors response (snd built) object_type
         (sent send s method (fst built))) = Raise e ->
  e <> XtremIOArrayBusy ->
  req send CONF self object_type method data name idx ver s
  = (Raise e,
     snd (handle_errors response (snd built) object_type
            (sent send s method (fst built)))).
Proof.
  intros v built Hboth Hsend H2 He Hne.
  unfold req, req_ver, retry. fold v.
  apply retry_loop_final; [|unfold final; congruence].
  rewrite req_body_sent by assumption. fold built. rewrite Hsend, H2.
  destruct (classified response (snd built) object_type
              (sent send s method (fst built))) as (e' & -> & He').
  rewrite He' in He. now injection He as ->.
Qed.

(** The state a classified failure leaves differs from the state after
    the request by log records only. *)
Lemma req_classified_calls self object_type method data name idx ver
    (s : State) response :
  let v := default (default_ver self) ver in
  let built := build_request self object_type method name idx v
                 (data_or_empty data) in
  calls_of (trace (snd (handle_errors response (snd built) object_type
                          (sent send s method (fst built)))))
  = (calls_of (trace s) ++ [fst built])%list.
Proof.
  intros v built.
  destruct (handle_errors_calls response (snd built) object_type
              (sent send s method (fst built))) as [-> _].
  unfold sent, debug_records. simpl. rewrite !calls_of_app.
  destruct (not_GET method); simpl; now rewrite ?app_nil_r.
Qed.

End ClassifiedFailure.

(** ** Create-or-fetch *)

Section CreateClaim.
Import XtremIO Unity.
Context {UWorld XWorld : Type}.
Variable storops : forall c : storops_call,
  UWorld -> result (answer_type c) * UWorld.
Variable send : Request -> XWorld -> TransportResult * XWorld.
Variable CONF : Conf.
Local Abbreviation UState := (St UWorld storops_call).
Local Abbreviation XState := (St XWorld Request).

(** One SDK call, spelled out. *)
Lemma call_eq (c : storops_call) (s : UState) :
  call storops c s
  = (fst (storops c (world s)),
     mkSt (snd (storops c (world s))) (trace s ++ [EvCall c])).
Proof.
  unfold call, external, bind, lift_result.
  destruct (storops c (world s)) as [[a|e] w]; reflexivity.
Qed.

(** C3, amended. The Unity client recovers from a name in use by fetching:
    when the array refuses [pool.create_lun] because the name is taken,
    [create_lun] returns what [system.get_lun(name=name)] returns, so a
    second creation under the same name gives the LUN of the first whenever
    the array finds that LUN by its name; and when [lun.create_snap] is
    refused because the name is taken, [create_snap] returns what
    [get_snap(name)] returns. [XtremIOVolumeDriver.create_volume] does not
    recover: the duplicate-name answer of the array surfaces as the
    [VolumeBackendAPIException] the classifier raises for it. *)
Theorem C3_create_or_fetch :
  (forall name size pool description io_limit_policy (s : UState),
     fst (storops (pool_create_lun pool name size description io_limit_policy)
            (world s)) = Raise UnityLunNameInUseError ->
     create_lun storops name size pool description io_limit_policy s
     = call storops (system_get_lun None (Some name))
         (mkSt (snd (storops (pool_create_lun pool name size description
                                io_limit_policy) (world s)))
            (trace s
             ++ [EvCall (pool_create_lun pool name size description
                           io_limit_policy);
                 EvLog DEBUG "LUN %s already exists. Return the existing one."])))
  /\ (forall name size pool description io_limit_policy (s s1 : UState) lun,
        create_lun storops name size pool description io_limit_policy s
        = (Ok lun, s1) ->
        fst (storops (pool_create_lun pool name size description
                        io_limit_policy) (world s1))
        = Raise UnityLunNameInUseError ->
        fst (storops (system_get_lun None (Some name))
               (snd (storops (pool_create_lun pool name size description
                                io_limit_policy) (world s1))))
        = Ok lun ->
        fst (create_lun storops name size pool description io_limit_policy s1)
        = Ok lun)
  /\ (forall src_lun_id name (s s1 : UState) lun,
        get_lun storops (Some src_lun_id) None s = (Ok (Some lun), s1) ->
        fst (storops (lun_create_snap lun name false) (world s1))
        = Raise UnitySnapNameInUseError ->
        create_snap storops src_lun_id name s
        = get_snap storops name
            (mkSt (snd (storops (lun_create_snap lun name false) (world s1)))
               (trace s1
                ++ [EvCall (lun_create_snap lun name false);
                    EvLog DEBUG "Snap %(snap_name)s already exists on LUN %(lun_id)s. Return the existing one. Message: %(err)s"])))
  /\ (forall self volume (s : XState) response,
        fst (send (fst (build_request (client self) "volumes" "POST" JNull
                          None (default_ver (client self))
                          (volume_data volume)))
               (world s)) = Received response ->
        status_code response = 400 ->
        message_of response = Some VOL_NOT_UNIQUE_ERR ->
        fst (create_volume send CONF self volume s)
        = Raise (VolumeBackendAPIException
                   (kw_data "Volume by this name already exists"))).
Proof.
  assert (Hlun : forall name size pool description io_limit_policy (s : UState),
     fst (storops (pool_create_lun pool name size description io_limit_policy)
            (world s)) = Raise UnityLunNameInUseError ->
     create_lun storops name size pool description io_limit_policy s
     = call storops (system_get_lun None (Some name))
         (mkSt (snd (storops (pool_create_lun pool name size description
                                io_limit_policy) (world s)))
            (trace s
             ++ [EvCall (pool_create_lun pool name size description
                           io_limit_policy);
                 EvLog DEBUG "LUN %s already exists. Return the existing one."]))).
  { intros name size pool description io_limit_policy s H.
    unfold create_lun.
    erewrite try_except_caught;
      [|rewrite call_eq, H; reflexivity|reflexivity].
    unfold bind, LOG, emit. simpl. now rewrite <- app_assoc. }
  split; [exact Hlun|]. split; [|split].
  - intros name size pool description io_limit_policy s s1 lun _ Hbusy Hget.
    rewrite (Hlun _ _ _ _ _ _ Hbusy), call_eq. simpl. exact Hget.
  - intros src_lun_id name s s1 lun Hget Hbusy.
    unfold create_snap.
    erewrite try_except_caught;
      [|rewrite (bind_Ok _ _ _ _ _ Hget);
        erewrite bind_Raise; [reflexivity|];
        rewrite call_eq, Hbusy; reflexivity
       |reflexivity].
    unfold bind at 1. unfold LOG, emit. simpl. now rewrite <- app_assoc.
  - intros self volume s response Hsend Hst Hmsg.
    unfold create_volume. fold (volume_data volume).
    erewrite bind_Raise; [reflexivity|].
    apply (req_classified send CONF (client self) "volumes" "POST"
             (Some (volume_data volume)) JNull None None s response);
      [reflexivity|exact Hsend| | |discriminate].
    + unfold is_2xx. rewrite Hst. reflexivity.
    + now rewrite (handle_errors_message _ _ _ _ _ Hst Hmsg).
Qed.

End CreateClaim.

(** On the small Unity system, creating a LUN twice under one name gives
    the same LUN both times. *)
Lemma C3_create_or_fetch_witness :
  let pool := Unity.mkPool "pool0" in
  let first := Unity.create_lun Unity.small_unity "vol1" 10 pool None None
                 (Unity.start (Unity.mkArray [] [] [])) in
  fst first = Ok (Unity.mkLun "vol1")
  /\ fst (Unity.create_lun Unity.small_unity "vol1" 10 pool None None
            (snd first))
     = Ok (Unity.mkLun "vol1").
Proof.
  intros pool first. split; [reflexivity|].
  exact (proj1 (proj2 (C3_create_or_fetch Unity.small_unity XtremIO.scripted
                          XtremIO.XTREMIO_OPTS))
           "vol1" 10 pool None None
           (Unity.start (Unity.mkArray [] [] [])) (snd first)
           (Unity.mkLun "vol1") eq_refl eq_refl eq_refl).
Defined.

(** C3 as stated fails for [XtremIOVolumeDriver.create_volume]: the second
    creation of volume [v1] meets the duplicate-name answer, and the error
    reaches the caller. *)
Lemma C3_counterexample :
  let s0 := XtremIO.start [created_answer;
                           XtremIO.error_answer "vol_obj_name_not_unique"] in
  let first := XtremIO.create_volume XtremIO.scripted XtremIO.XTREMIO_OPTS
                 example_driver example_volume s0 in
  let second := XtremIO.create_volume XtremIO.scripted XtremIO.XTREMIO_OPTS
                  example_driver example_volume (snd first) in
  fst first = Ok tt
  /\ fst second
     = Raise (VolumeBackendAPIException
                (kw_data "Volume by this name already exists")).
Proof. split; vm_compute; reflexivity. Qed.

(** ** Delete-or-ignore *)

Section DeleteClaim.
Import XtremIO Unity.
Context {UWorld XWorld : Type}.
Variable storops : forall c : storops_call,
  UWorld -> result (answer_type c) * UWorld.
Variable send : Request -> XWorld -> TransportResult * XWorld.
Variable CONF : Conf.
Local Abbreviation UState := (St UWorld storops_call).
Local Abbreviation XState := (St XWorld Request).

Lemma has_without name l : has name (without name l) = false.
Proof.
  unfold has, without. induction l as [|n l IH]; simpl; [reflexivity|].
  destruct (String.eqb name n) eqn:E; simpl; [assumption|].
  now rewrite E.
Qed.

(** A [NotFound] out of the DELETE, on whatever attempt, is absorbed. *)
Lemma delete_by_name_absorbs self name msg (s s' : XState) e :
  req send CONF (client self) "volumes" "DELETE" None (JStr name) None None s
  = (Raise e, s') ->
  is_NotFound e = true ->
  try_except
    (req send CONF (client self) "volumes" "DELETE" None (JStr name) None
       None ;;; ret tt)
    is_NotFound (fun _ => LOG INFO msg) s
  = (Ok tt, noted s' INFO msg).
Proof.
  intros Hreq He.
  erewrite try_except_caught;
    [reflexivity|now rewrite (bind_Raise _ _ _ _ _ Hreq)|assumption].
Qed.

(** The array's not-found answer to the first request makes [req] raise
    [NotFound]. *)
Lemma delete_not_found self name (s : XState) response :
  fst (send (delete_request self name) (world s)) = Received response ->
  not_found_response response ->
  exists s',
    req send CONF (client self) "volumes" "DELETE" None (JStr name) None
      None s
    = (Raise NotFound, s').
Proof.
  intros Hsend (Hst & m & Hm & Hend).
  assert (Hboth : truthy (JStr name) && idx_set None = false)
    by apply andb_false_r.
  eexists.
  apply (req_classified send CONF (client self) "volumes" "DELETE" None
           (JStr name) None None s response);
    [exact Hboth|exact Hsend| | |discriminate].
  - unfold is_2xx. rewrite Hst. reflexivity.
  - rewrite (handle_errors_message _ _ _ _ _ Hst Hm).
    unfold error_of_message. now rewrite Hend.
Qed.

(** C5. A delete that finds nothing to delete returns normally.
    [delete_volume] and [delete_snapshot] absorb the [NotFound] that [req]
    raises, on whatever attempt it comes, and in particular the not-found
    answer of the array (status 400, message ending in [obj_not_found]);
    [delete_lun] absorbs a [UnityResourceNotFoundError] from the lookup of
    the LUN as well as from its deletion. So a second delete of the same
    key, answered with not-found, does not raise: on the small Unity
    system, which forgets what was deleted, the second [delete_lun] of any
    id returns normally. *)
Theorem C5_delete_or_ignore :
  (forall self volume (s s' : XState) e,
     req send CONF (client self) "volumes" "DELETE" None
       (JStr (v_name_id volume)) None None s = (Raise e, s') ->
     is_NotFound e = true ->
     delete_volume send CONF self volume s
     = (Ok tt, noted s' INFO "volume %s doesn't exist"))
  /\ (forall self snapshot (s s' : XState) e,
        req send CONF (client self) "volumes" "DELETE" None
          (JStr (s_id snapshot)) None None s = (Raise e, s') ->
        is_NotFound e = true ->
        delete_snapshot send CONF self snapshot s
        = (Ok tt, noted s' INFO "snapshot %s doesn't exist"))
  /\ (forall self volume (s : XState) response,
        fst (send (delete_request self (v_name_id volume)) (world s))
        = Received response ->
        not_found_response response ->
        fst (delete_volume send CONF self volume s) = Ok tt)
  /\ (forall self snapshot (s : XState) response,
        fst (send (delete_request self (s_id snapshot)) (world s))
        = Received response ->
        not_found_response response ->
        fst (delete_snapshot send CONF self snapshot s) = Ok tt)
  /\ (forall lun_id (s : UState),
        fst (storops (system_get_lun (Some lun_id) None) (world s))
        = Raise UnityResourceNotFoundError ->
        fst (delete_lun storops lun_id s) = Ok tt)
  /\ (forall lun_id (s : UState) lun,
        fst (storops (system_get_lun (Some lun_id) None) (world s)) = Ok lun ->
        fst (storops (lun_delete lun)
               (snd (storops (system_get_lun (Some lun_id) None) (world s))))
        = Raise UnityResourceNotFoundError ->
        fst (delete_lun storops lun_id s) = Ok tt)
  /\ (forall lun_id (s : St Array storops_call),
        fst (delete_lun small_unity lun_id
               (snd (delete_lun small_unity lun_id s))) = Ok tt).
Proof.
  repeat split.
  - intros self volume s s' e Hreq He. unfold delete_volume.
    now apply (delete_by_name_absorbs self _ _ s s' e).
  - intros self snapshot s s' e Hreq He. unfold delete_snapshot.
    now apply (delete_by_name_absorbs self _ _ s s' e).
  - intros self volume s response Hsend Hnf.
    destruct (delete_not_found self _ s response Hsend Hnf) as [s' Hreq].
    unfold delete_volume.
    now rewrite (delete_by_name_absorbs self _ _ s s' NotFound Hreq).
  - intros self snapshot s response Hsend Hnf.
    destruct (delete_not_found self _ s response Hsend Hnf) as [s' Hreq].
    unfold delete_snapshot.
    now rewrite (delete_by_name_absorbs self _ _ s s' NotFound Hreq).
  - intros lun_id s H. unfold delete_lun.
    erewrite try_except_caught;
      [reflexivity
      |erewrite bind_Raise; [reflexivity|]; rewrite call_eq, H; reflexivity
      |reflexivity].
  - intros lun_id s lun Hget Hdel. unfold delete_lun.
    erewrite try_except_caught;
      [reflexivity
      |erewrite bind_Ok; [|rewrite call_eq, Hget; reflexivity];
       rewrite call_eq; cbn [world]; rewrite Hdel; reflexivity
      |reflexivity].
  - intros lun_id [[l sn att] t]. cbv -[has without].
    destruct (has lun_id l) eqn:Hh; cbv -[has without].
    + rewrite Hh. cbv -[has without]. now rewrite has_without.
    + now rewrite Hh.
Qed.

End DeleteClaim.

(** The volume is deleted, and deleted again: the array answers the second
    request with not-found, and the second call returns normally. *)
Lemma C5_delete_or_ignore_witness :
  let s0 := XtremIO.start [XtremIO.answer 200 JNull;
                           XtremIO.error_answer "obj_not_found"] in
  let first := XtremIO.delete_volume XtremIO.scripted XtremIO.XTREMIO_OPTS
                 example_driver example_volume s0 in
  fst first = Ok tt
  /\ fst (XtremIO.delete_volume XtremIO.scripted XtremIO.XTREMIO_OPTS
            example_driver example_volume (snd first)) = Ok tt.
Proof.
  intros s0 first. split; [reflexivity|].
  refine (proj1 (proj2 (proj2 (C5_delete_or_ignore Unity.small_unity
            XtremIO.scripted XtremIO.XTREMIO_OPTS)))
            example_driver example_volume (snd first)
            (mkResponse 400 "" (Some (JObj [("message", JStr "obj_not_found")])))
            eq_refl _).
  split; [reflexivity|]. exists "obj_not_found". split; reflexivity.
Defined.

(** ** Deleting a Unity snapshot *)

Section DeleteSnapClaim.
Import Unity.
Context {World : Type}.
Variable storops : forall c : storops_call,
  World -> result (answer_type c) * World.
Local Abbreviation State := (St World storops_call).

(** C10. [UnityClient.delete_snap] with [None] returns at once: the array
    is not contacted, only a debug record is written. With a snapshot, a
    [UnityResourceNotFoundError] from [snap.delete()] is absorbed and the
    call returns normally; a [UnityDeleteAttachedSnapError] is not: a
    warning is logged and the same error is raised to the caller. *)
Theorem C10_delete_snap :
  (forall s : State,
     delete_snap storops None s
     = (Ok tt, noted s DEBUG "Snap to delete is None, skipping deletion.")
     /\ calls_of (trace (snd (delete_snap storops None s)))
        = calls_of (trace s)
     /\ world (snd (delete_snap storops None s)) = world s)
  /\ (forall snap (s : State),
        fst (storops (snap_delete snap) (world s))
        = Raise UnityResourceNotFoundError ->
        fst (delete_snap storops (Some snap) s) = Ok tt)
  /\ (forall snap (s : State),
        fst (storops (snap_delete snap) (world s))
        = Raise UnityDeleteAttachedSnapError ->
        delete_snap storops (Some snap) s
        = (Raise UnityDeleteAttachedSnapError,
           mkSt (snd (storops (snap_delete snap) (world s)))
             (trace s
              ++ [EvCall (snap_delete snap);
                  EvLog WARNING "Failed to delete snapshot %(snap_name)s which is in use. Message: %(err)s"]))).
Proof.
  split; [|split].
  - intros s. split; [reflexivity|]. simpl. rewrite calls_of_app. simpl.
    now rewrite app_nil_r.
  - intros snap s H. unfold delete_snap.
    erewrite try_except_caught; cycle 1;
      [rewrite call_eq, H; reflexivity|reflexivity|reflexivity].
  - intros snap s H. unfold delete_snap.
    erewrite try_except_caught; cycle 1;
      [rewrite call_eq, H; reflexivity|reflexivity|].
    simpl. unfold bind, LOG, emit, raise. simpl. now rewrite <- app_assoc.
Qed.

End DeleteSnapClaim.

(** A snapshot that is attached to a host is not deleted: the error
    reaches the caller, after a warning. *)
Lemma C10_delete_snap_witness :
  let s := Unity.start (Unity.mkArray ["lun1"] ["snap1"] ["snap1"]) in
  let out := Unity.delete_snap Unity.small_unity
               (Some (Unity.mkSnap "snap1" "snap1")) s in
  fst out = Raise UnityDeleteAttachedSnapError
  /\ logs_of (trace (snd out))
     = [(WARNING, "Failed to delete snapshot %(snap_name)s which is in use. Message: %(err)s")].
Proof.
  intros s out. subst out.
  rewrite (proj2 (proj2 (C10_delete_snap Unity.small_unity))
             (Unity.mkSnap "snap1" "snap1") s eq_refl).
  split; reflexivity.
Defined.

(** ** The free LUN number *)

Section FreeLun.
Import XtremIO.

Lemma fold_min_spec (l : list Z) : forall x,
  fold_left Z.min l x ∈ x :: l
  /\ forall y, y ∈ x :: l -> fold_left Z.min l x <= y.
Proof.
  induction l as [|a l IH]; intros x; simpl.
  - split; [left|]. intros y Hy. apply list_elem_of_singleton in Hy. lia.
  - destruct (IH (Z.min x a)) as [Hin Hle]. split.
    + apply elem_of_cons in Hin as [Hin|Hin].
      * rewrite Hin. destruct (Z.min_spec x a) as [[_ ->]|[_ ->]];
          [left|right; left].
      * right. now right.
    + intros y Hy.
      assert (Hm : fold_left Z.min l (Z.min x a) <= Z.min x a)
        by (apply Hle; left).
      apply elem_of_cons in Hy as [->|Hy]; [lia|].
      apply elem_of_cons in Hy as [->|Hy]; [lia|].
      apply Hle. now right.
Qed.

Lemma py_min_spec (l : list Z) x :
  x ∈ l ->
  exists m, py_min l = Some m /\ m ∈ l /\ forall y, y ∈ l -> m <= y.
Proof.
  destruct l as [|a l]; [intros H; inversion H|]. intros _.
  exists (fold_left Z.min l a). split; [reflexivity|]. apply fold_min_spec.
Qed.

(** The members of the hashed list are the hashes of the members. *)
Lemma hashed_elem (l : list json) : forall keys k,
  mapM hash_key l = Some keys ->
  k ∈ keys <-> exists j, j ∈ l /\ hash_key j = Some k.
Proof.
  intros keys k H. apply mapM_Some in H.
  induction H as [|j y l keys Hj _ IH].
  - split; [intros Hk; inversion Hk|intros (j & Hj & _); inversion Hj].
  - rewrite elem_of_cons, IH. split.
    + intros [->|(j' & Hin & Hh)].
      * exists j. split; [left|assumption].
      * exists j'. split; [now right|assumption].
    + intros (j' & Hin & Hh). apply elem_of_cons in Hin as [->|Hin].
      * left. congruence.
      * right. eauto.
Qed.

(** The last three lines of [_get_free_lun] always find a number, and it
    is the lowest positive integer that is not a mapped LUN number. *)
Lemma free_lun_lowest (luns : list json) :
  (forall j, j ∈ luns -> is_Some (hash_key j)) ->
  exists m,
    free_lun luns = Ok m
    /\ 0 < m
    /\ ~ mapped luns m
    /\ forall k, 0 < k < m -> mapped luns k.
Proof.
  intros Hhash. unfold free_lun.
  assert (Hsome : is_Some (mapM hash_key (luns ++ [JNum 0]))).
  { apply mapM_is_Some, Forall_app. split.
    - apply Forall_forall. intros j Hj. apply (Hhash j Hj).
    - repeat constructor. eexists. reflexivity. }
  destruct Hsome as [keys Hkeys]. rewrite Hkeys.
  pose proof (fun k => hashed_elem _ keys k Hkeys) as Hmem.
  set (U := (list_to_set keys : gset set_key)).
  set (n := size U).
  set (seq := seqZ 0 (Z.of_nat n + 1)).
  set (S0 := (list_to_set (inl <$> seq) : gset set_key)).
  assert (HinU : forall k, inl k ∈ U <-> k = 0 \/ mapped luns k).
  { intros k. unfold U. rewrite elem_of_list_to_set, Hmem. split.
    - intros (j & Hj & Hh). apply elem_of_app in Hj as [Hj|Hj].
      + right. exists j. now split.
      + apply list_elem_of_singleton in Hj. subst j. simpl in Hh. left. congruence.
    - intros [->|(j & Hj & Hh)].
      + exists (JNum 0). split; [|reflexivity].
        apply elem_of_app. right. left.
      + exists j. split; [|assumption]. apply elem_of_app. now left. }
  assert (HinS : forall x, x ∈ S0 <-> exists k, x = inl k /\ 0 <= k <= Z.of_nat n).
  { intros x. unfold S0. rewrite elem_of_list_to_set, list_elem_of_fmap.
    split.
    - intros (k & -> & Hk). apply elem_of_seqZ in Hk. exists k. split; [reflexivity|lia].
    - intros (k & -> & Hk). exists k. split; [reflexivity|].
      apply elem_of_seqZ. lia. }
  assert (Hsize : size S0 = Datatypes.S n).
  { unfold S0. rewrite size_list_to_set.
    - rewrite length_fmap. unfold seq. rewrite length_seqZ. lia.
    - apply NoDup_fmap_2; [intros a b Hab; congruence|apply NoDup_seqZ]. }
  assert (Hfree : exists x, x ∈ S0 ∖ U).
  { destruct (set_choose_or_empty (S0 ∖ U)) as [H|H]; [exact H|].
    assert (Hsub : S0 ⊆ U).
    { intros y Hy. destruct (decide (y ∈ U)) as [HyU|HyU]; [exact HyU|].
      exfalso. apply (not_elem_of_empty (C:=gset set_key) y), H.
      apply elem_of_difference. now split. }
    apply subseteq_size in Hsub. fold n in Hsub. lia. }
  destruct Hfree as [x Hx].
  assert (Hx' := Hx). apply elem_of_difference in Hx' as [HxS _].
  apply HinS in HxS as (k0 & -> & _).
  assert (Hk0 : k0 ∈ ints_in (elements (S0 ∖ U))).
  { unfold ints_in. apply list_elem_of_omap. exists (inl k0).
    split; [now apply elem_of_elements|reflexivity]. }
  destruct (py_min_spec _ _ Hk0) as (m & -> & Hm & Hle).
  assert (HmF : inl m ∈ S0 ∖ U).
  { unfold ints_in in Hm. apply list_elem_of_omap in Hm as (y & Hy & Hym).
    apply elem_of_elements in Hy. destruct y as [z|o]; [|discriminate].
    now injection Hym as ->. }
  apply elem_of_difference in HmF as [HmS HmU].
  apply HinS in HmS as (m' & Hmm & Hrange). injection Hmm as <-.
  assert (Hm0 : m <> 0). { intros ->. apply HmU, HinU. now left. }
  exists m. split; [reflexivity|]. split; [lia|]. split.
  - intros Hmap. apply HmU, HinU. now right.
  - intros k Hk.
    destruct (decide (inl k ∈ U)) as [HkU|HkU].
    + apply HinU in HkU as [->|HkU]; [lia|exact HkU].
    + assert (HkF : inl k ∈ S0 ∖ U).
      { apply elem_of_difference. split; [|exact HkU].
        apply HinS. exists k. split; [reflexivity|lia]. }
      assert (Hki : k ∈ ints_in (elements (S0 ∖ U))).
      { unfold ints_in. apply list_elem_of_omap. exists (inl k).
        split; [now apply elem_of_elements|reflexivity]. }
      specialize (Hle k Hki). lia.
Qed.

End FreeLun.

Section FreeLunClaim.
Import XtremIO.
Context {World : Type}.
Variable send : Request -> World -> TransportResult * World.
Variable CONF : Conf.
Local Abbreviation State := (St World Request).

(** C6. [_get_free_lun] gathers the [lun] of every lun-map the array
    lists for the given initiator groups; when the queries succeed (and the
    values can be members of a set, as numbers can), it returns a number,
    without touching the state further, and that number is positive, is
    not a mapped LUN number, and every smaller positive integer is a
    mapped LUN number. *)
Theorem C6_get_free_lun_lowest_unused
    (self : Driver) (igs : list string) (s s' : State) (luns : list json) :
  extend_luns send CONF self igs [] s = (Ok luns, s') ->
  (forall j, j ∈ luns -> is_Some (hash_key j)) ->
  exists m,
    _get_free_lun send CONF self igs s = (Ok m, s')
    /\ m <> 0
    /\ 0 < m
    /\ ~ mapped luns m
    /\ forall k, 0 < k < m -> mapped luns k.
Proof.
  intros Hext Hhash.
  destruct (free_lun_lowest luns Hhash) as (m & Hm & Hpos & Hfree & Hlow).
  exists m. split; [|split; [lia|split; [exact Hpos|split; assumption]]].
  unfold _get_free_lun. rewrite (bind_Ok _ _ _ _ _ Hext).
  unfold lift_result. now rewrite Hm.
Qed.

End FreeLunClaim.

(** Two initiator groups with LUNs 1, 2 and 4 mapped: the free number
    is 3. *)
Lemma C6_get_free_lun_lowest_unused_witness :
  fst (XtremIO._get_free_lun XtremIO.scripted XtremIO.XTREMIO_OPTS
         example_driver ["ig1"; "ig2"]
         (XtremIO.start [lun_maps_answer [1; 2]; lun_maps_answer [4]]))
  = Ok 3.
Proof.
  destruct (C6_get_free_lun_lowest_unused XtremIO.scripted
              XtremIO.XTREMIO_OPTS example_driver ["ig1"; "ig2"]
              (XtremIO.start [lun_maps_answer [1; 2]; lun_maps_answer [4]])
              _ [JNum 1; JNum 2; JNum 4] eq_refl)
    as (m & Hm & _ & Hpos & Hfree & Hlow).
  - intros j Hj. repeat (apply elem_of_cons in Hj as [->|Hj]; [eexists; reflexivity|]).
    inversion Hj.
  - rewrite Hm. simpl. f_equal.
    assert (H1 : mapped [JNum 1; JNum 2; JNum 4] 1)
      by (exists (JNum 1); split; [left|reflexivity]).
    assert (H2 : mapped [JNum 1; JNum 2; JNum 4] 2)
      by (exists (JNum 2); split; [right; left|reflexivity]).
    assert (H3 : ~ mapped [JNum 1; JNum 2; JNum 4] 3).
    { intros (j & Hj & Hh).
      repeat (apply elem_of_cons in Hj as [->|Hj]; [discriminate Hh|]).
      inversion Hj. }
    destruct (Z.lt_trichotomy m 3) as [Hlt|[Heq|Hgt]]; [|exact Heq|].
    + assert (Hm12 : m = 1 \/ m = 2) by lia.
      destruct Hm12 as [E|E]; rewrite E in Hfree; contradiction.
    + exfalso. apply H3, Hlow. lia.
Defined.

(** ** The version probe *)

Section ProbeClaim.
Import XtremIO.
Context {World : Type}.
Variable send : Request -> World -> TransportResult * World.
Variable CONF : Conf.
Local Abbreviation State := (St World Request).

(** An answer in the 200s to the first request ends the call. *)
Lemma req_2xx self object_type method data name idx ver (s : State) response :
  let request := fst (build_request self object_type method name idx
                        (default (default_ver self) ver)
                        (data_or_empty data)) in
  truthy name && idx_set idx = false ->
  fst (send request (world s)) = Received response ->
  200 <= status_code response < 300 ->
  req send CONF self object_type method data name idx ver s
  = (success_value method response, sent send s method request).
Proof.
  intros request Hid Hsend Hst.
  unfold req, req_ver, retry. apply retry_loop_final.
  - rewrite req_body_sent by assumption. fold request. rewrite Hsend.
    unfold is_2xx.
    destruct (Z.leb_spec 200 (status_code response)); [|lia].
    destruct (Z.ltb_spec (status_code response) 300); [|lia].
    reflexivity.
  - unfold final, success_value.
    destruct (in_GET_POST method); [|discriminate].
    destruct (json_body response); discriminate.
Qed.

Lemma run_session_keeps_client ops : forall self (s : State),
  Forall not_probe ops ->
  fst (run_session send CONF ops self s) = self.
Proof.
  induction ops as [|op ops IH]; intros self s H; [reflexivity|].
  apply Forall_cons in H as [Hop H]. simpl.
  destruct op; try (now destruct Hop); simpl; now apply IH.
Qed.

Lemma probe_version_ok (self : Driver) (s : State) r1 j1 clusters first name
    r2 j2 cluster version :
  let s1 := sent send s "GET" (cluster_list_request self) in
  let s2 := sent send s1 "GET" (cluster_info_request self name) in
  fst (send (cluster_list_request self) (world s)) = Received r1 ->
  200 <= status_code r1 < 300 ->
  json_body r1 = Some j1 ->
  getitem j1 "clusters" = Ok clusters ->
  getitem0 clusters = Ok first ->
  getitem first "name" = Ok name ->
  fst (send (cluster_info_request self name) (world s1)) = Received r2 ->
  200 <= status_code r2 < 300 ->
  json_body r2 = Some j2 ->
  getitem j2 "content" = Ok cluster ->
  getitem cluster "sys-sw-version" = Ok version ->
  probe_version send CONF self s = (Ok version, s2).
Proof.
  intros s1 s2 H1 Hs1 Hb1 Hc Hf Hn H2 Hs2 Hb2 Hcl Hv.
  assert (E1 : req send CONF (client self) "clusters" "GET" None JNull None
                 None s = (Ok j1, s1)).
  { rewrite (req_2xx (client self) "clusters" "GET" None JNull None None
               s r1 eq_refl H1 Hs1).
    unfold success_value. simpl. now rewrite Hb1. }
  assert (E2 : req send CONF (client self) "clusters" "GET" None name None
                 None s1 = (Ok j2, s2)).
  { rewrite (req_2xx (client self) "clusters" "GET" None name None None
               s1 r2 (andb_false_r _) H2 Hs2).
    unfold success_value. simpl. now rewrite Hb2. }
  unfold probe_version. apply try_except_Ok.
  erewrite bind_Ok; [|exact E1].
  unfold lift_result at 1. unfold bind at 1. rewrite Hc.
  unfold lift_result at 1. unfold bind at 1. rewrite Hf.
  unfold lift_result at 1. unfold bind at 1. rewrite Hn.
  erewrite bind_Ok; [|exact E2].
  unfold lift_result at 1. unfold bind at 1. rewrite Hcl.
  unfold lift_result. now rewrite Hv.
Qed.


End ProbeClaim.


(** ** The classifier on a 400 answer without a message *)

(** C4. Where the classifier leaves the taxonomy: on a 400 answer whose
    body is not JSON, [response.json()] raises [ValueError]; on a 400
    answer whose JSON body has no [message], [err_msg] is [None] and
    [err_msg.endswith] raises [AttributeError]. Neither is the generic
    error carrying the raw text, and [req] passes both on to its caller. *)
Theorem C4_classifier_leaves_taxonomy :
  fst (XtremIO.handle_errors error_page (JStr "v1") "volumes"
         (XtremIO.start ([] : list TransportResult)))
  = Raise ValueError
  /\ fst (XtremIO.handle_errors bare_error (JStr "v1") "volumes"
            (XtremIO.start ([] : list TransportResult)))
     = Raise AttributeError
  /\ in_taxonomy ValueError = false
  /\ in_taxonomy AttributeError = false
  /\ unknown_error error_page <> ValueError
  /\ fst (XtremIO.req XtremIO.scripted XtremIO.XTREMIO_OPTS example_client3
            "volumes" "GET" None (JStr "v1") None None
            (XtremIO.start [Received error_page]))
     = Raise ValueError
  /\ fst (XtremIO.req XtremIO.scripted XtremIO.XTREMIO_OPTS example_client3
            "volumes" "GET" None (JStr "v1") None None
            (XtremIO.start [Received bare_error]))
     = Raise AttributeError.
Proof.
  repeat split; try reflexivity. discriminate.
Qed.

(** * Further properties of the drivers *)

(** ** Text *)

Section TextFacts.
Import XtremIO.

Lemma prefix_empty (s : string) : String.prefix "" s = true.
Proof. now destruct s. Qed.

(** [c in s] for a one-character [c], character by character. *)
Lemma contains_char_cons (c a : ascii) (t : string) :
  contains (String c "") (String a t)
  = Ascii.eqb c a || contains (String c "") t.
Proof.
  simpl. destruct (ascii_dec c a) as [->|Hne].
  - now rewrite prefix_empty, Ascii.eqb_refl.
  - destruct (Ascii.eqb_spec c a); [contradiction|reflexivity].
Qed.

Lemma contains_char_nil (c : ascii) : contains (String c "") "" = false.
Proof. reflexivity. Qed.

Lemma contains_char_app (c : ascii) (x y : string) :
  contains (String c "") (x ++ y)
  = contains (String c "") x || contains (String c "") y.
Proof.
  induction x as [|a x IH].
  - now rewrite contains_char_nil.
  - change (String a x ++ y) with (String a (x ++ y)).
    rewrite !contains_char_cons, IH. now rewrite orb_assoc.
Qed.

Lemma contains_remove_char (c : ascii) (s : string) :
  contains (String c "") (remove_char c s) = false.
Proof.
  induction s as [|a s IH]; [reflexivity|]. simpl remove_char.
  destruct (Ascii.eqb_spec a c) as [->|Hne]; [exact IH|].
  rewrite contains_char_cons, IH.
  destruct (Ascii.eqb_spec c a); [congruence|reflexivity].
Qed.

Lemma remove_char_app (c : ascii) (x y : string) :
  remove_char c (x ++ y) = remove_char c x ++ remove_char c y.
Proof.
  induction x as [|a x IH]; [reflexivity|]. simpl.
  destruct (Ascii.eqb a c); [exact IH|]. simpl. now rewrite IH.
Qed.

Lemma remove_char_absent (c : ascii) (s : string) :
  contains (String c "") s = false -> remove_char c s = s.
Proof.
  induction s as [|a s IH]; [reflexivity|].
  rewrite contains_char_cons. intros H.
  apply orb_false_elim in H as [Ha Hs]. simpl.
  rewrite Ascii.eqb_sym, Ha. now rewrite IH.
Qed.

(** Two characters at a time: what holds of the empty text, of a text
    of one character, and of [a b s] whenever it holds of [s], holds of
    every text. *)
Lemma pairs_ind (P : string -> Prop) :
  P "" ->
  (forall a, P (String a "")) ->
  (forall a b s, P s -> P (String a (String b s))) ->
  forall s, P s.
Proof.
  intros H0 H1 H2 s.
  assert (H : P s /\ forall a, P (String a s)).
  { induction s as [|b s [IHs IHa]]; [split; [exact H0|exact H1]|].
    split; [apply IHa|]. intros a. now apply H2. }
  apply H.
Qed.

Lemma concat_cons (sep x : string) (l : list string) :
  String.concat sep (x :: l)
  = match l with [] => x | _ => x ++ sep ++ String.concat sep l end.
Proof. reflexivity. Qed.

(** The pieces, put together again, are the text. *)
Lemma concat_pairs (s : string) : String.concat "" (pairs s) = s.
Proof.
  induction s as [| a | a b s IH] using pairs_ind; try reflexivity.
  change (pairs (String a (String b s)))
    with (String a (String b "") :: pairs s).
  rewrite concat_cons. destruct (pairs s) as [|p l] eqn:E.
  - simpl in IH. now rewrite <- IH.
  - rewrite IH. reflexivity.
Qed.

(** The colons put between the pieces are all the colons added. *)
Lemma remove_colons_pairs (s : string) :
  remove_char ":" (String.concat ":" (pairs s)) = remove_char ":" s.
Proof.
  induction s as [| a | a b s IH] using pairs_ind; try reflexivity.
  change (pairs (String a (String b s)))
    with (String a (String b "") :: pairs s).
  rewrite concat_cons. destruct (pairs s) as [|p l] eqn:E.
  - simpl in IH. change (String a (String b s))
      with (String a (String b "") ++ s).
    rewrite remove_char_app, <- IH. simpl.
    destruct (Ascii.eqb a ":"), (Ascii.eqb b ":"); reflexivity.
  - rewrite !remove_char_app, IH.
    change (String a (String b s)) with (String a (String b "") ++ s).
    now rewrite remove_char_app.
Qed.

(** A text in more than one piece gets a colon. *)
Lemma colon_in_pairs (a b c : ascii) (s : string) :
  contains ":" (String.concat ":" (pairs (String a (String b (String c s)))))
  = true.
Proof.
  change (pairs (String a (String b (String c s))))
    with (String a (String b "") :: pairs (String c s)).
  rewrite concat_cons.
  destruct (pairs (String c s)) as [|p l] eqn:E.
  - destruct s; discriminate E.
  - rewrite !contains_char_app. simpl (contains ":" ":").
    now rewrite orb_true_r.
Qed.

Lemma length_append (x y : string) :
  String.length (x ++ y) = (String.length x + String.length y)%nat.
Proof. induction x as [|a x IH]; simpl; [reflexivity|now rewrite IH]. Qed.

(** The length of the colon form. *)
Lemma length_pairs (s : string) :
  String.length (String.concat ":" (pairs s))
  = (String.length s + Nat.div2 (String.length s + 1) - 1)%nat.
Proof.
  induction s as [| a | a b s IH] using pairs_ind; try reflexivity.
  change (pairs (String a (String b s)))
    with (String a (String b "") :: pairs s).
  rewrite concat_cons. destruct (pairs s) as [|p l] eqn:E.
  - destruct s as [|c [|d s]]; try discriminate E. reflexivity.
  - rewrite !length_append, IH. simpl String.length.
    assert (Hpos : (1 <= String.length s)%nat).
    { destruct s; [discriminate E|simpl; lia]. }
    replace (Datatypes.S (Datatypes.S (String.length s)) + 1)%nat
      with (Datatypes.S (Datatypes.S (String.length s + 1))) by lia.
    change (Nat.div2 (Datatypes.S (Datatypes.S (String.length s + 1))))
      with (Datatypes.S (Nat.div2 (String.length s + 1))).
    assert (Hd : (1 <= Nat.div2 (String.length s + 1))%nat).
    { destruct (String.length s) as [|n]; [lia|].
      replace (Datatypes.S n + 1)%nat with (Datatypes.S (Datatypes.S n)) by lia.
      change (Nat.div2 (Datatypes.S (Datatypes.S n)))
        with (Datatypes.S (Nat.div2 n)).
      apply le_n_S, Nat.le_0_l. }
    generalize dependent (Nat.div2 (String.length s + 1)). intros d _ Hd.
    lia.
Qed.

End TextFacts.

(** ** The names of Fibre Channel initiators *)

Section InitiatorNames.
Import XtremIO.

Lemma wwpn_name_colons (w : string) :
  remove_char ":" (wwpn_name w) = remove_char ":" w.
Proof.
  unfold wwpn_name. destruct (contains ":" w); [reflexivity|].
  apply remove_colons_pairs.
Qed.

Lemma wwpn_name_again (w : string) : wwpn_name (wwpn_name w) = wwpn_name w.
Proof.
  unfold wwpn_name at 2. destruct (contains ":" w) eqn:Hw.
  - unfold wwpn_name. now rewrite Hw.
  - unfold wwpn_name. rewrite Hw.
    destruct (contains ":" (String.concat ":" (pairs w))) eqn:Hc;
      [reflexivity|].
    destruct w as [|a [|b [|c s]]]; try reflexivity.
    rewrite colon_in_pairs in Hc. discriminate.
Qed.

(** X1. [XtremIOFCDriver._get_initiator_names] gives one name per WWPN of
    the connector. Taking the colons out of a name gives the WWPN without
    its colons (so the keys of [initiator_target_map], which are built that
    way, are the connector's WWPNs when those have no colons); naming the
    names again changes nothing. A WWPN without colons comes back when the
    colons are taken out of its name; the empty WWPN has the empty name,
    and one of [n > 0] characters a name of [n + (n + 1) / 2 - 1]
    characters, 23 for the usual 16. *)
Theorem X1_initiator_names (wwpns : list string) :
  length (FC_get_initiator_names wwpns) = length wwpns
  /\ map (remove_char ":") (FC_get_initiator_names wwpns)
     = map (remove_char ":") wwpns
  /\ FC_get_initiator_names (FC_get_initiator_names wwpns)
     = FC_get_initiator_names wwpns
  /\ Forall (fun w =>
               contains ":" w = false ->
               remove_char ":" (wwpn_name w) = w
               /\ (w = "" -> wwpn_name w = "")
               /\ (w <> "" ->
                   Z.of_nat (String.length (wwpn_name w))
                   = Z.of_nat (String.length w)
                     + (Z.of_nat (String.length w) + 1) / 2 - 1))
       wwpns.
Proof.
  unfold FC_get_initiator_names. repeat split.
  - apply length_map.
  - rewrite map_map. apply map_ext. intros w. apply wwpn_name_colons.
  - rewrite map_map. apply map_ext. intros w. apply wwpn_name_again.
  - apply Forall_forall. intros w _ Hw. split; [|split].
    + rewrite wwpn_name_colons. now apply remove_char_absent.
    + intros ->. reflexivity.
    + intros Hne. unfold wwpn_name. rewrite Hw, length_pairs.
      assert (Hpos : (1 <= String.length w)%nat).
      { destruct w; [now destruct Hne|simpl; apply le_n_S, Nat.le_0_l]. }
      rewrite Nat.div2_div.
      generalize dependent (String.length w). intros n Hpos.
      rewrite Nat2Z.inj_sub, Nat2Z.inj_add, Nat2Z.inj_div, Nat2Z.inj_add
        by (pose proof (Nat.le_0_l ((n + 1) / 2)); lia).
      reflexivity.
Qed.

End InitiatorNames.

(** ** The requests of a call *)

Section BuiltRequests.
Import XtremIO.
Context {World : Type}.
Variable send : Request -> World -> TransportResult * World.
Variable CONF : Conf.
Local Abbreviation State := (St World Request).

Lemma dict_set_again k v d : dict_set k v (dict_set k v d) = dict_set k v d.
Proof.
  induction d as [|[k' v'] d IH]; simpl.
  - now rewrite String.eqb_refl.
  - destruct (String.eqb k' k) eqn:E; simpl; rewrite E; [reflexivity|].
    now rewrite IH.
Qed.

Lemma update_data_again self d :
  update_data self (update_data self d) = update_data self d.
Proof.
  unfold update_data. destruct (class_of self); [reflexivity|].
  destruct (cluster_id self); [reflexivity|]. apply dict_set_again.
Qed.

Lemma data_of_attempt_after self method data d :
  data_of_attempt self (data_after_req self method data) d ->
  data_of_attempt self data d.
Proof.
  unfold data_of_attempt.
  destruct data as [[|kv l]|]; try (intros H; exact H).
  unfold data_after_req. destruct (not_GET method); [|intros H; exact H].
  rewrite !data_or_empty_Some, update_data_again. intros [->| ->]; now right.
Qed.

Lemma retry_loop_built self object_type method name idx ver interval more :
  forall data (s : State),
  truthy name && idx_set idx = false ->
  exists new,
    calls_of (trace (snd (retry_loop is_XtremIOArrayBusy interval more
                            (req_body send handle_errors self object_type
                               method name idx ver)
                            (data_after_req self method) data s)))
    = (calls_of (trace s) ++ new)%list
    /\ Forall (fun r => exists d,
                 r = fst (build_request self object_type method name idx ver d)
                 /\ data_of_attempt self data d)
         new.
Proof.
  induction more as [|more IH]; intros data s Hboth;
    pose proof (attempt_trace send self object_type method name idx ver
                  data s) as [Tc _];
    rewrite Hboth in Tc; simpl in Tc |- *;
    destruct (req_body send handle_errors self object_type method name idx
                ver data s) as [[a|e] s1]; simpl in Tc |- *;
    try (eexists; split; [exact Tc|];
         constructor; [eexists; split; [reflexivity|now left]|constructor]).
  - destruct (is_XtremIOArrayBusy e); simpl;
      eexists; (split; [exact Tc|]);
      (constructor; [eexists; split; [reflexivity|now left]|constructor]).
  - destruct (is_XtremIOArrayBusy e); simpl;
      [|eexists; (split; [exact Tc|]);
        (constructor; [eexists; split; [reflexivity|now left]|constructor])].
    unfold bind, sleep, emit. simpl.
    destruct (IH (data_after_req self method data)
                (mkSt (world s1) (trace s1 ++ [EvSleep interval])) Hboth)
      as (new & Hc & Hall).
    exists (fst (build_request self object_type method name idx ver
                   (data_or_empty data)) :: new).
    split.
    + rewrite Hc. simpl. rewrite calls_of_app. simpl.
      rewrite app_nil_r, Tc, <- app_assoc. reflexivity.
    + constructor.
      * eexists; split; [reflexivity|now left].
      * eapply Forall_impl; [exact Hall|]. intros r (d & -> & Hd).
        exists d. split; [reflexivity|].
        now apply (data_of_attempt_after self method).
Qed.

(** Every request of a call of [req] is built from the arguments of the
    call, with the caller's data as it is or as [update_data] left it. *)
Lemma req_built self object_type method data name idx ver (s : State) :
  exists new,
    calls_of (trace (snd (req send CONF self object_type method data name
                            idx ver s)))
    = (calls_of (trace s) ++ new)%list
    /\ Forall (fun r => exists d,
                 r = fst (build_request self object_type method name idx
                            (default (default_ver self) ver) d)
                 /\ data_of_attempt self data d)
         new.
Proof.
  unfold req, req_ver, retry.
  destruct (truthy name && idx_set idx) eqn:Hboth.
  - exists []. split; [|constructor].
    erewrite retry_loop_final;
      [|now apply req_body_refused|discriminate].
    simpl. rewrite calls_of_app. reflexivity.
  - now apply retry_loop_built.
Qed.

Lemma snd_then_ret {A : Type} (m : M (S:=State) A) (s : State) :
  snd ((m ;;; ret tt) s) = snd (m s).
Proof. unfold bind, ret. now destruct (m s) as [[a|e] s']. Qed.

Lemma dict_get_attempt self data d k :
  data_of_attempt self data d ->
  k <> "cluster-id" ->
  dict_get k d = dict_get k (data_or_empty data).
Proof.
  intros [->| ->] Hk; [reflexivity|]. now apply dict_get_update_data.
Qed.

(** The URL, the verb and the [name] parameter of a request built for a
    name. *)
Lemma build_request_named self object_type method name idx ver d :
  truthy name = true ->
  in_GET_DELETE method = false \/ dict_get "name" d = None ->
  let r := fst (build_request self object_type method name idx ver d) in
  rq_url r = collection_url self object_type ver
  /\ dict_get "name" (rq_params r) = Some name.
Proof.
  intros Hn Hd r. subst r. unfold build_request.
  fold (collection_url self object_type ver). rewrite Hn. simpl.
  split; [reflexivity|].
  destruct (in_GET_DELETE method); [|reflexivity].
  destruct Hd as [Hd|Hd]; [discriminate|].
  rewrite dict_get_update_url by discriminate.
  now rewrite dict_get_update by assumption.
Qed.

End BuiltRequests.

(** ** What the classifier never raises *)

Section NeverVolumeNotFound.
Import XtremIO.
Context {World : Type}.
Variable send : Request -> World -> TransportResult * World.
Variable CONF : Conf.
Local Abbreviation State := (St World Request).

Lemma error_of_message_not_VolumeNotFound response key m k :
  error_of_message response key m <> VolumeNotFound k.
Proof.
  unfold error_of_message.
  destruct (endswith m OBJ_NOT_FOUND_ERR) eqn:E1; [discriminate|].
  destruct (String.eqb m VOL_NOT_UNIQUE_ERR); [discriminate|].
  destruct (String.eqb_spec m VOL_OBJ_NOT_FOUND_ERR) as [->|_];
    [discriminate E1|].
  destruct (contains ALREADY_MAPPED_ERR m); [discriminate|].
  destruct (String.eqb m SYSTEM_BUSY); [discriminate|].
  destruct (String.eqb m TOO_MANY_OBJECTS || String.eqb m TOO_MANY_SNAPSHOTS_PER_VOL);
    discriminate.
Qed.

Lemma handle_errors_not_VolumeNotFound response key object_type (s : State) k :
  fst (handle_errors response key object_type s) <> Raise (VolumeNotFound k).
Proof.
  destruct (Z.eq_dec (status_code response) 400) as [E|E].
  - destruct (message_of response) as [m|] eqn:Hm.
    + rewrite (handle_errors_message _ _ _ _ m E Hm). intros H.
      injection H as H. now apply error_of_message_not_VolumeNotFound in H.
    + destruct (handle_errors_no_message _ key object_type s E Hm) as [->| ->];
        discriminate.
  - rewrite handle_errors_other_status by assumption. discriminate.
Qed.

(** The outcome of the retry loop is the outcome of one of its attempts. *)
Lemma retry_loop_outcome {X A : Type} (f : X -> M (S:=State) A) after
    interval more : forall x s,
  exists x' s0,
    retry_loop is_XtremIOArrayBusy interval more f after x s = f x' s0.
Proof.
  induction more as [|more IH]; intros x s; simpl;
    destruct (f x s) as [[a|e] s'] eqn:E;
    try (exists x, s; now rewrite E).
  - destruct (is_XtremIOArrayBusy e); exists x, s; now rewrite E.
  - destruct (is_XtremIOArrayBusy e); [|exists x, s; now rewrite E].
    unfold bind, sleep, emit. simpl. apply IH.
Qed.

Lemma req_body_not_VolumeNotFound self object_type method name idx ver data
    (s : State) k :
  fst (req_body send handle_errors self object_type method name idx ver
         data s) <> Raise (VolumeNotFound k).
Proof.
  destruct (truthy name && idx_set idx) eqn:Hboth.
  - rewrite req_body_refused by assumption. discriminate.
  - rewrite req_body_sent by assumption.
    destruct (fst (send _ (world s))) as [response|exc]; [|discriminate].
    destruct (is_2xx response).
    + unfold success_value. destruct (in_GET_POST method); [|discriminate].
      destruct (json_body response); discriminate.
    + match goal with
      | |- fst ((handle_errors ?r ?key ?o ;;; _) ?st) <> _ =>
          destruct (classified r key o st) as (e & -> & He);
          pose proof (handle_errors_not_VolumeNotFound r key o st k) as Hn;
          rewrite He in Hn; simpl; intros Heq; apply Hn; congruence
      end.
Qed.

(** X3. The branch of [handle_errors] that raises [VolumeNotFound] is never
    taken: the message [vol_obj_not_found] ends in [obj_not_found] and is
    answered by the first test with a plain [NotFound]. So neither the
    classifier nor [req], on any backend, raises [VolumeNotFound]. *)
Theorem X3_never_VolumeNotFound :
  (forall response key object_type (s : State) k,
     fst (handle_errors response key object_type s)
     <> Raise (VolumeNotFound k))
  /\ (forall response key object_type (s : State),
        status_code response = 400 ->
        message_of response = Some VOL_OBJ_NOT_FOUND_ERR ->
        fst (handle_errors response key object_type s) = Raise NotFound)
  /\ (forall self object_type method data name idx ver (s : State) k,
        fst (req send CONF self object_type method data name idx ver s)
        <> Raise (VolumeNotFound k)).
Proof.
  split; [|split].
  - intros. apply handle_errors_not_VolumeNotFound.
  - intros response key object_type s E Hm.
    now rewrite (handle_errors_message _ _ _ _ _ E Hm).
  - intros self object_type method data name idx ver s k.
    unfold req, req_ver, retry.
    destruct (retry_loop_outcome
                (req_body send handle_errors self object_type method name
                   idx (default (default_ver self) ver))
                (data_after_req self method)
                (xtremio_array_busy_retry_interval CONF)
                (Z.to_nat (xtremio_array_busy_retry_count CONF) - 1)
                data s) as (x' & s0 & ->).
    apply req_body_not_VolumeNotFound.
Qed.

End NeverVolumeNotFound.

(** ** Cluster scoping *)

Section ClusterScoping.
Import XtremIO.
Context {World : Type}.
Variable send : Request -> World -> TransportResult * World.
Variable CONF : Conf.
Local Abbreviation State := (St World Request).

Lemma build_request_data self object_type method name idx ver d :
  rq_data (fst (build_request self object_type method name idx ver d))
  = if not_GET method then update_data self d else d.
Proof.
  unfold build_request.
  destruct (truthy name); [|destruct (idx_set idx)]; reflexivity.
Qed.

Lemma build_request_params self object_type method name idx ver d :
  rq_params (fst (build_request self object_type method name idx ver d))
  = let params := if truthy name then [("name", name)] else [] in
    if in_GET_DELETE method
    then update_url self (dict_update params d)
    else params.
Proof.
  unfold build_request.
  destruct (truthy name); [|destruct (idx_set idx)]; reflexivity.
Qed.

(** X4. Every request of an [XtremIOClient4] that has a cluster id names
    the cluster: as [cluster-name] in the query of a GET or DELETE, and as
    [cluster-id] in the body of every verb but GET, whatever the caller had
    put under these keys. So a POST or PUT names it in the body only and a
    GET in the query only. An [XtremIOClient3], and a client without a
    cluster id, send the caller's data as it is. *)
Theorem X4_cluster_scoping
    (self : Client) (object_type method : string) (data : option dict)
    (name : json) (idx : option Z) (ver : option string) (s : State) :
  exists new,
    calls_of (trace (snd (req send CONF self object_type method data name
                            idx ver s)))
    = (calls_of (trace s) ++ new)%list
    /\ Forall (fun r =>
         match class_of self, cluster_id self with
         | XtremIOClient4, String c id =>
             dict_get "cluster-name" (rq_params r)
             = (if in_GET_DELETE method then Some (JStr (String c id))
                else None)
             /\ (not_GET method = true ->
                 dict_get "cluster-id" (rq_data r) = Some (JStr (String c id)))
         | _, _ => rq_data r = data_or_empty data
         end) new.
Proof.
  destruct (req_built send CONF self object_type method data name idx ver s)
    as (new & Hc & Hall).
  exists new. split; [exact Hc|].
  eapply Forall_impl; [exact Hall|]. intros r (d & -> & Hd).
  rewrite build_request_data, build_request_params.
  unfold data_of_attempt, update_data, update_url in *.
  destruct (class_of self).
  - destruct Hd as [->| ->]; now destruct (not_GET method).
  - destruct (cluster_id self) as [|c id].
    + destruct Hd as [->| ->]; now destruct (not_GET method).
    + split.
      * simpl. destruct (in_GET_DELETE method).
        -- apply dict_get_set_eq.
        -- now destruct (truthy name).
      * intros ->. apply dict_get_set_eq.
Qed.

End ClusterScoping.

(** ** The snapshot set of a cgsnapshot *)

Section CgSnapshots.
Import XtremIO.
Context {World : Type}.
Variable send : Request -> World -> TransportResult * World.
Variable CONF : Conf.
Local Abbreviation State := (St World Request).

Lemma cgsnap_name_no_hyphen cg id :
  contains "-" (_get_cgsnap_name cg id) = false.
Proof.
  unfold _get_cgsnap_name.
  now rewrite contains_char_app, !contains_remove_char.
Qed.

(** X2. The name [_get_cgsnap_name] gives a cgsnapshot has no hyphen.
    [create_cgsnapshot] posts that name as [snapshot-set-name], and
    [delete_cgsnapshot] sends its DELETE to the [snapshot-sets] collection
    of the v2 API with that name as the [name] parameter: the set deleted
    is the set created. (Only if both ids consist of hyphens is the name
    empty, and then the DELETE carries no name at all.) *)
Theorem X2_cgsnapshot_name
    (self : Driver) (consistencygroup_id id : string) (s : State) :
  let n := _get_cgsnap_name consistencygroup_id id in
  contains "-" n = false
  /\ (exists new,
        calls_of (trace (snd (create_cgsnapshot send CONF self
                                consistencygroup_id id s)))
        = (calls_of (trace s) ++ new)%list
        /\ Forall (fun r =>
                     rq_method r = "POST"
                     /\ dict_get "snapshot-set-name" (rq_data r)
                        = Some (JStr n)) new)
  /\ (exists new,
        calls_of (trace (snd (delete_cgsnapshot send CONF self
                                consistencygroup_id id s)))
        = (calls_of (trace s) ++ new)%list
        /\ Forall (fun r =>
                     rq_method r = "DELETE"
                     /\ rq_url r
                        = collection_url (client self) "snapshot-sets" "v2"
                     /\ dict_get "name" (rq_params r)
                        = if String.eqb n "" then None else Some (JStr n))
             new).
Proof.
  intros n. split; [apply cgsnap_name_no_hyphen|]. split.
  - unfold create_cgsnapshot. rewrite snd_then_ret. fold n.
    destruct (req_built send CONF (client self) "snapshots" "POST"
                (Some [("consistency-group-id", JStr consistencygroup_id);
                       ("snapshot-set-name", JStr n)])
                JNull None (Some "v2") s) as (new & Hc & Hall).
    exists new. split; [exact Hc|].
    eapply Forall_impl; [exact Hall|]. intros r (d & -> & Hd).
    split; [apply build_request_method|].
    rewrite build_request_data.
    change (not_GET "POST") with true. cbv iota.
    rewrite dict_get_update_data by discriminate.
    now rewrite (dict_get_attempt _ _ _ "snapshot-set-name" Hd)
      by discriminate.
  - unfold delete_cgsnapshot. rewrite snd_then_ret. fold n.
    destruct (req_built send CONF (client self) "snapshot-sets" "DELETE"
                None (JStr n) None (Some "v2") s) as (new & Hc & Hall).
    exists new. split; [exact Hc|].
    eapply Forall_impl; [exact Hall|]. intros r (d & -> & Hd).
    split; [apply build_request_method|].
    assert (Hname : dict_get "name" d = None)
      by (now rewrite (dict_get_attempt _ _ _ "name" Hd) by discriminate).
    destruct (String.eqb_spec n "") as [E|E].
    + rewrite E. unfold build_request. simpl. split; [reflexivity|].
      rewrite dict_get_update_url by discriminate.
      now rewrite dict_get_update by assumption.
    + apply build_request_named; [|now right].
      simpl. destruct (String.eqb_spec n ""); [contradiction|reflexivity].
Qed.

End CgSnapshots.

(** ** What an operation sends *)

Section Sends.
Import XtremIO.
Context {World : Type}.
Variable send : Request -> World -> TransportResult * World.
Variable CONF : Conf.
Local Abbreviation State := (St World Request).
Implicit Type P : Request -> Prop.

Lemma sends_nothing {A : Type} P (m : M (S:=State) A) :
  (forall s, calls_of (trace (snd (m s))) = calls_of (trace s)) ->
  sends P m.
Proof.
  intros H s. exists []. rewrite H, app_nil_r. split; [reflexivity|constructor].
Qed.

Lemma sends_ret {A : Type} P (a : A) : sends P (ret (S:=State) a).
Proof. now apply sends_nothing. Qed.

Lemma sends_raise {A : Type} P e : sends P (raise (S:=State) (A:=A) e).
Proof. now apply sends_nothing. Qed.

Lemma sends_lift_result {A : Type} P (r : result A) :
  sends P (lift_result (S:=State) r).
Proof. now apply sends_nothing. Qed.

Lemma sends_lift_option {A : Type} P e (o : option A) :
  sends P (lift_option (S:=State) e o).
Proof. apply sends_nothing. intros s. now destruct o. Qed.

Lemma sends_LOG P l msg : sends P (LOG (World:=World) (Call:=Request) l msg).
Proof.
  apply sends_nothing. intros s. simpl. rewrite calls_of_app. simpl.
  now rewrite app_nil_r.
Qed.

Lemma sends_bind {A B : Type} P (m : M (S:=State) A) (k : A -> M B) :
  sends P m -> (forall a, sends P (k a)) -> sends P (bind m k).
Proof.
  intros Hm Hk s. destruct (Hm s) as (new1 & Hc1 & H1). unfold bind.
  destruct (m s) as [[a|e] s1]; simpl in Hc1.
  - destruct (Hk a s1) as (new2 & Hc2 & H2).
    exists (new1 ++ new2)%list. split.
    + now rewrite Hc2, Hc1, app_assoc.
    + apply Forall_app. now split.
  - exists new1. now split.
Qed.

Lemma sends_try_except {A : Type} P (m : M (S:=State) A) catches h :
  sends P m -> (forall e, sends P (h e)) -> sends P (try_except m catches h).
Proof.
  intros Hm Hh s. destruct (Hm s) as (new1 & Hc1 & H1). unfold try_except.
  destruct (m s) as [[a|e] s1]; simpl in Hc1.
  - exists new1. now split.
  - destruct (catches e); [|exists new1; now split].
    destruct (Hh e s1) as (new2 & Hc2 & H2).
    exists (new1 ++ new2)%list. split.
    + now rewrite Hc2, Hc1, app_assoc.
    + apply Forall_app. now split.
Qed.

Lemma sends_impl {A : Type} P Q (m : M (S:=State) A) :
  (forall r, P r -> Q r) -> sends P m -> sends Q m.
Proof.
  intros HPQ Hm s. destruct (Hm s) as (new & Hc & H).
  exists new. split; [exact Hc|]. eapply Forall_impl; [exact H|exact HPQ].
Qed.

Lemma sends_req self object_type method data name idx ver :
  sends (built_by self object_type method data name idx ver)
    (req send CONF self object_type method data name idx ver).
Proof. intros s. apply req_built. Qed.

(** A request built by [req] has the verb of the call. *)
Lemma built_by_method self object_type method data name idx ver r :
  built_by self object_type method data name idx ver r ->
  rq_method r = method.
Proof. intros (d & -> & _). apply build_request_method. Qed.

End Sends.

(** ** What an operation raises *)

Section Raises.
Context {S : Type}.
Implicit Type Q : exn -> Prop.

Lemma bind_Ok_inv {A B : Type} (m : M (S:=S) A) (k : A -> M B) s b s' :
  bind m k s = (Ok b, s') ->
  exists a s1, m s = (Ok a, s1) /\ k a s1 = (Ok b, s').
Proof.
  unfold bind. destruct (m s) as [[a|e] s1]; [|discriminate].
  intros H. now exists a, s1.
Qed.

Lemma bind_Raise_inv {A B : Type} (m : M (S:=S) A) (k : A -> M B) s e s' :
  bind m k s = (Raise e, s') ->
  m s = (Raise e, s')
  \/ exists a s1, m s = (Ok a, s1) /\ k a s1 = (Raise e, s').
Proof.
  unfold bind. destruct (m s) as [[a|e0] s1]; intros H.
  - right. now exists a, s1.
  - left. injection H as -> ->. reflexivity.
Qed.

Lemma try_except_Ok_inv {A : Type} (m : M (S:=S) A) catches h s a s' :
  try_except m catches h s = (Ok a, s') ->
  m s = (Ok a, s')
  \/ exists e s1, m s = (Raise e, s1) /\ catches e = true
                  /\ h e s1 = (Ok a, s').
Proof.
  unfold try_except. destruct (m s) as [[a0|e] s1]; intros H.
  - now left.
  - destruct (catches e) eqn:E; [|discriminate]. right. now exists e, s1.
Qed.

Lemma raises_only_ret {A : Type} Q (a : A) : raises_only Q (ret (S:=S) a).
Proof. intros s e s' H. discriminate. Qed.

Lemma raises_only_raise {A : Type} Q e :
  Q e -> raises_only Q (raise (S:=S) (A:=A) e).
Proof. intros HQ s e' s' H. injection H as <- _. exact HQ. Qed.

Lemma raises_only_lift_result {A : Type} Q (r : result A) :
  (forall e, r = Raise e -> Q e) -> raises_only Q (lift_result (S:=S) r).
Proof. intros H s e s' E. injection E as E _. now apply H. Qed.

Lemma raises_only_lift_option {A : Type} Q e (o : option A) :
  Q e -> raises_only Q (lift_option (S:=S) e o).
Proof.
  intros HQ s e' s' E. destruct o; [discriminate|]. now injection E as <- _.
Qed.

Lemma raises_only_bind {A B : Type} Q (m : M (S:=S) A) (k : A -> M B) :
  raises_only Q m -> (forall a, raises_only Q (k a)) ->
  raises_only Q (bind m k).
Proof.
  intros Hm Hk s e s' H.
  apply bind_Raise_inv in H as [H|(a & s1 & _ & H)].
  - exact (Hm _ _ _ H).
  - exact (Hk _ _ _ _ H).
Qed.

Lemma raises_only_try_except {A : Type} Q Q' (m : M (S:=S) A) catches h :
  raises_only Q' m ->
  (forall e, Q' e -> catches e = false -> Q e) ->
  (forall e, catches e = true -> raises_only Q (h e)) ->
  raises_only Q (try_except m catches h).
Proof.
  intros Hm Hpass Hh s e s'. unfold try_except.
  destruct (m s) as [[a|e0] s1] eqn:E; [discriminate|].
  destruct (catches e0) eqn:Hc.
  - intros H. exact (Hh _ Hc _ _ _ H).
  - intros H. injection H as <- _. apply Hpass; [|exact Hc].
    exact (Hm _ _ _ E).
Qed.

Lemma raises_only_impl {A : Type} Q Q' (m : M (S:=S) A) :
  (forall e, Q e -> Q' e) -> raises_only Q m -> raises_only Q' m.
Proof. intros HQ Hm s e s' H. apply HQ. exact (Hm _ _ _ H). Qed.

Lemma raises_only_any {A : Type} (m : M (S:=S) A) :
  raises_only (fun _ => True) m.
Proof. intros s e s' _. exact I. Qed.

End Raises.

Lemma raises_only_LOG {World Call : Type} Q l msg :
  raises_only Q (LOG (World:=World) (Call:=Call) l msg).
Proof. intros s e s' H. discriminate. Qed.

(** Subscripting raises [KeyError], [IndexError] or [TypeError], never a
    [NotFound]. *)
Lemma getitem_not_NotFound j k e : getitem j k = Raise e -> not_NotFound e.
Proof.
  destruct j as [| | | | |kv]; simpl; try (intros H; now injection H as <-).
  destruct (dict_get k kv); [discriminate|]. intros H. now injection H as <-.
Qed.

Lemma getitem0_not_NotFound j e : getitem0 j = Raise e -> not_NotFound e.
Proof.
  destruct j as [| | |[|c s]|[|x l]|kv]; simpl;
    try discriminate; intros H; now injection H as <-.
Qed.

Lemma iter_json_not_NotFound j e :
  XtremIO.iter_json j = Raise e -> not_NotFound e.
Proof.
  destruct j; simpl; try discriminate; intros H; now injection H as <-.
Qed.

Lemma href_last_not_NotFound j e :
  XtremIO.href_last j = Raise e -> not_NotFound e.
Proof.
  unfold XtremIO.href_last.
  destruct (getitem j "href") as [[| | |h| |]|e0] eqn:E;
    try discriminate; try (intros H; now injection H as <-).
  intros H. injection H as <-. now apply getitem_not_NotFound in E.
Qed.

Lemma py_eq_str_true j s : XtremIO.py_eq_str j s = true -> j = JStr s.
Proof.
  destruct j; simpl; try discriminate. intros H.
  apply String.eqb_eq in H. now subst.
Qed.

(** ** Lun-map lookups *)

Section Lunmaps.
Import XtremIO.
Context {World : Type}.
Variable send : Request -> World -> TransportResult * World.
Variable CONF : Conf.
Local Abbreviation State := (St World Request).

Lemma lift_result_Ok_inv {A : Type} (r : result A) (s : State) a s' :
  lift_result r s = (Ok a, s') -> r = Ok a /\ s' = s.
Proof. intros H. injection H as -> ->. now split. Qed.

Lemma find_lunmap_loop_result self ig_name vol_name links :
  forall (s : State) lm s',
  find_lunmap_loop send CONF self ig_name vol_name links s = (Ok lm, s') ->
  lm = JNull \/ lunmap_of ig_name vol_name lm.
Proof.
  induction links as [|lm_link rest IH]; intros s lm s' H.
  - injection H as <- _. now left.
  - simpl in H. apply bind_Ok_inv in H as (idx & s1 & _ & H).
    apply bind_Ok_inv in H as ([m|] & s2 & _ & H); [|exact (IH _ _ _ H)].
    apply bind_Ok_inv in H as (ig & s3 & Hig & H).
    apply lift_result_Ok_inv in Hig as [Hig ->].
    destruct (py_eq_str ig ig_name) eqn:Eig; [|exact (IH _ _ _ H)].
    apply bind_Ok_inv in H as (vol & s4 & Hvol & H).
    apply lift_result_Ok_inv in Hvol as [Hvol ->].
    destruct (py_eq_str vol vol_name) eqn:Evol; [|exact (IH _ _ _ H)].
    injection H as <- _. right.
    apply py_eq_str_true in Eig, Evol. subst. now split.
Qed.

Lemma lunmap_by_index_raises self idx :
  raises_only not_NotFound (lunmap_by_index send CONF self idx).
Proof.
  unfold lunmap_by_index.
  eapply raises_only_try_except; [apply raises_only_any| |].
  - intros e _ H. exact H.
  - intros e _. apply raises_only_ret.
Qed.

Lemma find_lunmap_loop_raises self ig_name vol_name links :
  raises_only not_NotFound
    (find_lunmap_loop send CONF self ig_name vol_name links).
Proof.
  induction links as [|lm_link rest IH]; simpl.
  - apply raises_only_ret.
  - apply raises_only_bind.
    { apply raises_only_lift_result, href_last_not_NotFound. }
    intros idx. apply raises_only_bind; [apply lunmap_by_index_raises|].
    intros [lm|]; [|exact IH].
    apply raises_only_bind.
    { apply raises_only_lift_result, getitem_not_NotFound. }
    intros ig. destruct (py_eq_str ig ig_name); [|exact IH].
    apply raises_only_bind.
    { apply raises_only_lift_result, getitem_not_NotFound. }
    intros vol. destruct (py_eq_str vol vol_name); [|exact IH].
    apply raises_only_ret.
Qed.

(** X5. What [XtremIOClient3.find_lunmap] returns is [None] or a lun-map
    whose [ig-name] and [vol-name] are the two names asked for. *)
Theorem X5_find_lunmap_matches self ig_name vol_name (s : State) lm s' :
  XtremIOClient3_find_lunmap send CONF self ig_name vol_name s = (Ok lm, s') ->
  lm = JNull \/ lunmap_of ig_name vol_name lm.
Proof.
  unfold XtremIOClient3_find_lunmap. intros H.
  apply bind_Ok_inv in H as (l & s1 & _ & H).
  apply bind_Ok_inv in H as (links & s2 & _ & H).
  exact (find_lunmap_loop_result _ _ _ _ _ _ _ H).
Qed.


(** X6. The two clients disagree on a lookup that finds nothing: when the
    array answers the lookup with an empty list of lun-maps,
    [XtremIOClient3.find_lunmap] returns [None] and
    [XtremIOClient4.find_lunmap] raises [VolumeNotFound] for the volume. *)
Theorem X6_no_lunmap self ig_name vol_name (s : State) response body :
  fst (send (lookup_request self ig_name vol_name) (world s))
  = Received response ->
  200 <= status_code response < 300 ->
  json_body response = Some body ->
  getitem body "lun-maps" = Ok (JArr []) ->
  fst (client_find_lunmap send CONF self ig_name vol_name s)
  = no_lunmap self vol_name.
Proof.
  unfold lookup_request, no_lunmap, client_find_lunmap.
  intros Hsend Hst Hbody Hmaps.
  destruct (class_of self) eqn:Hclass.
  - unfold XtremIOClient3_find_lunmap.
    pose proof (req_2xx send CONF self "lun-maps" "GET" None JNull None None
                  s response eq_refl Hsend Hst) as Hreq.
    unfold success_value in Hreq. simpl in Hreq. rewrite Hbody in Hreq.
    erewrite bind_Ok; cycle 1.
    { erewrite try_except_Ok; [reflexivity|].
      erewrite bind_Ok; [|exact Hreq]. unfold lift_result. now rewrite Hmaps. }
    reflexivity.
  - unfold XtremIOClient4_find_lunmap.
    pose proof (req_2xx send CONF self "lun-maps" "GET"
                  (Some [("full", JNum 1);
                         ("filter", JArr [JStr ("vol-name:eq:" ++ vol_name);
                                          JStr ("ig-name:eq:" ++ ig_name)])])
                  JNull None None s response eq_refl Hsend Hst) as Hreq.
    unfold success_value in Hreq. simpl in Hreq. rewrite Hbody in Hreq.
    erewrite try_except_caught; cycle 1.
    { erewrite bind_Ok; [|exact Hreq].
      erewrite bind_Ok; [|unfold lift_result; now rewrite Hmaps].
      reflexivity. }
    { reflexivity. }
    reflexivity.
Qed.


Lemma get_initiator3_raises self port_address :
  raises_only not_NotFound
    (XtremIOClient3_get_initiator send CONF self port_address).
Proof.
  unfold XtremIOClient3_get_initiator.
  eapply raises_only_try_except; [apply raises_only_any| |].
  - intros e _ H. exact H.
  - intros e _. apply raises_only_ret.
Qed.

(** X9. The lookups of [XtremIOClient3] keep [NotFound] to themselves:
    [find_lunmap] and [get_initiator] never raise it (nor its subclass
    [VolumeNotFound]). A listing that is not found makes [find_lunmap]
    raise [VolumeDriverException], and an initiator that is not found makes
    [get_initiator] return [None]. *)
Theorem X9_client3_lookups_absorb_NotFound self ig_name vol_name port_address :
  raises_only not_NotFound
    (XtremIOClient3_find_lunmap send CONF self ig_name vol_name)
  /\ raises_only not_NotFound
       (XtremIOClient3_get_initiator send CONF self port_address)
  /\ (forall (s s1 : State),
        req send CONF self "lun-maps" "GET" None JNull None None s
        = (Raise NotFound, s1) ->
        XtremIOClient3_find_lunmap send CONF self ig_name vol_name s
        = (Raise (VolumeDriverException
                    ("can't find lun-map, ig:" ++ ig_name ++ " vol:"
                     ++ vol_name)), s1))
  /\ (forall (s s1 : State),
        req send CONF self "initiators" "GET" None (JStr port_address) None
          None s
        = (Raise NotFound, s1) ->
        XtremIOClient3_get_initiator send CONF self port_address s
        = (Ok JNull, s1)).
Proof.
  split; [|split; [apply get_initiator3_raises|split]].
  - unfold XtremIOClient3_find_lunmap.
    apply raises_only_bind.
    { eapply raises_only_try_except; [apply raises_only_any| |].
      - intros e _ H. exact H.
      - intros e _. now apply raises_only_raise. }
    intros l. apply raises_only_bind.
    { apply raises_only_lift_result, iter_json_not_NotFound. }
    intros links. apply find_lunmap_loop_raises.
  - intros s s1 H. unfold XtremIOClient3_find_lunmap.
    erewrite bind_Raise; [reflexivity|].
    rewrite (try_except_caught _ _ _ _ NotFound s1); [reflexivity| |reflexivity].
    exact (bind_Raise _ _ _ _ _ H).
  - intros s s1 H. unfold XtremIOClient3_get_initiator.
    rewrite (try_except_caught _ _ _ _ NotFound s1); [reflexivity| |reflexivity].
    exact (bind_Raise _ _ _ _ _ H).
Qed.

Lemma sends_reads_req self object_type data name idx ver :
  sends reads (req send CONF self object_type "GET" data name idx ver).
Proof.
  eapply sends_impl; [|apply sends_req].
  intros r Hr. exact (built_by_method _ _ _ _ _ _ _ _ Hr).
Qed.

Lemma lunmap_by_index_reads self idx :
  sends reads (lunmap_by_index send CONF self idx).
Proof.
  unfold lunmap_by_index. apply sends_try_except; [|intros; apply sends_ret].
  apply sends_bind; [apply sends_lift_option|]. intros i.
  apply sends_bind; [apply sends_reads_req|]. intros r.
  apply sends_bind; [apply sends_lift_result|]. intros lm. apply sends_ret.
Qed.

Lemma find_lunmap_loop_reads self ig_name vol_name links :
  sends reads (find_lunmap_loop send CONF self ig_name vol_name links).
Proof.
  induction links as [|lm_link rest IH]; simpl; [apply sends_ret|].
  apply sends_bind; [apply sends_lift_result|]. intros idx.
  apply sends_bind; [apply lunmap_by_index_reads|]. intros [lm|]; [|exact IH].
  apply sends_bind; [apply sends_lift_result|]. intros ig.
  destruct (py_eq_str ig ig_name); [|exact IH].
  apply sends_bind; [apply sends_lift_result|]. intros vol.
  destruct (py_eq_str vol vol_name); [apply sends_ret|exact IH].
Qed.

Lemma count_mapped_loop_reads self initiator links : forall cnt,
  sends reads (count_mapped_loop send CONF self initiator links cnt).
Proof.
  induction links as [|lm_link rest IH]; intros cnt; simpl; [apply sends_ret|].
  apply sends_bind; [apply sends_lift_result|]. intros idx.
  apply sends_bind; [apply lunmap_by_index_reads|]. intros [lm|]; [|apply IH].
  apply sends_bind; [apply sends_lift_result|]. intros ig.
  destruct (py_eq_str ig initiator); apply IH.
Qed.

Lemma client_find_lunmap_reads self ig_name vol_name :
  sends reads (client_find_lunmap send CONF self ig_name vol_name).
Proof.
  unfold client_find_lunmap. destruct (class_of self).
  - unfold XtremIOClient3_find_lunmap. apply sends_bind.
    { apply sends_try_except; [|intros; apply sends_raise].
      apply sends_bind; [apply sends_reads_req|]. intros r.
      apply sends_lift_result. }
    intros l. apply sends_bind; [apply sends_lift_result|]. intros links.
    apply find_lunmap_loop_reads.
  - unfold XtremIOClient4_find_lunmap.
    apply sends_try_except; [|intros; apply sends_raise].
    apply sends_bind; [apply sends_reads_req|]. intros r.
    apply sends_bind; [apply sends_lift_result|]. intros l.
    apply sends_lift_result.
Qed.

(** X10. The lookups only read: every request that [find_lunmap],
    [num_of_mapped_volumes] and [get_initiator] send, in either client, is
    a GET. *)
Theorem X10_lookups_only_read self ig_name vol_name initiator port_address :
  sends reads (client_find_lunmap send CONF self ig_name vol_name)
  /\ sends reads (XtremIOClient3_num_of_mapped_volumes send CONF self initiator)
  /\ sends reads (XtremIOClient4_num_of_mapped_volumes send CONF self initiator)
  /\ sends reads (XtremIOClient3_get_initiator send CONF self port_address)
  /\ sends reads (XtremIOClient4_get_initiator send CONF self port_address).
Proof.
  split; [apply client_find_lunmap_reads|]. split; [|split; [|split]].
  - unfold XtremIOClient3_num_of_mapped_volumes.
    apply sends_bind; [apply sends_reads_req|]. intros r.
    apply sends_bind; [apply sends_lift_result|]. intros l.
    apply sends_bind; [apply sends_lift_result|]. intros links.
    apply count_mapped_loop_reads.
  - unfold XtremIOClient4_num_of_mapped_volumes.
    apply sends_bind; [apply sends_reads_req|]. intros r.
    apply sends_bind; [apply sends_lift_result|]. intros l.
    apply sends_lift_result.
  - unfold XtremIOClient3_get_initiator.
    apply sends_try_except; [|intros; apply sends_ret].
    apply sends_bind; [apply sends_reads_req|]. intros r.
    apply sends_lift_result.
  - unfold XtremIOClient4_get_initiator.
    apply sends_bind; [apply sends_reads_req|]. intros r.
    apply sends_bind; [apply sends_lift_result|]. intros l.
    apply sends_bind; [apply sends_lift_result|]. intros n.
    destruct (n =? 1); [apply sends_lift_result|apply sends_ret].
Qed.

Lemma count_mapped_loop_bound self initiator links :
  forall cnt (s : State) n s',
  count_mapped_loop send CONF self initiator links cnt s = (Ok n, s') ->
  cnt <= n <= cnt + Z.of_nat (length links).
Proof.
  induction links as [|lm_link rest IH]; intros cnt s n s' H.
  - injection H as <- _. simpl. lia.
  - simpl in H. apply bind_Ok_inv in H as (idx & s1 & _ & H).
    apply bind_Ok_inv in H as ([m|] & s2 & _ & H).
    + apply bind_Ok_inv in H as (ig & s3 & _ & H).
      destruct (py_eq_str ig initiator); apply IH in H;
        rewrite length_cons; lia.
    + apply IH in H. rewrite length_cons. lia.
Qed.

(** X8. The count of [XtremIOClient3.num_of_mapped_volumes] lies between
    zero and the number of lun-maps the array listed. *)
Theorem X8_num_of_mapped_volumes_bound self initiator (s : State) r s1 l links
    n s' :
  req send CONF self "lun-maps" "GET" None JNull None None s = (Ok r, s1) ->
  getitem r "lun-maps" = Ok l ->
  iter_json l = Ok links ->
  XtremIOClient3_num_of_mapped_volumes send CONF self initiator s
  = (Ok n, s') ->
  0 <= n <= Z.of_nat (length links).
Proof.
  intros Hreq Hl Hlinks H. unfold XtremIOClient3_num_of_mapped_volumes in H.
  rewrite (bind_Ok _ _ _ _ _ Hreq) in H.
  unfold lift_result at 1 2 in H. unfold bind at 1 2 in H.
  rewrite Hl, Hlinks in H.
  now apply count_mapped_loop_bound in H.
Qed.


Lemma handle_errors_already_mapped response key object_type (s : State) m :
  status_code response = 400 ->
  message_of response = Some m ->
  endswith m OBJ_NOT_FOUND_ERR = false ->
  contains ALREADY_MAPPED_ERR m = true ->
  handle_errors response key object_type s
  = (Raise XtremIOAlreadyMappedError, s).
Proof.
  intros Hs Hm Hend Hc. unfold message_of in Hm.
  destruct (json_body response) as [[| | | |l|kv]|] eqn:Hb; try discriminate.
  destruct (dict_get "message" kv) as [[| | |m'| |]|] eqn:Hk; try discriminate.
  injection Hm as ->.
  unfold handle_errors. rewrite Hs. simpl.
  unfold bind, response_json, lift_option, ret. rewrite Hb. simpl.
  rewrite Hk. simpl. rewrite Hend.
  destruct (String.eqb_spec m VOL_NOT_UNIQUE_ERR) as [E|_];
    [rewrite E in Hc; discriminate Hc|].
  destruct (String.eqb_spec m VOL_OBJ_NOT_FOUND_ERR) as [E|_];
    [rewrite E in Hc; discriminate Hc|].
  rewrite Hc. reflexivity.
Qed.

Lemma lun_map_data_or_empty volume_id ig lun_num :
  data_or_empty (Some (lun_map_data volume_id ig lun_num))
  = lun_map_data volume_id ig lun_num.
Proof. apply data_or_empty_Some. Qed.

(** X7. When the array refuses the creation of the lun-map with a message
    that has [already_mapped] in it, [create_lun_map] notes it and gives
    what [find_lunmap] gives for the group and the volume: its result, its
    error, its requests. *)
Theorem X7_create_lun_map_already_mapped self volume_id ig lun_num (s : State)
    response m :
  let request :=
    fst (build_request (client self) "lun-maps" "POST" JNull None
           (default_ver (client self)) (lun_map_data volume_id ig lun_num)) in
  fst (send request (world s)) = Received response ->
  status_code response = 400 ->
  message_of response = Some m ->
  endswith m OBJ_NOT_FOUND_ERR = false ->
  contains ALREADY_MAPPED_ERR m = true ->
  create_lun_map send CONF self volume_id ig lun_num s
  = client_find_lunmap send CONF (client self) ig volume_id
      (noted (sent send s "POST" request) INFO
         "Volume already mapped, retrieving %(ig)s, %(vol)s").
Proof.
  intros request Hsend Hs Hm Hend Hc.
  assert (H2 : is_2xx response = false).
  { unfold is_2xx. rewrite Hs. reflexivity. }
  pose proof (req_classified send CONF (client self) "lun-maps" "POST"
                (Some (lun_map_data volume_id ig lun_num)) JNull None None s
                response XtremIOAlreadyMappedError eq_refl) as Hreq.
  cbv zeta in Hreq. rewrite lun_map_data_or_empty in Hreq.
  change (default (default_ver (client self)) None)
    with (default_ver (client self)) in Hreq.
  fold request in Hreq.
  rewrite (handle_errors_already_mapped _ _ _ _ m Hs Hm Hend Hc) in Hreq.
  specialize (Hreq Hsend H2 eq_refl ltac:(discriminate)).
  unfold create_lun_map. fold (lun_map_data volume_id ig lun_num).
  rewrite (try_except_caught _ _ _ _ XtremIOAlreadyMappedError
             (sent send s "POST" request)); [reflexivity| |reflexivity].
  exact (bind_Raise _ _ _ _ _ Hreq).
Qed.

Lemma lun_map_data_get volume_id ig lun_num :
  let d := lun_map_data volume_id ig lun_num in
  dict_get "ig-id" d = Some (JStr ig)
  /\ dict_get "vol-id" d = Some (JStr volume_id)
  /\ dict_get "lun" d = if truthy lun_num then Some lun_num else None.
Proof.
  unfold lun_map_data. destruct (truthy lun_num); repeat split; reflexivity.
Qed.

Lemma obj_from_result_reads self res :
  sends reads (_obj_from_result send CONF self res).
Proof.
  unfold _obj_from_result.
  apply sends_bind; [apply sends_lift_result|]. intros ti.
  apply sends_bind; [apply sends_reads_req|]. intros r.
  apply sends_lift_result.
Qed.

(** X11. [create_lun_map] changes the array by one kind of request only,
    the POST that creates the lun-map of the volume and the group; it
    names a LUN number there only when [lun_num] is truthy, so that a
    [lun_num] of 0 is left to the array like [None]. All its other requests
    are GETs. *)
Theorem X11_create_lun_map_requests self volume_id ig lun_num :
  sends (fun r => reads r
                  \/ lun_map_creation (client self) volume_id ig lun_num r)
    (create_lun_map send CONF self volume_id ig lun_num).
Proof.
  unfold create_lun_map. fold (lun_map_data volume_id ig lun_num).
  apply sends_try_except.
  - apply sends_bind.
    + eapply sends_impl; [|apply sends_req].
      intros r (d & -> & Hd). right.
      destruct (lun_map_data_get volume_id ig lun_num) as (Hig & Hvol & Hlun).
      unfold lun_map_creation.
      rewrite build_request_method, build_request_data.
      change (not_GET "POST") with true. cbv iota.
      rewrite !dict_get_update_data by discriminate.
      rewrite !(dict_get_attempt _ _ _ _ Hd) by discriminate.
      rewrite lun_map_data_or_empty.
      repeat split; assumption.
    + intros res. apply sends_bind.
      { eapply sends_impl; [|apply obj_from_result_reads]. now left. }
      intros lunmap. apply sends_bind; [apply sends_LOG|].
      intros _. apply sends_ret.
  - intros e. apply sends_bind; [apply sends_LOG|]. intros _.
    eapply sends_impl; [|apply client_find_lunmap_reads]. now left.
Qed.

End Lunmaps.

(** Of two listed lun-maps the second is the one of [ig1] and [v1]. *)
Lemma X5_find_lunmap_matches_witness :
  let s := XtremIO.start [links_answer ["1"; "2"];
                          lun_map_answer "ig2" "v1" 1;
                          lun_map_answer "ig1" "v1" 2] in
  fst (XtremIO.XtremIOClient3_find_lunmap XtremIO.scripted
         XtremIO.XTREMIO_OPTS example_client3 "ig1" "v1" s)
  = Ok (lun_map "ig1" "v1" 2)
  /\ lunmap_of "ig1" "v1" (lun_map "ig1" "v1" 2).
Proof.
  intros s. split; [reflexivity|].
  destruct (X5_find_lunmap_matches XtremIO.scripted XtremIO.XTREMIO_OPTS
              example_client3 "ig1" "v1" s (lun_map "ig1" "v1" 2)
              (snd (XtremIO.XtremIOClient3_find_lunmap XtremIO.scripted
                      XtremIO.XTREMIO_OPTS example_client3 "ig1" "v1" s))
              eq_refl) as [H|H]; [discriminate H|exact H].
Defined.

(** An array without lun-maps, asked by either client. *)
Lemma X6_no_lunmap_witness :
  let s := XtremIO.start [lun_maps_answer []] in
  fst (XtremIO.client_find_lunmap XtremIO.scripted XtremIO.XTREMIO_OPTS
         example_client3 "ig1" "v1" s) = Ok JNull
  /\ fst (XtremIO.client_find_lunmap XtremIO.scripted XtremIO.XTREMIO_OPTS
            example_client4 "ig1" "v1" s)
     = Raise (VolumeNotFound (JStr "v1")).
Proof.
  intros s. split.
  - apply (X6_no_lunmap XtremIO.scripted XtremIO.XTREMIO_OPTS example_client3
             "ig1" "v1" s (mkResponse 200 "" (Some (JObj [("lun-maps", JArr [])])))
             (JObj [("lun-maps", JArr [])]));
      [reflexivity|simpl; lia|reflexivity|reflexivity].
  - apply (X6_no_lunmap XtremIO.scripted XtremIO.XTREMIO_OPTS example_client4
             "ig1" "v1" s (mkResponse 200 "" (Some (JObj [("lun-maps", JArr [])])))
             (JObj [("lun-maps", JArr [])]));
      [reflexivity|simpl; lia|reflexivity|reflexivity].
Defined.

(** A volume that is already mapped at LUN 7. *)
Lemma X7_create_lun_map_already_mapped_witness :
  let s := XtremIO.start [XtremIO.error_answer "vol_already_mapped";
                          links_answer ["7"];
                          lun_map_answer "ig1" "v1" 7] in
  fst (XtremIO.create_lun_map XtremIO.scripted XtremIO.XTREMIO_OPTS
         example_driver "v1" "ig1" (JNum 0) s)
  = Ok (lun_map "ig1" "v1" 7).
Proof.
  intros s.
  rewrite (X7_create_lun_map_already_mapped XtremIO.scripted
             XtremIO.XTREMIO_OPTS example_driver "v1" "ig1" (JNum 0) s
             (mkResponse 400 "" (Some (JObj [("message", JStr "vol_already_mapped")])))
             "vol_already_mapped" eq_refl eq_refl eq_refl eq_refl eq_refl).
  reflexivity.
Defined.

(** Three listed lun-maps: one of [ig1], one that has vanished, one of
    [ig2]. *)
Lemma X8_num_of_mapped_volumes_bound_witness :
  let s := XtremIO.start [links_answer ["1"; "2"; "3"];
                          lun_map_answer "ig1" "v1" 1;
                          XtremIO.error_answer "obj_not_found";
                          lun_map_answer "ig2" "v2" 3] in
  fst (XtremIO.XtremIOClient3_num_of_mapped_volumes XtremIO.scripted
         XtremIO.XTREMIO_OPTS example_client3 "ig1" s) = Ok 1
  /\ 0 <= 1 <= 3.
Proof.
  intros s. split; [reflexivity|].
  exact (X8_num_of_mapped_volumes_bound XtremIO.scripted XtremIO.XTREMIO_OPTS
           example_client3 "ig1" s _ _ _ _ 1 _ eq_refl eq_refl eq_refl
           eq_refl).
Defined.

(** ** Answers of the array *)

Section Answers.
Import XtremIO.
Context {World : Type}.
Variable send : Request -> World -> TransportResult * World.
Variable CONF : Conf.
Local Abbreviation State := (St World Request).

Lemma req_answer_not_found self object_type method data name idx ver
    (s : State) response :
  truthy name && idx_set idx = false ->
  fst (send (first_request self object_type method data name idx ver)
         (world s)) = Received response ->
  not_found_response response ->
  exists s',
    req send CONF self object_type method data name idx ver s
    = (Raise NotFound, s').
Proof.
  intros Hboth Hsend (Hst & m & Hm & Hend). eexists.
  apply (req_classified send CONF self object_type method data name idx ver
           s response); [exact Hboth|exact Hsend| | |discriminate].
  - unfold is_2xx. rewrite Hst. reflexivity.
  - rewrite (handle_errors_message _ _ _ _ _ Hst Hm).
    unfold error_of_message. now rewrite Hend.
Qed.

Lemma req_answer_failure self object_type method data name idx ver
    (s : State) response :
  truthy name && idx_set idx = false ->
  fst (send (first_request self object_type method data name idx ver)
         (world s)) = Received response ->
  failure_response response ->
  exists s',
    req send CONF self object_type method data name idx ver s
    = (Raise (unknown_error response), s').
Proof.
  intros Hboth Hsend (H2 & Hst). eexists.
  apply (req_classified send CONF self object_type method data name idx ver
           s response); [exact Hboth|exact Hsend|exact H2| |discriminate].
  now apply handle_errors_other_status.
Qed.

Lemma req_answer_2xx self object_type method data name idx ver
    (s : State) response :
  truthy name && idx_set idx = false ->
  fst (send (first_request self object_type method data name idx ver)
         (world s)) = Received response ->
  is_2xx response = true ->
  exists s',
    req send CONF self object_type method data name idx ver s
    = (success_value method response, s').
Proof.
  intros Hboth Hsend H2. eexists.
  apply (req_2xx send CONF self object_type method data name idx ver s
           response Hboth Hsend).
  unfold is_2xx in H2. apply andb_true_iff in H2 as [H1 H3].
  apply Z.leb_le in H1. apply Z.ltb_lt in H3. lia.
Qed.

Lemma name_idx_None name : truthy name && idx_set None = false.
Proof. apply andb_false_r. Qed.

(** A request built for a name, or for none. *)
Lemma built_by_to_named self object_type method data name ver r :
  built_by self object_type method data (JStr name) None ver r ->
  in_GET_DELETE method = false \/ dict_get "name" (data_or_empty data) = None ->
  to_named self method object_type (default (default_ver self) ver) name r.
Proof.
  intros (d & -> & Hd) Hm. unfold to_named.
  rewrite build_request_method, build_request_params.
  split; [reflexivity|]. split.
  - unfold build_request. simpl. now destruct (String.eqb name "").
  - simpl. destruct (in_GET_DELETE method).
    + destruct Hm as [Hm|Hm]; [discriminate|].
      rewrite dict_get_update_url by discriminate.
      assert (Hn : dict_get "name" d = None)
        by (now rewrite (dict_get_attempt _ _ _ "name" Hd) by discriminate).
      destruct (String.eqb name ""); simpl.
      * now rewrite dict_get_update.
      * rewrite dict_get_update by exact Hn. reflexivity.
    + now destruct (String.eqb name "").
Qed.

(** The body of a request that is not a GET has the caller's data, but for
    the cluster. *)
Lemma built_by_data self object_type method data name idx ver r k :
  built_by self object_type method data name idx ver r ->
  k <> "cluster-id" ->
  dict_get k (rq_data r) = dict_get k (data_or_empty data).
Proof.
  intros (d & -> & Hd) Hk. rewrite build_request_data.
  destruct (not_GET method).
  - rewrite dict_get_update_data by exact Hk.
    exact (dict_get_attempt self data d k Hd Hk).
  - exact (dict_get_attempt self data d k Hd Hk).
Qed.

(** X12. [extend_volume] never raises [NotFound]; what it sends is a PUT
    to [volumes] that names the volume by its id and carries the new size
    as [vol-size], the number followed by [g]; and the not-found answer of
    the array comes out as a [VolumeDriverException]. *)
Theorem X12_extend_volume self volume new_size :
  raises_only not_NotFound (extend_volume send CONF self volume new_size)
  /\ sends (fun r =>
              to_named (client self) "PUT" "volumes"
                (default_ver (client self)) (v_id volume) r
              /\ dict_get "vol-size" (rq_data r)
                 = Some (JStr (py_str new_size ++ "g")))
       (extend_volume send CONF self volume new_size)
  /\ (forall (s : State) response,
        fst (send (first_request (client self) "volumes" "PUT"
                     (Some (extend_data new_size)) (JStr (v_id volume))
                     None None) (world s)) = Received response ->
        not_found_response response ->
        fst (extend_volume send CONF self volume new_size s)
        = Raise (VolumeDriverException "can't find the volume to extend")).
Proof.
  unfold extend_volume. fold (extend_data new_size). split; [|split].
  - eapply raises_only_try_except; [apply raises_only_any| |].
    + intros e _ H. exact H.
    + intros e _. now apply raises_only_raise.
  - apply sends_try_except; [|intros; apply sends_raise].
    apply sends_bind; [|intros; apply sends_ret].
    eapply sends_impl; [|apply sends_req]. intros r Hr. split.
    + apply (built_by_to_named _ _ _ _ _ None _ Hr). now left.
    + now rewrite (built_by_data _ _ _ _ _ _ _ _ "vol-size" Hr) by discriminate.
  - intros s response Hsend Hnf.
    destruct (req_answer_not_found _ _ _ _ _ _ _ _ _ (name_idx_None _)
                Hsend Hnf) as [s' Hreq].
    rewrite (try_except_caught _ _ _ _ NotFound s'); [reflexivity| |reflexivity].
    exact (bind_Raise _ _ _ _ _ Hreq).
Qed.

(** X13. The only not-found error [unmanage] raises is [VolumeNotFound]
    for the id of the volume. What it sends is a PUT to [volumes] that
    names the volume by its id and renames it to [volume['name']] followed
    by [-unmanged]; the not-found answer of the array comes out as that
    [VolumeNotFound]. *)
Theorem X13_unmanage self volume name is_snapshot :
  raises_only (fun e => is_NotFound e = true
                        -> e = VolumeNotFound (JStr (v_id volume)))
    (unmanage send CONF self volume name is_snapshot)
  /\ sends (fun r =>
              to_named (client self) "PUT" "volumes"
                (default_ver (client self)) (v_id volume) r
              /\ dict_get "vol-name" (rq_data r)
                 = Some (JStr (name ++ "-unmanged")))
       (unmanage send CONF self volume name is_snapshot)
  /\ (forall (s : State) response,
        fst (send (first_request (client self) "volumes" "PUT"
                     (Some (unmanage_data name)) (JStr (v_id volume))
                     None None) (world s)) = Received response ->
        not_found_response response ->
        fst (unmanage send CONF self volume name is_snapshot s)
        = Raise (VolumeNotFound (JStr (v_id volume)))).
Proof.
  unfold unmanage. fold (unmanage_data name). split; [|split].
  - eapply raises_only_try_except; [apply raises_only_any| |].
    + intros e _ H H'. congruence.
    + intros e _. apply raises_only_bind; [apply raises_only_LOG|].
      intros _. now apply raises_only_raise.
  - apply sends_try_except.
    + apply sends_bind; [|intros; apply sends_ret].
      eapply sends_impl; [|apply sends_req]. intros r Hr. split.
      * apply (built_by_to_named _ _ _ _ _ None _ Hr). now left.
      * now rewrite (built_by_data _ _ _ _ _ _ _ _ "vol-name" Hr)
          by discriminate.
    + intros e. apply sends_bind; [apply sends_LOG|]. intros _.
      apply sends_raise.
  - intros s response Hsend Hnf.
    destruct (req_answer_not_found _ _ _ _ _ _ _ _ _ (name_idx_None _)
                Hsend Hnf) as [s' Hreq].
    rewrite (try_except_caught _ _ _ _ NotFound s'); [reflexivity| |reflexivity].
    exact (bind_Raise _ _ _ _ _ Hreq).
Qed.

(** X14. [update_migrated_volume] never raises
    [VolumeBackendAPIException]. It returns one of two dicts: both entries
    [None] when the rename was done, or else the [_name_id] of the new
    volume (its [id] when that is empty) and its [provider_location]. An
    answer in the 200s gives the first, an answer outside the 200s that is
    not a 400 gives the second, and the not-found answer is not absorbed:
    [NotFound] reaches the caller. *)
Theorem X14_update_migrated_volume self volume new_volume :
  raises_only not_VolumeBackendAPIException
    (update_migrated_volume send CONF self volume new_volume)
  /\ (forall (s : State) d s',
        update_migrated_volume send CONF self volume new_volume s
        = (Ok d, s') ->
        d = renamed \/ d = not_renamed new_volume)
  /\ (forall (s : State) response,
        fst (send (first_request (client self) "volumes" "PUT"
                     (Some [("name", JStr (v_id volume))])
                     (JStr (nv_id new_volume)) None None) (world s))
        = Received response ->
        (is_2xx response = true ->
         fst (update_migrated_volume send CONF self volume new_volume s)
         = Ok renamed)
        /\ (failure_response response ->
            fst (update_migrated_volume send CONF self volume new_volume s)
            = Ok (not_renamed new_volume))
        /\ (not_found_response response ->
            fst (update_migrated_volume send CONF self volume new_volume s)
            = Raise NotFound)).
Proof.
  unfold update_migrated_volume. split; [|split].
  - apply raises_only_bind; [|intros; apply raises_only_ret].
    eapply raises_only_try_except; [apply raises_only_any| |].
    + intros e _ H. exact H.
    + intros e _. apply raises_only_bind; [apply raises_only_LOG|].
      intros _. apply raises_only_ret.
  - intros s d s' H. apply bind_Ok_inv in H as (ids & s1 & Hids & H).
    injection H as <- _.
    apply try_except_Ok_inv in Hids as [Hids|(e & s2 & _ & _ & Hids)].
    + apply bind_Ok_inv in Hids as (r & s2 & _ & Hids).
      injection Hids as <- _. now left.
    + apply bind_Ok_inv in Hids as (u & s3 & _ & Hids).
      injection Hids as <- _. now right.
  - intros s response Hsend. split; [|split].
    + intros H2.
      destruct (req_answer_2xx _ _ _ _ _ _ _ _ _ (name_idx_None _)
                  Hsend H2) as [s' Hreq].
      change (success_value "PUT" response) with (@Ok json (JStr "")) in Hreq.
      erewrite bind_Ok; cycle 1.
      { apply try_except_Ok. erewrite bind_Ok; [reflexivity|exact Hreq]. }
      reflexivity.
    + intros Hf.
      destruct (req_answer_failure _ _ _ _ _ _ _ _ _ (name_idx_None _)
                  Hsend Hf) as [s' Hreq].
      erewrite bind_Ok; cycle 1.
      { rewrite (try_except_caught _ _ _ _ (unknown_error response) s');
          [reflexivity| |reflexivity].
        exact (bind_Raise _ _ _ _ _ Hreq). }
      reflexivity.
    + intros Hnf.
      destruct (req_answer_not_found _ _ _ _ _ _ _ _ _ (name_idx_None _)
                  Hsend Hnf) as [s' Hreq].
      erewrite bind_Raise; cycle 1.
      { apply (try_except_passed _ _ _ _ NotFound s'); [|reflexivity].
        exact (bind_Raise _ _ _ _ _ Hreq). }
      reflexivity.
Qed.


Lemma add_volumes_loop_sends self group_id add_volumes :
  sends (group_request (client self) "POST" group_id add_volumes)
    (add_volumes_loop send CONF self group_id add_volumes).
Proof.
  induction add_volumes as [|vol rest IH]; simpl; [apply sends_ret|].
  apply sends_bind.
  - eapply sends_impl; [|apply sends_req]. intros r Hr.
    unfold group_request.
    rewrite (built_by_data _ _ _ _ _ _ _ _ "cg-id" Hr) by discriminate.
    rewrite (built_by_data _ _ _ _ _ _ _ _ "vol-id" Hr) by discriminate.
    destruct Hr as (d & -> & _).
    split; [apply build_request_method|]. split; [reflexivity|].
    split; [reflexivity|]. exists vol. split; [now left|reflexivity].
  - intros _. eapply sends_impl; [|exact IH].
    intros r (Hm & Hu & Hcg & vol' & Hin & Hvol).
    repeat split; try assumption. exists vol'. split; [now right|exact Hvol].
Qed.

Lemma remove_volumes_loop_sends self group_id remove_volumes :
  sends (fun r =>
           group_request (client self) "DELETE" group_id remove_volumes r
           /\ to_named (client self) "DELETE" "consistency-group-volumes"
                "v2" group_id r)
    (remove_volumes_loop send CONF self group_id remove_volumes).
Proof.
  induction remove_volumes as [|vol rest IH]; simpl; [apply sends_ret|].
  apply sends_bind.
  - eapply sends_impl; [|apply sends_req]. intros r Hr. split.
    + unfold group_request.
      rewrite (built_by_data _ _ _ _ _ _ _ _ "cg-id" Hr) by discriminate.
      rewrite (built_by_data _ _ _ _ _ _ _ _ "vol-id" Hr) by discriminate.
      destruct Hr as (d & -> & _).
      split; [apply build_request_method|]. split.
      { unfold build_request. simpl. now destruct (String.eqb group_id ""). }
      split; [reflexivity|]. exists vol. split; [now left|reflexivity].
    + apply (built_by_to_named _ _ _ _ _ (Some "v2") _ Hr). now right.
  - intros _. eapply sends_impl; [|exact IH].
    intros r ((Hm & Hu & Hcg & vol' & Hin & Hvol) & Hn).
    split; [|exact Hn].
    repeat split; try assumption. exists vol'. split; [now right|exact Hvol].
Qed.

(** X15. The requests of [update_consistencygroup] are POSTs followed by
    DELETEs, all to [consistency-group-volumes] of the v2 API: each POST
    carries the group and one of the volumes to add, each DELETE names the
    group and carries the group and one of the volumes to remove. A list
    that is empty or [None] gives no request of its kind, and after an add
    that failed nothing is removed. *)
Theorem X15_update_consistencygroup self group_id add_volumes remove_volumes
    (s : State) :
  exists posts deletes,
    calls_of (trace (snd (update_consistencygroup send CONF self group_id
                            add_volumes remove_volumes s)))
    = (calls_of (trace s) ++ posts ++ deletes)%list
    /\ Forall (group_request (client self) "POST" group_id
                 (or_empty add_volumes)) posts
    /\ Forall (fun r =>
                 group_request (client self) "DELETE" group_id
                   (or_empty remove_volumes) r
                 /\ to_named (client self) "DELETE"
                      "consistency-group-volumes" "v2" group_id r) deletes
    /\ (or_empty add_volumes = [] -> posts = [])
    /\ (or_empty remove_volumes = [] -> deletes = [])
    /\ (fst (add_volumes_loop send CONF self group_id
               (or_empty add_volumes) s) <> Ok tt -> deletes = []).
Proof.
  unfold update_consistencygroup.
  destruct (add_volumes_loop_sends self group_id (or_empty add_volumes) s)
    as (posts & Hp & Hposts).
  unfold bind.
  destruct (add_volumes_loop send CONF self group_id (or_empty add_volumes) s)
    as [[[]|e] s1] eqn:Hadd; simpl in Hp.
  - destruct (remove_volumes_loop_sends self group_id
                (or_empty remove_volumes) s1) as (deletes & Hd & Hdeletes).
    exists posts, deletes. rewrite Hd, Hp, app_assoc.
    split; [reflexivity|]. split; [exact Hposts|]. split; [exact Hdeletes|].
    split; [|split].
    + intros E. rewrite E in Hadd. injection Hadd as <-.
      apply (f_equal length) in Hp. rewrite length_app in Hp.
      destruct posts; [reflexivity|simpl in Hp; lia].
    + intros E. rewrite E in Hd. simpl in Hd.
      apply (f_equal length) in Hd. rewrite length_app in Hd.
      destruct deletes; [reflexivity|simpl in Hd; lia].
    + intros H. now destruct H.
  - exists posts, []. rewrite app_nil_r.
    split; [exact Hp|]. split; [exact Hposts|]. split; [constructor|].
    split; [|split; reflexivity].
    intros E. rewrite E in Hadd. discriminate Hadd.
Qed.

(** X16. [_get_ig] only looks the group up by name, never raises
    [NotFound], and returns [None] on the not-found answer of the array.
    [_create_ig] sends the creation of the group and lookups of it by name,
    nothing else; when the lookup that follows a creation meets the
    not-found answer it raises [VolumeBackendAPIException] with the name
    of the group. *)
Theorem X16_initiator_group self name :
  raises_only not_NotFound (_get_ig send CONF self name)
  /\ sends (group_lookup (client self) name) (_get_ig send CONF self name)
  /\ sends (fun r => group_creation (client self) name r
                     \/ group_lookup (client self) name r)
       (_create_ig send CONF self name)
  /\ (forall (s : State) response,
        fst (send (first_request (client self) "initiator-groups" "GET" None
                     (JStr name) None None) (world s)) = Received response ->
        not_found_response response ->
        fst (_get_ig send CONF self name s) = Ok JNull)
  /\ (forall (s : State) res s1 response,
        req send CONF (client self) "initiator-groups" "POST"
          (Some [("ig-name", JStr name)]) JNull None None s = (Ok res, s1) ->
        fst (send (first_request (client self) "initiator-groups" "GET" None
                     (JStr name) None None) (world s1)) = Received response ->
        not_found_response response ->
        fst (_create_ig send CONF self name s)
        = Raise (VolumeBackendAPIException
                   (kw_data ("Failed to create IG, " ++ name)))).
Proof.
  assert (Hlookup : sends (group_lookup (client self) name)
                      (r <- req send CONF (client self) "initiator-groups"
                              "GET" None (JStr name) None None ;;
                       lift_result (getitem r "content"))).
  { apply sends_bind; [|intros; apply sends_lift_result].
    eapply sends_impl; [|apply sends_req]. intros r Hr.
    apply (built_by_to_named _ _ _ _ _ None _ Hr). now right. }
  unfold _get_ig, _create_ig. split; [|split; [|split; [|split]]].
  - eapply raises_only_try_except; [apply raises_only_any| |].
    + intros e _ H. exact H.
    + intros e _. apply raises_only_ret.
  - apply sends_try_except; [exact Hlookup|intros; apply sends_ret].
  - apply sends_bind.
    + eapply sends_impl; [|apply sends_req]. intros r Hr. left.
      unfold group_creation.
      rewrite (built_by_data _ _ _ _ _ _ _ _ "ig-name" Hr) by discriminate.
      destruct Hr as (d & -> & _).
      split; [apply build_request_method|]. split; reflexivity.
    + intros _. apply sends_try_except; [|intros; apply sends_raise].
      eapply sends_impl; [|exact Hlookup]. now right.
  - intros s response Hsend Hnf.
    destruct (req_answer_not_found _ _ _ _ _ _ _ _ _ (name_idx_None _)
                Hsend Hnf) as [s' Hreq].
    rewrite (try_except_caught _ _ _ _ NotFound s'); [reflexivity| |reflexivity].
    exact (bind_Raise _ _ _ _ _ Hreq).
  - intros s res s1 response Hpost Hsend Hnf.
    destruct (req_answer_not_found _ _ _ _ _ _ _ _ _ (name_idx_None _)
                Hsend Hnf) as [s' Hreq].
    rewrite (bind_Ok _ _ _ _ _ Hpost).
    rewrite (try_except_caught _ _ _ _ NotFound s'); [reflexivity| |reflexivity].
    exact (bind_Raise _ _ _ _ _ Hreq).
Qed.

End Answers.

(** ** Cached answers *)

Section Caches.
Import XtremIO.
Context {World : Type}.
Variable send : Request -> World -> TransportResult * World.
Variable CONF : Conf.
Variable py_text : json -> string.
Local Abbreviation State := (St World Request).

(** What a step leaves of the attribute: it is kept, or has grown. *)
Lemma on_array_attribute {F A : Type} (m : M (S:=State) A) (fs : F * State) :
  fst (snd (on_array m fs)) = fst fs.
Proof. unfold on_array. now destruct (m (snd fs)). Qed.

Lemma on_array_raises {F A : Type} Q (m : M (S:=State) A) :
  raises_only Q m -> raises_only Q (on_array (F:=F) m).
Proof.
  intros Hm fs e fs'. unfold on_array.
  destruct (m (snd fs)) as [r s'] eqn:E. intros H. injection H as -> _.
  exact (Hm _ _ _ E).
Qed.

Lemma portals_loop_grows self iscsi_portals :
  forall fs : list json * State,
  exists more,
    fst (snd (portals_loop send CONF py_text self iscsi_portals fs))
    = (fst fs ++ more)%list.
Proof.
  induction iscsi_portals as [|portal_name rest IH]; intros fs; simpl.
  - exists []. now rewrite app_nil_r.
  - unfold bind at 1. unfold try_except.
    unfold bind at 1.
    pose proof (on_array_attribute (F:=list json)
                  (req send CONF self "iscsi-portals" "GET" None portal_name
                     None None) fs) as Hkeep.
    destruct (on_array _ fs) as [[r|e] fs1]; simpl in Hkeep.
    + unfold bind at 1, lift_result at 1.
      destruct (getitem r "content") as [portal|e].
      * unfold bind, attribute, set_attribute. simpl.
        destruct (IH ((fst fs1 ++ [portal])%list, snd fs1)) as (more & Hm).
        exists (portal :: more). rewrite Hm. simpl. rewrite Hkeep.
        now rewrite <- app_assoc.
      * destruct (is_NotFound e); simpl; exists []; now rewrite app_nil_r.
    + destruct (is_NotFound e); simpl; exists []; now rewrite app_nil_r.
Qed.

(** X17. [XtremIOClient3.get_iscsi_portals] answers from [self._portals]
    whenever that is not empty, without asking the array, and what it
    returns is always what the cache then holds. The loop that fills the
    cache only appends to it, also when it fails; so after a call that
    failed with some portals fetched, the next call returns those portals
    alone. *)
Theorem X17_iscsi_portals_cache self (fs : list json * State) :
  let run := XtremIOClient3_get_iscsi_portals send CONF py_text self fs in
  (forall portals, fst run = Ok portals -> portals = fst (snd run))
  /\ (fst fs <> [] -> run = (Ok (fst fs), fs))
  /\ (fst (snd run) <> [] ->
      XtremIOClient3_get_iscsi_portals send CONF py_text self (snd run)
      = (Ok (fst (snd run)), snd run))
  /\ (forall iscsi_portals, exists more,
        fst (snd (portals_loop send CONF py_text self iscsi_portals fs))
        = (fst fs ++ more)%list).
Proof.
  assert (Hhit : forall fs0 : list json * State,
            fst fs0 <> [] ->
            XtremIOClient3_get_iscsi_portals send CONF py_text self fs0
            = (Ok (fst fs0), fs0)).
  { intros [[|p l] s0] H; [now destruct H|reflexivity]. }
  intros run. split; [|split; [|split]].
  - intros portals. subst run. destruct fs as [[|p l] s]; cycle 1.
    { intros H. now injection H as <-. }
    unfold XtremIOClient3_get_iscsi_portals, bind, attribute, lift_result.
    cbn [fst snd].
    destruct (on_array _ ([], s)) as [[r|e] fs1]; [|discriminate].
    destruct (getitem r "iscsi-portals") as [l|e]; [|discriminate].
    destruct (iter_json l) as [l'|e]; [|discriminate].
    destruct (result_map _ l') as [names|e]; [|discriminate].
    destruct (portals_loop send CONF py_text self names fs1) as [[[]|e] fs2];
      [|discriminate].
    cbn [fst snd]. intros H. now injection H as <-.
  - apply Hhit.
  - apply Hhit.
  - intros iscsi_portals. apply portals_loop_grows.
Qed.

Lemma up_ports_no_colon targets : forall ports,
  up_ports targets = Ok ports ->
  Forall (fun p => contains ":" p = false) ports.
Proof.
  induction targets as [|target rest IH]; intros ports H; simpl in H.
  - injection H as <-. constructor.
  - destruct (getitem target "port-state") as [state|e]; [|discriminate].
    destruct (py_eq_str state "up"); [|now apply IH].
    destruct (getitem target "port-address") as [[| | |address| |]|e];
      try discriminate.
    destruct (up_ports rest) as [ports'|e]; [|discriminate].
    injection H as <-. constructor; [apply contains_remove_char|now apply IH].
Qed.

(** X18. [XtremIOFCDriver.get_targets] never raises [NotFound]. What it
    returns is what [self._targets] then holds; a call that raises leaves
    the cache as it was; a cache that is not empty is returned as it is,
    without asking the array; and the targets fetched from the array have
    no colon. *)
Theorem X18_get_targets self (fs : option (list string) * State) :
  let run := get_targets send CONF self fs in
  raises_only not_NotFound (get_targets send CONF self)
  /\ (forall ports, fst run = Ok ports -> fst (snd run) = Some ports)
  /\ (forall e, fst run = Raise e -> fst (snd run) = fst fs)
  /\ (forall t l, fst fs = Some (t :: l) -> run = (Ok (t :: l), fs))
  /\ (forall ports,
        fst run = Ok ports -> fst fs = None \/ fst fs = Some [] ->
        Forall (fun p => contains ":" p = false) ports).
Proof.
  intros run.
  set (fetch :=
         try_except
           (r <- on_array (F:=option (list string))
                   (req send CONF (client self) "targets" "GET" None JNull
                      None None) ;;
            target_list <- lift_result (getitem r "targets") ;;
            target_list <- lift_result (iter_json target_list) ;;
            targets <- on_array (fc_targets send CONF self target_list) ;;
            ports <- lift_result (up_ports targets) ;;
            set_attribute (Some ports) ;;;
            ret ports)
           is_NotFound
           (fun _ =>
              raise (VolumeBackendAPIException
                       (kw_data "Failed to get targets")))).
  assert (Hmiss : forall fs0 : option (list string) * State,
            fst fs0 = None \/ fst fs0 = Some [] ->
            get_targets send CONF self fs0 = fetch fs0).
  { intros [c s0] [H|H]; simpl in H; subst c; reflexivity. }
  assert (Hhit : forall t l (fs0 : option (list string) * State),
            fst fs0 = Some (t :: l) ->
            get_targets send CONF self fs0 = (Ok (t :: l), fs0)).
  { intros t l [c s0] H; simpl in H; subst c; reflexivity. }
  assert (Hcases : forall fs0 : option (list string) * State,
            (exists t l, fst fs0 = Some (t :: l))
            \/ fst fs0 = None \/ fst fs0 = Some []).
  { intros [[[|t l]|] s0]; simpl; eauto. }
  assert (Hfetch : forall fs0 : option (list string) * State,
            match fetch fs0 with
            | (Ok ports, fs') =>
                fst fs' = Some ports
                /\ Forall (fun p => contains ":" p = false) ports
            | (Raise e, fs') => fst fs' = fst fs0 /\ not_NotFound e
            end).
  { intros fs0. unfold fetch, try_except.
    unfold bind at 1.
    pose proof (on_array_attribute (F:=option (list string))
                  (req send CONF (client self) "targets" "GET" None JNull
                     None None) fs0) as Hk1.
    destruct (on_array _ fs0) as [[r|e] fs1]; simpl in Hk1; cycle 1.
    { destruct (is_NotFound e) eqn:E; simpl; now split. }
    unfold bind at 1, lift_result at 1.
    destruct (getitem r "targets") as [l|e] eqn:E1; cycle 1.
    { apply getitem_not_NotFound in E1. rewrite E1. now split. }
    unfold bind at 1, lift_result at 1.
    destruct (iter_json l) as [l'|e] eqn:E2; cycle 1.
    { apply iter_json_not_NotFound in E2. rewrite E2. now split. }
    unfold bind at 1.
    pose proof (on_array_attribute (F:=option (list string))
                  (fc_targets send CONF self l') fs1) as Hk2.
    destruct (on_array _ fs1) as [[targets|e] fs2]; simpl in Hk2; cycle 1.
    { destruct (is_NotFound e) eqn:E; simpl;
        (split; [congruence|first [reflexivity|exact E]]). }
    unfold bind at 1, lift_result at 1.
    destruct (up_ports targets) as [ports|e] eqn:E3.
    - simpl. split; [reflexivity|]. now apply up_ports_no_colon in E3.
    - destruct (is_NotFound e) eqn:E; simpl;
        (split; [congruence|first [reflexivity|exact E]]). }
  split; [|split; [|split; [|split]]].
  - intros fs0 e fs' H.
    destruct (Hcases fs0) as [(t & l & Hc)|Hc].
    + rewrite (Hhit t l fs0 Hc) in H. discriminate.
    + rewrite (Hmiss fs0 Hc) in H. specialize (Hfetch fs0).
      rewrite H in Hfetch. apply Hfetch.
  - intros ports H. subst run.
    destruct (Hcases fs) as [(t & l & Hc)|Hc].
    + rewrite (Hhit t l fs Hc) in *. simpl in *. congruence.
    + rewrite (Hmiss fs Hc) in *. specialize (Hfetch fs).
      destruct (fetch fs) as [[p|e] fs']; simpl in *; [|discriminate].
      injection H as <-. apply Hfetch.
  - intros e H. subst run.
    destruct (Hcases fs) as [(t & l & Hc)|Hc].
    + rewrite (Hhit t l fs Hc) in *. discriminate.
    + rewrite (Hmiss fs Hc) in *. specialize (Hfetch fs).
      destruct (fetch fs) as [[p|e'] fs']; simpl in *; [discriminate|].
      apply Hfetch.
  - intros t l Hc. exact (Hhit t l fs Hc).
  - intros ports H Hc. subst run.
    rewrite (Hmiss fs Hc) in *. specialize (Hfetch fs).
    destruct (fetch fs) as [[p|e'] fs']; simpl in *; [|discriminate].
    injection H as <-. apply Hfetch.
Qed.

End Caches.

(** Two portals are listed and the second has vanished: the call fails,
    and the next one answers with the first portal alone, from the cache,
    without asking the array. *)
Lemma X17_iscsi_portals_cache_witness :
  let fs := ([], XtremIO.start [names_answer "iscsi-portals" ["p1"; "p2"];
                                content_answer (portal "p1");
                                XtremIO.error_answer "obj_not_found"]) in
  let first := XtremIO.XtremIOClient3_get_iscsi_portals XtremIO.scripted
                 XtremIO.XTREMIO_OPTS (fun _ => "") example_client3 fs in
  fst first
  = Raise (VolumeBackendAPIException (kw_data "iscsi portal, p2, not found"))
  /\ XtremIO.XtremIOClient3_get_iscsi_portals XtremIO.scripted
       XtremIO.XTREMIO_OPTS (fun _ => "") example_client3 (snd first)
     = (Ok [portal "p1"], snd first).
Proof.
  intros fs first. split; [reflexivity|].
  apply (proj1 (proj2 (proj2 (X17_iscsi_portals_cache XtremIO.scripted
                                XtremIO.XTREMIO_OPTS (fun _ => "")
                                example_client3 fs)))).
  discriminate.
Defined.

(** Of two targets one is a Fibre Channel port: its address is cached
    without its colons, and the next call does not ask the array. *)
Lemma X18_get_targets_witness :
  let fs := (None,
             XtremIO.start
               [names_answer "targets" ["X1-SC1-fc1"; "X1-SC1-iscsi1"];
                content_answer
                  (fc_target "X1-SC1-fc1" "21:00:00:24:ff:57:b2:36")]) in
  let first := XtremIO.get_targets XtremIO.scripted XtremIO.XTREMIO_OPTS
                 example_driver fs in
  fst first = Ok ["21000024ff57b236"]
  /\ XtremIO.get_targets XtremIO.scripted XtremIO.XTREMIO_OPTS example_driver
       (snd first)
     = (Ok ["21000024ff57b236"], snd first).
Proof.
  intros fs first. split; [reflexivity|].
  apply (proj1 (proj2 (proj2 (proj2 (X18_get_targets XtremIO.scripted
                                       XtremIO.XTREMIO_OPTS example_driver
                                       (snd first)))))).
  reflexivity.
Defined.

(** ** Hosts and ports of the Unity system *)

Section HostFacts.
Import UnityHosts.
Context {World : Type}.
Variable storops : forall c : storops_call,
  World -> result (answer_type c) * World.
Local Abbreviation State := (St World storops_call).

Lemma host_call_eq c (s : State) :
  call storops c s
  = (fst (storops c (world s)),
     mkSt (snd (storops c (world s))) (trace s ++ [EvCall c])).
Proof.
  unfold call, bind, external, lift_result.
  destruct (storops c (world s)) as [[a|e] w]; reflexivity.
Qed.

Lemma host_call_calls c (s : State) :
  calls_of (trace (snd (call storops c s)))
  = (calls_of (trace s) ++ [c])%list.
Proof. rewrite host_call_eq. simpl. now rewrite calls_of_app. Qed.

(** The loop adds the initiators in order and stops at the first call that
    fails. *)
Lemma add_initiators_calls host uids : forall s : State,
  exists done rest,
    calls_of (trace (snd (add_initiators storops host uids s)))
    = (calls_of (trace s) ++ done)%list
    /\ map (fun uid => host_add_initiator host uid true) uids
       = (done ++ rest)%list
    /\ (fst (add_initiators storops host uids s) = Ok tt -> rest = []).
Proof.
  induction uids as [|uid uids IH]; intros s.
  - exists [], []. simpl. rewrite app_nil_r. now repeat split.
  - simpl. unfold bind.
    pose proof (host_call_calls (host_add_initiator host uid true) s) as Hc.
    destruct (call storops (host_add_initiator host uid true) s)
      as [[[]|e] s1]; simpl in Hc.
    + destruct (IH s1) as (done & rest & Hd & Hm & Hok).
      exists (host_add_initiator host uid true :: done), rest.
      rewrite Hd, Hc, <- app_assoc. simpl. rewrite Hm.
      now repeat split.
    + exists [host_add_initiator host uid true],
        (map (fun uid => host_add_initiator host uid true) uids).
      simpl. repeat split; [exact Hc|discriminate].
Qed.

Lemma un_registered_spec uids ids uid :
  In uid (un_registered uids ids) <-> In uid uids /\ ~ In uid ids.
Proof.
  unfold un_registered, py_in_list. rewrite filter_In, negb_true_iff.
  split; intros [H1 H2]; (split; [exact H1|]).
  - intros Hin.
    assert (existsb (String.eqb uid) ids = true)
      by (apply existsb_exists; exists uid; split;
          [exact Hin|apply String.eqb_refl]).
    congruence.
  - destruct (existsb (String.eqb uid) ids) eqn:E; [|reflexivity].
    apply existsb_exists in E as (x & Hx & Heq).
    apply String.eqb_eq in Heq. subst x. contradiction.
Qed.

(** X19. Once [create_host] has its host, found or created, and the ids of
    the initiators the host has, the calls it makes are, in this order,
    one [add_initiator] with [force_create=True] for each of the [uids]
    that is not among those ids, then one [update] of the host; it stops
    at the first call that fails. When it returns it has made them all and
    returns that host. *)
Theorem X19_create_host name uids (s : State) host s1 ids s2 :
  get_or_create_host storops name s = (Ok host, s1) ->
  get_host_initiator_ids storops host s1 = (Ok ids, s2) ->
  let run := create_host storops name uids s in
  let adds := map (fun uid => host_add_initiator host uid true)
                (un_registered uids ids) in
  (exists done rest,
     calls_of (trace (snd run)) = (calls_of (trace s2) ++ done)%list
     /\ (adds ++ [host_update host])%list = (done ++ rest)%list)
  /\ (forall h,
        fst run = Ok h ->
        h = host
        /\ calls_of (trace (snd run))
           = (calls_of (trace s2) ++ adds ++ [host_update host])%list)
  /\ (forall uid,
        In uid (un_registered uids ids) <-> In uid uids /\ ~ In uid ids).
Proof.
  intros Hhost Hids run adds.
  assert (Hrun : run
                 = (add_initiators storops host (un_registered uids ids) ;;;
                    call storops (host_update host) ;;;
                    ret host) s2).
  { subst run. unfold create_host.
    rewrite (bind_Ok _ _ _ _ _ Hhost). now rewrite (bind_Ok _ _ _ _ _ Hids). }
  destruct (add_initiators_calls host (un_registered uids ids) s2)
    as (done & rest & Hd & Hm & Hok).
  fold adds in Hm.
  rewrite Hrun. unfold bind.
  destruct (add_initiators storops host (un_registered uids ids) s2)
    as [[[]|e] s3]; simpl in Hd, Hok.
  - specialize (Hok eq_refl). subst rest. rewrite app_nil_r in Hm.
    subst done.
    pose proof (host_call_calls (host_update host) s3) as Hc.
    destruct (call storops (host_update host) s3) as [[[]|e] s4];
      simpl in Hc; simpl.
    + split; [|split; [|apply un_registered_spec]].
      * exists (adds ++ [host_update host])%list, [].
        rewrite app_nil_r, Hc, Hd, <- app_assoc. now split.
      * intros h H. injection H as <-.
        split; [reflexivity|]. now rewrite Hc, Hd, <- app_assoc.
    + split; [|split; [|apply un_registered_spec]].
      * exists (adds ++ [host_update host])%list, [].
        rewrite app_nil_r, Hc, Hd, <- app_assoc. now split.
      * intros h H. discriminate H.
  - simpl. split; [|split; [|apply un_registered_spec]].
    + exists done, (rest ++ [host_update host])%list.
      split; [exact Hd|]. now rewrite Hm, <- app_assoc.
    + intros h H. discriminate H.
Qed.

Lemma string_drop_no_colon n : forall s,
  contains ":" s = false -> contains ":" (string_drop n s) = false.
Proof.
  induction n as [|n IH]; intros s H; [exact H|].
  destruct s as [|a s]; [reflexivity|]. simpl.
  apply IH. rewrite contains_char_cons in H.
  now apply orb_false_elim in H as [_ H].
Qed.

Lemma string_drop_app (a b : string) :
  string_drop (String.length a) (a ++ b) = b.
Proof. induction a as [|c a IH]; [now destruct b|exact IH]. Qed.

Lemma port_wwn_no_colon po : contains ":" (port_wwn po) = false.
Proof. apply string_drop_no_colon, contains_remove_char. Qed.

(** X20. The WWNs [get_fc_target_info] returns have no colon. A WWN made
    of a node part of 16 digits and a port part gives the port part
    without its colons. Without [logged_in_only] the method makes one
    call, for the ports of the system; with it, it reads the initiators
    of the host and returns the ports of their logged-in paths, raises
    [AttributeError] for no host and [TypeError] for a host whose
    initiators are [None]. *)
Theorem X20_get_fc_target_info host logged_in_only :
  (forall (s : State) wwns s',
     get_fc_target_info storops host logged_in_only s = (Ok wwns, s') ->
     Forall (fun w => contains ":" w = false) wwns)
  /\ (forall node port : string,
        String.length (XtremIO.remove_char ":" node) = 16%nat ->
        port_wwn (mkFcPort (node ++ port)) = XtremIO.remove_char ":" port)
  /\ (forall s : State,
        get_fc_target_info storops host false s
        = (match fst (storops system_get_fc_port (world s)) with
           | Ok ports => Ok (map port_wwn ports)
           | Raise e => Raise e
           end,
           mkSt (snd (storops system_get_fc_port (world s)))
             (trace s ++ [EvCall system_get_fc_port])))
  /\ (forall s : State,
        get_fc_target_info storops None true s = (Raise AttributeError, s))
  /\ (forall (s : State) h,
        fst (storops (host_fc_host_initiators h) (world s)) = Ok None ->
        fst (get_fc_target_info storops (Some h) true s) = Raise TypeError)
  /\ (forall (s : State) h initiators,
        fst (storops (host_fc_host_initiators h) (world s))
        = Ok (Some initiators) ->
        fst (get_fc_target_info storops (Some h) true s)
        = Ok (map port_wwn (logged_in_ports initiators))
        /\ calls_of (trace (snd (get_fc_target_info storops (Some h) true s)))
           = (calls_of (trace s) ++ [host_fc_host_initiators h])%list).
Proof.
  split; [|split; [|split; [|split; [|split]]]].
  - intros s wwns s' H. unfold get_fc_target_info in H.
    apply bind_Ok_inv in H as (ports & s1 & _ & H). injection H as <- _.
    apply List.Forall_forall. intros w Hw.
    apply in_map_iff in Hw as (po & <- & _).
    apply port_wwn_no_colon.
  - intros node port Hlen. unfold port_wwn. cbn [wwn].
    rewrite remove_char_app, <- Hlen. apply string_drop_app.
  - intros s. unfold get_fc_target_info, bind. rewrite host_call_eq.
    now destruct (fst (storops system_get_fc_port (world s))).
  - reflexivity.
  - intros s h H. unfold get_fc_target_info, bind. rewrite host_call_eq.
    cbn [fst snd]. now rewrite H.
  - intros s h initiators H. unfold get_fc_target_info, bind.
    rewrite host_call_eq. cbn [fst snd]. rewrite H. simpl.
    split; [reflexivity|]. now rewrite calls_of_app.
Qed.

End HostFacts.

(** A host that has one of two initiators gets the other, and is then
    updated. *)
Lemma X19_create_host_witness :
  let s := UnityHosts.start (UnityHosts.mkArray [("h1", ["iqn.a"])] []) in
  let h1 := UnityHosts.mkHost "h1" in
  let run := UnityHosts.create_host UnityHosts.small_unity "h1"
               ["iqn.a"; "iqn.b"] s in
  fst run = Ok h1
  /\ calls_of (trace (snd run))
     = [UnityHosts.system_get_host "h1";
        UnityHosts.host_fc_host_initiators h1;
        UnityHosts.host_iscsi_host_initiators h1;
        UnityHosts.host_add_initiator h1 "iqn.b" true;
        UnityHosts.host_update h1].
Proof.
  intros s h1 run. split; [reflexivity|].
  exact (proj2 (proj1 (proj2
           (X19_create_host UnityHosts.small_unity "h1" ["iqn.a"; "iqn.b"] s
              h1 _ ["iqn.a"] _ eq_refl eq_refl)) h1 eq_refl)).
Defined.
